(** * Ti_matweb: the materials browser ([app.py]) and its offline merge tool
      ([tools/merge_results.py]), embedded and verified.

    Conventions of the embedding.
    - A Python [str] is a [string] holding its UTF-8 bytes.
    - Numbers are exact rationals: the rounding of IEEE doubles is not
      modelled, their order (with the infinities and NaN of Python) is.
    - SQLite is the engine behind [sqlite3]: its storage classes, its CAST and
      comparison rules and the small fragment of SQL text that the program
      generates are modelled here; statement text is lexed and parsed, so a
      name that breaks out of its quotes yields another statement, as it does
      in the engine.
    - The file system, the process-wide [CURRENT_DB] and the faults of the
      operating system are one explicit [world] threaded through the
      handlers; a Python exception is the [Raise] result. *)

From Stdlib Require Import QArith Qminmax.
From stdpp Require Import gmap strings list fin_maps sorting pretty.
From Stdlib Require Import Ascii String.

Local Open Scope string_scope.
Local Open Scope list_scope.
Local Open Scope Z_scope.

(** ** Python strings *)

Definition dquote : ascii := "034"%char.
Definition squote : ascii := "039"%char.

Definition byte_in (lo hi : N) (c : ascii) : bool :=
  ((lo <=? N_of_ascii c) && (N_of_ascii c <=? hi))%N.

Definition is_digit (c : ascii) : bool := byte_in 48 57 c.
Definition is_upper (c : ascii) : bool := byte_in 65 90 c.
Definition is_alpha (c : ascii) : bool := byte_in 65 90 c || byte_in 97 122 c.

Definition digit_val (c : ascii) : Z := Z.of_N (N_of_ascii c) - 48.

(** [str.lower()] on the ASCII letters.  Other code points are left alone:
    no non-ASCII code point lowers to a letter of "id", "name" or "category",
    the only strings a lowered name is compared with. *)
Definition lower_char (c : ascii) : ascii :=
  if is_upper c then ascii_of_N (N_of_ascii c + 32) else c.

Fixpoint lower (s : string) : string :=
  match s with
  | EmptyString => EmptyString
  | String c r => String (lower_char c) (lower r)
  end.

(** Byte length of the white-space code point that starts [s], 0 when [s]
    does not start with one.  White space is what [str.isspace] accepts:
    U+0009..U+000D, U+001C..U+0020, U+0085, U+00A0, U+1680, U+2000..U+200A,
    U+2028, U+2029, U+202F, U+205F and U+3000, in UTF-8. *)
Definition ws_len (s : string) : nat :=
  match s with
  | EmptyString => 0%nat
  | String c r =>
    if byte_in 9 13 c || byte_in 28 32 c then 1%nat
    else match N_of_ascii c, r with
    | 194%N, String d _ =>
        if (N_of_ascii d =? 133)%N || (N_of_ascii d =? 160)%N then 2%nat else 0%nat
    | 225%N, String d (String e _) =>
        if (N_of_ascii d =? 154)%N && (N_of_ascii e =? 128)%N then 3%nat else 0%nat
    | 226%N, String d (String e _) =>
        if (N_of_ascii d =? 128)%N
           && (byte_in 128 138 e || byte_in 168 169 e || (N_of_ascii e =? 175)%N)
        then 3%nat
        else if (N_of_ascii d =? 129)%N && (N_of_ascii e =? 159)%N then 3%nat
        else 0%nat
    | 227%N, String d (String e _) =>
        if (N_of_ascii d =? 128)%N && (N_of_ascii e =? 128)%N then 3%nat else 0%nat
    | _, _ => 0%nat
    end
  end.

Fixpoint lstrip_from (skip : nat) (s : string) : string :=
  match s with
  | EmptyString => EmptyString
  | String _ r =>
    match skip with
    | S k => lstrip_from k r
    | O => match ws_len s with
           | O => s
           | S k => lstrip_from k r
           end
    end
  end.

Definition lstrip (s : string) : string := lstrip_from 0 s.

Definition all_space (s : string) : bool :=
  match lstrip s with EmptyString => true | _ => false end.

Fixpoint rstrip (s : string) : string :=
  match s with
  | EmptyString => EmptyString
  | String c r => if all_space s then EmptyString else String c (rstrip r)
  end.

(** [str.strip()] *)
Definition strip (s : string) : string := rstrip (lstrip s).

(** [sep.join(parts)] *)
Fixpoint join (sep : string) (parts : list string) : string :=
  match parts with
  | [] => EmptyString
  | [p] => p
  | p :: r => p +:+ sep +:+ join sep r
  end.



(** [s.endswith(suffix)] *)
Definition endswith (s suffix : string) : bool :=
  let n := String.length s in
  let k := String.length suffix in
  (k <=? n)%nat && String.eqb (substring (n - k) k s) suffix.

(** ** Numbers read from text *)

(** The run of decimal digits at the head of [s] and what follows it.  With
    [us] a single underscore between two digits belongs to the run (Python's
    [digitpart]) and is dropped from the digits returned. *)
Fixpoint scan_digits (us : bool) (s : string) : string * string :=
  match s with
  | EmptyString => (EmptyString, EmptyString)
  | String c r =>
    if is_digit c then
      match r with
      | String u (String d _ as r') =>
        if us && Ascii.eqb u "_"%char && is_digit d
        then let '(ds, rest) := scan_digits us r' in (String c ds, rest)
        else let '(ds, rest) := scan_digits us r in (String c ds, rest)
      | _ => let '(ds, rest) := scan_digits us r in (String c ds, rest)
      end
    else (EmptyString, s)
  end.

Fixpoint digits_val (acc : Z) (ds : string) : Z :=
  match ds with
  | EmptyString => acc
  | String c r => digits_val (10 * acc + digit_val c) r
  end.

(** An optional sign: [(negative, rest)]. *)
Definition scan_sign (s : string) : bool * string :=
  match s with
  | String "-"%char r => (true, r)
  | String "+"%char r => (false, r)
  | _ => (false, s)
  end.

Definition apply_sign (neg : bool) (z : Z) : Z := if neg then - z else z.

(** [m * 10^e] as an exact rational. *)
Definition dec_value (m e : Z) : Q :=
  if 0 <=? e then inject_Z (m * 10 ^ e) else Qmake m (Z.to_pos (10 ^ (- e))).


(** Python floats: the finite values (exact), the infinities and NaN. *)
Inductive pyfloat : Type :=
| Fin (q : Q)
| PosInf
| NegInf
| NaN.

Definition Qlt_bool (a b : Q) : bool := negb (Qle_bool b a).

(** [a < b] and [a <= b] on floats: every comparison with NaN is false. *)
Definition float_lt (a b : pyfloat) : bool :=
  match a, b with
  | NaN, _ | _, NaN => false
  | _, NegInf => false
  | NegInf, _ => true
  | PosInf, _ => false
  | _, PosInf => true
  | Fin x, Fin y => Qlt_bool x y
  end.



(** The exponent part [e[+-]digits] that must use up the text. *)
Definition scan_exponent (us : bool) (s : string) : option Z :=
  match s with
  | String c r =>
    if Ascii.eqb c "e"%char || Ascii.eqb c "E"%char then
      let '(neg, r1) := scan_sign r in
      match scan_digits us r1 with
      | (String _ _ as ds, EmptyString) => Some (apply_sign neg (digits_val 0 ds))
      | _ => None
      end
    else None
  | EmptyString => Some 0
  end.

(** The decimal literal of [float()]: [[digitpart] "." digitpart], or
    [digitpart ["."]], then an optional exponent; nothing may follow. *)
Definition py_decimal (body : string) : option Q :=
  let '(ip, r1) := scan_digits true body in
  let '(fp, r2) :=
    match r1 with
    | String "."%char r => scan_digits true r
    | _ => (EmptyString, r1)
    end in
  match ip +:+ fp with
  | EmptyString => None
  | String _ _ as ds =>
    match scan_exponent true r2 with
    | Some e => Some (dec_value (digits_val 0 ds) (e - Z.of_nat (String.length fp)))
    | None => None
    end
  end.

(** [float(x)] on a [str] or [bytes]: [None] is [ValueError]. *)
Definition py_float_of_text (x : string) : option pyfloat :=
  let '(neg, body) := scan_sign (strip x) in
  let w := lower body in
  if String.eqb w "inf" || String.eqb w "infinity"
  then Some (if neg then NegInf else PosInf)
  else if String.eqb w "nan" then Some NaN
  else match py_decimal body with
       | Some q => Some (Fin (if neg then Qopp q else q))
       | None => None
       end.

(** ** SQLite values *)

(** The five storage classes, which [sqlite3] maps one to one to the Python
    values [None], [int], [float], [str] and [bytes]. *)
Inductive value : Type :=
| Null
| Int (z : Z)
| Real (q : Q)
| Text (s : string)
| Blob (s : string).

Definition sqlite_isspace (c : ascii) : bool :=
  byte_in 9 13 c || byte_in 32 32 c.

Fixpoint skip_spaces (s : string) : string :=
  match s with
  | String c r => if sqlite_isspace c then skip_spaces r else s
  | EmptyString => EmptyString
  end.

(** Exponent of a numeric prefix: used only when digits follow the [e]. *)
Definition prefix_exponent (s : string) : Z * string :=
  match s with
  | String c r =>
    if Ascii.eqb c "e"%char || Ascii.eqb c "E"%char then
      let '(neg, r1) := scan_sign r in
      match scan_digits false r1 with
      | (String _ _ as ds, rest) => (apply_sign neg (digits_val 0 ds), rest)
      | _ => (0, s)
      end
    else (0, s)
  | EmptyString => (0, s)
  end.

(** The longest prefix of [s] that reads as a real number, after leading
    spaces, and the text left over; [None] when there is no such prefix. *)
Definition numeric_prefix (s : string) : option (Q * string) :=
  let '(neg, body) := scan_sign (skip_spaces s) in
  let '(ip, r1) := scan_digits false body in
  let '(fp, r2) :=
    match r1 with
    | String "."%char r => scan_digits false r
    | _ => (EmptyString, r1)
    end in
  match ip +:+ fp with
  | EmptyString => None
  | String _ _ as ds =>
    let '(e, rest) := prefix_exponent r2 in
    let q := dec_value (digits_val 0 ds) (e - Z.of_nat (String.length fp)) in
    Some (if neg then Qopp q else q, rest)
  end.

(** CAST of TEXT to REAL: the numeric prefix, 0.0 when there is none.  The
    cast never fails. *)
Definition text_to_real (s : string) : Q :=
  match numeric_prefix s with
  | Some (q, _) => q
  | None => 0%Q
  end.

(** [CAST(v AS REAL)]; [None] is NULL, which only NULL casts to. *)
Definition cast_real (v : value) : option Q :=
  match v with
  | Null => None
  | Int z => Some (inject_Z z)
  | Real q => Some q
  | Text s | Blob s => Some (text_to_real s)
  end.

(** TEXT that is a well-formed numeric literal as a whole (spaces around it
    allowed): what NUMERIC affinity converts. *)
Definition text_as_number (s : string) : option Q :=
  match numeric_prefix s with
  | Some (q, rest) =>
    match skip_spaces rest with EmptyString => Some q | _ => None end
  | None => None
  end.

(** NUMERIC affinity applied to an operand that has none. *)
Definition numeric_affinity (v : value) : value :=
  match v with
  | Text s => match text_as_number s with Some q => Real q | None => v end
  | _ => v
  end.

Definition storage_rank (v : value) : Z :=
  match v with Null => 0 | Int _ | Real _ => 1 | Text _ => 2 | Blob _ => 3 end.

Definition numeric_of (v : value) : Q :=
  match v with Int z => inject_Z z | Real q => q | _ => 0%Q end.

Definition bytes_of (v : value) : string :=
  match v with Text s | Blob s => s | _ => EmptyString end.

Definition string_leb (a b : string) : bool :=
  match String.compare a b with Gt => false | _ => true end.

(** The order of ORDER BY and of comparisons between non-NULL values: NULL,
    then numbers by value, then text, then blobs, the last two bytewise. *)
Definition value_leb (a b : value) : bool :=
  if storage_rank a <? storage_rank b then true
  else if storage_rank b <? storage_rank a then false
  else match a with
       | Null => true
       | Int _ | Real _ => Qle_bool (numeric_of a) (numeric_of b)
       | Text _ | Blob _ => string_leb (bytes_of a) (bytes_of b)
       end.

(** Three-valued logic: [None] is NULL. *)
Definition sql_le (a b : value) : option bool :=
  match a, b with
  | Null, _ | _, Null => None
  | _, _ => Some (value_leb a b)
  end.

Definition sql_eq (a b : value) : option bool :=
  match a, b with
  | Null, _ | _, Null => None
  | _, _ => Some (value_leb a b && value_leb b a)
  end.

Definition sql_and (a b : option bool) : option bool :=
  match a, b with
  | Some false, _ | _, Some false => Some false
  | Some true, Some true => Some true
  | _, _ => None
  end.

Definition sql_or (a b : option bool) : option bool :=
  match a, b with
  | Some true, _ | _, Some true => Some true
  | Some false, Some false => Some false
  | _, _ => None
  end.

(** [x BETWEEN lo AND hi] where [x] has REAL affinity and the bounds are
    bound parameters: [x >= lo AND x <= hi], NUMERIC affinity on the bounds. *)
Definition sql_between (x : option Q) (lo hi : value) : option bool :=
  let xv := match x with Some q => Real q | None => Null end in
  sql_and (sql_le (numeric_affinity lo) xv) (sql_le xv (numeric_affinity hi)).

(** A WHERE clause keeps the rows on which it is true. *)
Definition is_true (b : option bool) : bool :=
  match b with Some true => true | _ => false end.

(** ** The SQL text the program generates: tokens *)

(** Bare words; SQL keywords and bare identifiers ignore case. *)
Inductive word : Type :=
| W_select | W_from | W_where | W_and | W_cast | W_as | W_real | W_between
| W_in | W_order | W_by | W_rowid | W_materials | W_create | W_table
| W_insert | W_into | W_values | W_text | W_integer | W_primary | W_key
| W_count | W_one
| W_other (s : string).

Definition keywords : list (string * word) :=
  [("select", W_select); ("from", W_from); ("where", W_where); ("and", W_and);
   ("cast", W_cast); ("as", W_as); ("real", W_real); ("between", W_between);
   ("in", W_in); ("order", W_order); ("by", W_by); ("rowid", W_rowid);
   ("materials", W_materials); ("create", W_create); ("table", W_table);
   ("insert", W_insert); ("into", W_into); ("values", W_values);
   ("text", W_text); ("integer", W_integer); ("primary", W_primary);
   ("key", W_key); ("count", W_count); ("1", W_one)].

Fixpoint assoc_word (kws : list (string * word)) (s : string) : word :=
  match kws with
  | [] => W_other s
  | (k, w) :: r => if String.eqb k s then w else assoc_word r s
  end.

Definition classify (s : string) : word := assoc_word keywords (lower s).

Inductive punct : Type :=
| P_lparen | P_rparen | P_comma | P_qmark | P_eq | P_star
| P_other (c : ascii).

Definition punct_of (c : ascii) : punct :=
  if Ascii.eqb c "("%char then P_lparen
  else if Ascii.eqb c ")"%char then P_rparen
  else if Ascii.eqb c ","%char then P_comma
  else if Ascii.eqb c "?"%char then P_qmark
  else if Ascii.eqb c "="%char then P_eq
  else if Ascii.eqb c "*"%char then P_star
  else P_other c.

Inductive token : Type :=
| TWord (w : word)
| TName (s : string)      (* a double-quoted identifier, quotes removed *)
| TString (s : string)    (* a single-quoted string literal *)
| TPunct (p : punct)
| TBad.                   (* a quote that is never closed *)

(** Where the lexer stands: between tokens, inside a bare word, inside a
    quoted name or literal, or just after a quote character that either
    closes it or, doubled, stands for one quote character inside it. *)
Inductive lex_state : Type :=
| LIdle
| LWord (acc : string)
| LName (acc : string)
| LNameQ (acc : string)
| LStr (acc : string)
| LStrQ (acc : string).

Definition is_word_char (c : ascii) : bool :=
  is_alpha c || is_digit c || Ascii.eqb c "_"%char || byte_in 128 255 c.

Definition snoc (acc : string) (c : ascii) : string := acc +:+ String c EmptyString.

Definition step_idle (c : ascii) : list token * lex_state :=
  if sqlite_isspace c then ([], LIdle)
  else if Ascii.eqb c dquote then ([], LName EmptyString)
  else if Ascii.eqb c squote then ([], LStr EmptyString)
  else if is_word_char c then ([], LWord (String c EmptyString))
  else ([TPunct (punct_of c)], LIdle).

Definition emit (t : token) (r : list token * lex_state) : list token * lex_state :=
  (t :: fst r, snd r).

Definition lex_step (st : lex_state) (c : ascii) : list token * lex_state :=
  match st with
  | LIdle => step_idle c
  | LWord acc =>
    if is_word_char c then ([], LWord (snoc acc c))
    else emit (TWord (classify acc)) (step_idle c)
  | LName acc =>
    if Ascii.eqb c dquote then ([], LNameQ acc) else ([], LName (snoc acc c))
  | LNameQ acc =>
    if Ascii.eqb c dquote then ([], LName (snoc acc dquote))
    else emit (TName acc) (step_idle c)
  | LStr acc =>
    if Ascii.eqb c squote then ([], LStrQ acc) else ([], LStr (snoc acc c))
  | LStrQ acc =>
    if Ascii.eqb c squote then ([], LStr (snoc acc squote))
    else emit (TString acc) (step_idle c)
  end.

Definition lex_flush (st : lex_state) : list token :=
  match st with
  | LIdle => []
  | LWord acc => [TWord (classify acc)]
  | LNameQ acc => [TName acc]
  | LStrQ acc => [TString acc]
  | LName _ | LStr _ => [TBad]
  end.

Fixpoint lex_from (st : lex_state) (s : string) : list token :=
  match s with
  | EmptyString => lex_flush st
  | String c r => fst (lex_step st c) ++ lex_from (snd (lex_step st c)) r
  end.

Definition lex (s : string) : list token := lex_from LIdle s.

(** ** Statements *)

Inductive sexpr : Type :=
| X_rowid                 (* the bare identifier rowid *)
| X_name (n : string)     (* a double-quoted name *)
| X_string (s : string).  (* a string literal *)

Inductive atom : Type :=
| A_true                      (* 1=1 *)
| A_between (col : string)    (* CAST("col" AS REAL) BETWEEN ? AND ? *)
| A_rowid_eq                  (* rowid = ? *)
| A_rowid_in (n : nat).       (* rowid IN (?, ..., ?), n parameters *)

Inductive coltype : Type := T_integer_pk | T_text | T_real.

Inductive statement : Type :=
| S_select (items : list sexpr) (conds : list atom) (order_by_rowid : bool)
| S_count
| S_create (cols : list (string * coltype))
| S_insert (cols : list string) (nvalues : nat).

Definition expr_of (t : token) : option sexpr :=
  match t with
  | TWord W_rowid => Some X_rowid
  | TName n => Some (X_name n)
  | TString s => Some (X_string s)
  | _ => None
  end.

Definition cons_fst {A B : Type} (a : option A) (r : option (list A * B))
  : option (list A * B) :=
  match a, r with
  | Some x, Some (l, b) => Some (x :: l, b)
  | _, _ => None
  end.

(** Result columns, each one introduced by a comma: [, expr [AS alias]]. *)
Fixpoint parse_items (ts : list token) : option (list sexpr * list token) :=
  match ts with
  | TPunct P_comma :: e :: TWord W_as :: TWord _ :: rest =>
    cons_fst (expr_of e) (parse_items rest)
  | TPunct P_comma :: e :: rest => cons_fst (expr_of e) (parse_items rest)
  | _ => Some ([], ts)
  end.

(** Conjuncts, each one introduced by AND. *)
Fixpoint parse_atoms (ts : list token) : option (list atom * list token) :=
  match ts with
  | TWord W_and :: TWord W_one :: TPunct P_eq :: TWord W_one :: rest =>
    cons_fst (Some A_true) (parse_atoms rest)
  | TWord W_and :: TWord W_cast :: TPunct P_lparen :: TName n :: TWord W_as
      :: TWord W_real :: TPunct P_rparen :: TWord W_between :: TPunct P_qmark
      :: TWord W_and :: TPunct P_qmark :: rest =>
    cons_fst (Some (A_between n)) (parse_atoms rest)
  | TWord W_and :: TWord W_rowid :: TPunct P_eq :: TPunct P_qmark :: rest =>
    cons_fst (Some A_rowid_eq) (parse_atoms rest)
  | TWord W_and :: _ => None
  | _ => Some ([], ts)
  end.

(** Placeholders, each one introduced by a comma. *)
Fixpoint parse_qmarks (ts : list token) : nat * list token :=
  match ts with
  | TPunct P_comma :: TPunct P_qmark :: rest =>
    let '(n, r) := parse_qmarks rest in (S n, r)
  | _ => (O, ts)
  end.

(** Quoted names, each one introduced by a comma. *)
Fixpoint parse_names (ts : list token) : list string * list token :=
  match ts with
  | TPunct P_comma :: TName n :: rest =>
    let '(l, r) := parse_names rest in (n :: l, r)
  | _ => ([], ts)
  end.

(** Column definitions, each one introduced by a comma. *)
Fixpoint parse_coldefs (ts : list token) : list (string * coltype) * list token :=
  match ts with
  | TPunct P_comma :: TName n :: TWord W_integer :: TWord W_primary :: TWord W_key :: rest =>
    let '(l, r) := parse_coldefs rest in ((n, T_integer_pk) :: l, r)
  | TPunct P_comma :: TName n :: TWord W_text :: rest =>
    let '(l, r) := parse_coldefs rest in ((n, T_text) :: l, r)
  | TPunct P_comma :: TName n :: TWord W_real :: rest =>
    let '(l, r) := parse_coldefs rest in ((n, T_real) :: l, r)
  | _ => ([], ts)
  end.

Definition parse_order (ts : list token) : option bool :=
  match ts with
  | [] => Some false
  | [TWord W_order; TWord W_by; TWord W_rowid] => Some true
  | _ => None
  end.

(** What may follow [FROM materials]. *)
Definition parse_tail (items : list sexpr) (ts : list token) : option statement :=
  match ts with
  | TWord W_where :: TWord W_rowid :: TWord W_in :: TPunct P_lparen :: r1 =>
    match parse_qmarks (TPunct P_comma :: r1) with
    | (S k, TPunct P_rparen :: r2) =>
      option_map (S_select items [A_rowid_in (S k)]) (parse_order r2)
    | _ => None
    end
  | TWord W_where :: r1 =>
    match parse_atoms (TWord W_and :: r1) with
    | Some (a :: l, r2) => option_map (S_select items (a :: l)) (parse_order r2)
    | _ => None
    end
  | _ => option_map (S_select items []) (parse_order ts)
  end.

(** The statements of the program; [None] for any other text. *)
Definition parse (ts : list token) : option statement :=
  match ts with
  | [TWord W_select; TWord W_count; TPunct P_lparen; TPunct P_star;
     TPunct P_rparen; TWord W_from; TWord W_materials] => Some S_count
  | TWord W_select :: rest =>
    match parse_items (TPunct P_comma :: rest) with
    | Some (i :: items, TWord W_from :: TWord W_materials :: r) =>
      parse_tail (i :: items) r
    | _ => None
    end
  | TWord W_create :: TWord W_table :: TWord W_materials :: TPunct P_lparen :: rest =>
    match parse_coldefs (TPunct P_comma :: rest) with
    | (c :: cols, [TPunct P_rparen]) => Some (S_create (c :: cols))
    | _ => None
    end
  | TWord W_insert :: TWord W_into :: TWord W_materials :: TPunct P_lparen :: rest =>
    match parse_names (TPunct P_comma :: rest) with
    | (n :: names, TPunct P_rparen :: TWord W_values :: TPunct P_lparen :: r) =>
      match parse_qmarks (TPunct P_comma :: r) with
      | (S k, [TPunct P_rparen]) => Some (S_insert (n :: names) (S k))
      | _ => None
      end
    | _ => None
    end
  | _ => None
  end.

(** ** Tables and the execution of statements *)

Record column : Type := { col_name : string; col_type : coltype }.

(** The [materials] table: its columns, and its rows with their rowids in
    the order of a full scan. *)
Record table : Type := {
  tbl_cols : list column;
  tbl_rows : list (Z * list value)
}.

Definition col_names (t : table) : list string := map col_name (tbl_cols t).

(** Python exceptions.  [Unmodelled] marks statement text outside the
    fragment above: the engine either rejects it or runs some other
    statement, and the model commits to neither. *)
Inductive exn : Type :=
| OperationalError | DatabaseError | IntegrityError | ProgrammingError
| OverflowError | OSError | KeyError | ValueError | RuntimeError | TypeError
| Unmodelled.

Inductive result (A : Type) : Type :=
| Ok (a : A)
| Raise (e : exn).
Arguments Ok {A} a.
Arguments Raise {A} e.

Definition rbind {A B : Type} (r : result A) (k : A -> result B) : result B :=
  match r with Ok a => k a | Raise e => Raise e end.

Fixpoint rmap_list {A B : Type} (f : A -> result B) (l : list A) : result (list B) :=
  match l with
  | [] => Ok []
  | x :: r => rbind (f x) (fun y => rbind (rmap_list f r) (fun ys => Ok (y :: ys)))
  end.

(** The build of the SQLite library: whether a double-quoted name that is
    no column is read as a string literal, the bound on the number of
    parameters, and how a REAL is printed when stored as TEXT. *)
Record engine : Type := {
  dqs : bool;
  max_variables : nat;
  render_real : Q -> string
}.

(** Names of columns are matched without regard to ASCII case. *)
Definition name_eqb (a b : string) : bool := String.eqb (lower a) (lower b).

Fixpoint find_col (cols : list string) (n : string) : option nat :=
  match cols with
  | [] => None
  | c :: r => if name_eqb c n then Some O
              else option_map S (find_col r n)
  end.

Definition getter : Type := Z * list value -> value.

Definition cell (i : nat) : getter := fun row => nth i (snd row) Null.

Definition resolve_name (eng : engine) (t : table) (n : string) : result getter :=
  match find_col (col_names t) n with
  | Some i => Ok (cell i)
  | None => if dqs eng then Ok (fun _ => Text n) else Raise OperationalError
  end.

(** [rowid] is the row identifier unless a column of that name hides it. *)
Definition resolve_rowid (t : table) : getter :=
  match find_col (col_names t) "rowid" with
  | Some i => cell i
  | None => fun row => Int (fst row)
  end.

Definition resolve_expr (eng : engine) (t : table) (e : sexpr) : result getter :=
  match e with
  | X_rowid => Ok (resolve_rowid t)
  | X_name n => resolve_name eng t n
  | X_string s => Ok (fun _ => Text s)
  end.

Definition atom_arity (a : atom) : nat :=
  match a with
  | A_true => 0
  | A_between _ => 2
  | A_rowid_eq => 1
  | A_rowid_in n => n
  end.

Definition statement_arity (s : statement) : nat :=
  match s with
  | S_select _ conds _ => list_sum (map atom_arity conds)
  | S_count => 0
  | S_create _ => 0
  | S_insert _ n => n
  end.

Definition predicate : Type := Z * list value -> option bool.

Definition resolve_atom (eng : engine) (t : table) (a : atom) (ps : list value)
  : result predicate :=
  match a with
  | A_true => Ok (fun _ => Some true)
  | A_between n =>
    rbind (resolve_name eng t n) (fun g =>
      Ok (fun row => sql_between (cast_real (g row)) (nth 0 ps Null) (nth 1 ps Null)))
  | A_rowid_eq =>
    Ok (fun row => sql_eq (resolve_rowid t row) (numeric_affinity (nth 0 ps Null)))
  | A_rowid_in _ =>
    Ok (fun row =>
          foldr (fun p acc => sql_or (sql_eq (resolve_rowid t row) (numeric_affinity p)) acc)
                (Some false) ps)
  end.

(** The conjuncts with their shares of the parameters, in order. *)
Fixpoint resolve_atoms (eng : engine) (t : table) (conds : list atom) (ps : list value)
  : result (list predicate) :=
  match conds with
  | [] => Ok []
  | a :: r =>
    rbind (resolve_atom eng t a (take (atom_arity a) ps)) (fun p =>
    rbind (resolve_atoms eng t r (drop (atom_arity a) ps)) (fun l => Ok (p :: l)))
  end.

Definition holds (preds : list predicate) (row : Z * list value) : bool :=
  is_true (foldl (fun acc p => sql_and acc (p row)) (Some true) preds).

Definition key_le (key : getter) (a b : Z * list value) : Prop :=
  Is_true (value_leb (key a) (key b)).

#[global] Instance key_le_dec (key : getter) (a b : Z * list value) : Decision (key_le key a b).
Proof. unfold key_le. apply _. Defined.

Definition exec_select (eng : engine) (t : table) (items : list sexpr)
    (conds : list atom) (order_by_rowid : bool) (ps : list value)
  : result (list (list value)) :=
  rbind (rmap_list (resolve_expr eng t) items) (fun getters =>
  rbind (resolve_atoms eng t conds ps) (fun preds =>
    let kept := List.filter (holds preds) (tbl_rows t) in
    let ordered := if order_by_rowid then merge_sort (key_le (resolve_rowid t)) kept
                   else kept in
    Ok (map (fun row => map (fun g : getter => g row) getters) ordered))).

Definition as_integer (q : Q) : option Z :=
  let r := Qred q in
  if (Z.pos (Qden r) =? 1) then Some (Qnum r) else None.

(** What a column stores of a value given to it (type affinity).  For the
    INTEGER PRIMARY KEY, [None] is the datatype mismatch. *)
Definition store (eng : engine) (ty : coltype) (v : value) : option value :=
  match ty, v with
  | T_real, Int z => Some (Real (inject_Z z))
  | T_real, Text s =>
    Some (match text_as_number s with Some q => Real q | None => v end)
  | T_text, Int z => Some (Text (pretty z))
  | T_text, Real q => Some (Text (render_real eng q))
  | T_integer_pk, Real q => option_map Int (as_integer q)
  | T_integer_pk, Text s =>
    match text_as_number s with
    | Some q => option_map Int (as_integer q)
    | None => None
    end
  | T_integer_pk, Blob _ => None
  | _, _ => Some v
  end.

Definition next_rowid (rows : list (Z * list value)) : Z :=
  foldr (fun row m => Z.max (fst row) m) 0 rows + 1.

Fixpoint insert_row (row : Z * list value) (rows : list (Z * list value))
  : list (Z * list value) :=
  match rows with
  | [] => [row]
  | r :: rest => if fst row <? fst r then row :: rows else r :: insert_row row rest
  end.

Fixpoint has_dup (names : list string) : bool :=
  match names with
  | [] => false
  | n :: r => existsb (name_eqb n) r || has_dup r
  end.

Definition is_pk (ty : coltype) : bool :=
  match ty with T_integer_pk => true | _ => false end.

Fixpoint find_pk (cols : list column) : option nat :=
  match cols with
  | [] => None
  | c :: r => if is_pk (col_type c) then Some O else option_map S (find_pk r)
  end.

Definition exec_create (db : option table) (cols : list (string * coltype))
  : result (option table) :=
  match db with
  | Some _ => Raise OperationalError
  | None =>
    if has_dup (map fst cols) then Raise OperationalError
    else if (1 <? List.length (List.filter (fun c => is_pk (snd c)) cols))%nat
    then Raise OperationalError
    else Ok (Some {| tbl_cols := map (fun c => {| col_name := fst c; col_type := snd c |}) cols;
                     tbl_rows := [] |})
  end.

(** The value given to column [c] by [INSERT (names) VALUES (ps)]. *)
Fixpoint given (names : list string) (ps : list value) (c : string) : value :=
  match names, ps with
  | n :: names', p :: ps' => if name_eqb n c then p else given names' ps' c
  | _, _ => Null
  end.

Definition exec_insert (eng : engine) (t : table) (names : list string) (ps : list value)
  : result table :=
  if negb (forallb (fun n => bool_decide (is_Some (find_col (col_names t) n))) names)
  then Raise OperationalError
  else if has_dup names then Raise Unmodelled
  else if negb (List.length names =? List.length ps)%nat then Raise OperationalError
  else
    match mapM (fun c => store eng (col_type c) (given names ps (col_name c))) (tbl_cols t) with
    | None => Raise IntegrityError
    | Some vals =>
      match find_pk (tbl_cols t) with
      | None =>
        Ok {| tbl_cols := tbl_cols t;
              tbl_rows := insert_row (next_rowid (tbl_rows t), vals) (tbl_rows t) |}
      | Some i =>
        match vals !! i with
        | Some (Int z) =>
          if existsb (fun row => fst row =? z) (tbl_rows t) then Raise IntegrityError
          else Ok {| tbl_cols := tbl_cols t; tbl_rows := insert_row (z, vals) (tbl_rows t) |}
        | _ =>
          let z := next_rowid (tbl_rows t) in
          Ok {| tbl_cols := tbl_cols t;
                tbl_rows := insert_row (z, <[i := Int z]> vals) (tbl_rows t) |}
        end
      end
    end.

(** [sqlite3] refuses a Python [int] that does not fit 64 bits. *)
Definition fits_int64 (v : value) : bool :=
  match v with
  | Int z => (- 2 ^ 63 <=? z) && (z <? 2 ^ 63)
  | _ => true
  end.

(** One call of [cursor.execute(sql, params)] on the database [db]: the
    rows fetched and the database afterwards. *)
Definition run_statement (eng : engine) (db : option table) (sql : string) (ps : list value)
  : result (list (list value) * option table) :=
  match parse (lex sql) with
  | None => Raise Unmodelled
  | Some st =>
    if (max_variables eng <? statement_arity st)%nat then Raise OperationalError
    else
      match st, db with
      | S_create cols, _ =>
        if negb (List.length ps =? 0)%nat then Raise ProgrammingError
        else rbind (exec_create db cols) (fun db' => Ok ([], db'))
      | _, None => Raise OperationalError
      | S_count, Some t =>
        if negb (List.length ps =? 0)%nat then Raise ProgrammingError
        else Ok ([[Int (Z.of_nat (List.length (tbl_rows t)))]], db)
      | S_select items conds ord, Some t =>
        rbind (rmap_list (resolve_expr eng t) items) (fun _ =>
        rbind (resolve_atoms eng t conds ps) (fun _ =>
          if negb (List.length ps =? statement_arity st)%nat then Raise ProgrammingError
          else if negb (forallb fits_int64 ps) then Raise OverflowError
          else rbind (exec_select eng t items conds ord ps) (fun rows => Ok (rows, db))))
      | S_insert names n, Some t =>
        if negb (forallb (fun c => bool_decide (is_Some (find_col (col_names t) c))) names)
        then Raise OperationalError
        else if negb (List.length names =? n)%nat then Raise OperationalError
        else if negb (List.length ps =? n)%nat then Raise ProgrammingError
        else if negb (forallb fits_int64 ps) then Raise OverflowError
        else rbind (exec_insert eng t names ps) (fun t' => Ok ([], Some t'))
      end
  end.

(** ** The world: files, faults, the active database *)

(** A [pandas.DataFrame] as the program uses it: column labels (after
    [str(col)]) and rows of cells, [Null] for a cell that [pd.isna] accepts. *)
Record dataframe : Type := {
  df_columns : list string;
  df_rows : list (list value)
}.

Inductive file : Type :=
| F_db (db : option table)          (* an SQLite database, with or without [materials] *)
| F_sheet (df : dataframe)          (* a spreadsheet, as [pd.read_excel] reads it *)
| F_csv (lines : list (list string)) (* CSV text, as [csv.reader] splits it *)
| F_other.

(** The calls into the operating system that may fail. *)
Inductive os_op : Type :=
| Op_open (path : string)
| Op_remove (path : string)
| Op_copy (src dst : string)
| Op_write (path : string)
| Op_mkdir (path : string).

Record config : Type := {
  sqlite : engine;
  pandas : bool;      (* [pd is not None] *)
  openpyxl : bool;
  XLS_FILE : string   (* "results-csv.xlsx" when that file was there at start, else "results-csv.xls" *)
}.

Record world : Type := {
  files : gmap string file;
  faults : os_op -> bool;
  CURRENT_DB : string;
  cfg : config
}.

Definition with_files (w : world) (fs : gmap string file) : world :=
  {| files := fs; faults := faults w; CURRENT_DB := CURRENT_DB w; cfg := cfg w |}.

Definition with_current (w : world) (p : string) : world :=
  {| files := files w; faults := faults w; CURRENT_DB := p; cfg := cfg w |}.

(** Code that reads and writes the world and may raise. *)
Definition io (A : Type) : Type := world -> result A * world.

Definition ret {A : Type} (a : A) : io A := fun w => (Ok a, w).

Definition raise {A : Type} (e : exn) : io A := fun w => (Raise e, w).

Definition bind {A B : Type} (m : io A) (k : A -> io B) : io B :=
  fun w => match m w with
           | (Ok a, w') => k a w'
           | (Raise e, w') => (Raise e, w')
           end.

Notation "'do' x <- m ; k" := (bind m (fun x => k))
  (at level 10, x name, m at level 100, k at level 200).
Notation "'run' m ; k" := (bind m (fun _ => k))
  (at level 10, m at level 100, k at level 200).

(** [try: m except Exception: h].  What the model does not know stays
    unknown. *)
Definition try_except {A : Type} (m : io A) (h : exn -> io A) : io A :=
  fun w => match m w with
           | (Ok a, w') => (Ok a, w')
           | (Raise Unmodelled, w') => (Raise Unmodelled, w')
           | (Raise e, w') => h e w'
           end.


Definition get_current : io string := fun w => (Ok (CURRENT_DB w), w).

Definition set_current (p : string) : io unit := fun w => (Ok tt, with_current w p).

Definition get_config : io config := fun w => (Ok (cfg w), w).

Definition os_path_exists (p : string) : io bool :=
  fun w => (Ok (bool_decide (is_Some (files w !! p))), w).

Definition os_remove (p : string) : io unit :=
  fun w => if faults w (Op_remove p) then (Raise OSError, w)
           else match files w !! p with
                | Some _ => (Ok tt, with_files w (delete p (files w)))
                | None => (Raise OSError, w)
                end.

(** [shutil.copy] and [shutil.copyfile] between two file paths: the
    destination receives the content of the source. *)
Definition shutil_copy (src dst : string) : io unit :=
  fun w => if faults w (Op_copy src dst) then (Raise OSError, w)
           else match files w !! src with
                | Some f => (Ok tt, with_files w (<[dst := f]> (files w)))
                | None => (Raise OSError, w)
                end.

Definition os_makedirs (p : string) : io unit :=
  fun w => if faults w (Op_mkdir p) then (Raise OSError, w) else (Ok tt, w).

Definition write_file (p : string) (f : file) : io unit :=
  fun w => if faults w (Op_write p) then (Raise OSError, w)
           else (Ok tt, with_files w (<[p := f]> (files w))).

(** ** [sqlite3] *)

(** [sqlite3.connect(path)]: a file that is missing is created, as an empty
    database.  The connection is its path. *)
Definition connect (p : string) : io string :=
  fun w => if faults w (Op_open p) then (Raise OperationalError, w)
           else match files w !! p with
                | Some _ => (Ok p, w)
                | None => (Ok p, with_files w (<[p := F_db None]> (files w)))
                end.

(** [c.execute(sql, params); c.fetchall()] *)
Definition execute (conn : string) (sql : string) (ps : list value)
  : io (list (list value)) :=
  fun w => match files w !! conn with
           | Some (F_db db) =>
             match run_statement (sqlite (cfg w)) db sql ps with
             | Ok (rows, db') => (Ok rows, with_files w (<[conn := F_db db']> (files w)))
             | Raise e => (Raise e, w)
             end
           | Some _ => (Raise DatabaseError, w)
           | None => (Raise OperationalError, w)
           end.

(** [c.execute("PRAGMA table_info(materials)")] and the names [f[1]] of the
    rows fetched: no row when there is no such table. *)
Definition table_info (conn : string) : io (list string) :=
  fun w => match files w !! conn with
           | Some (F_db (Some t)) => (Ok (col_names t), w)
           | Some (F_db None) => (Ok [], w)
           | Some _ => (Raise DatabaseError, w)
           | None => (Raise OperationalError, w)
           end.

(** ** [app.py] *)

Definition DB_FILE : string := "materials.db".
Definition CSV_FILE : string := "materials.csv".
Definition MAIN_DB : string := DB_FILE.
Definition USER_DB : string := "user.db".
Definition NAME_CANDIDATES : list string := ["合金成分"; "合金成份"; "name"; "Name"].

(** [f'"{name}"'] *)
Definition quoted (name : string) : string :=
  String dquote (name +:+ String dquote EmptyString).

Definition str_in (s : string) (l : list string) : bool := existsb (String.eqb s) l.

(** *** [properties] *)

(** [float(v)] on a value fetched from the database; [None] is the
    exception that the bare [except] catches. *)
Definition py_float (v : value) : option pyfloat :=
  match v with
  | Null => None
  | Int z => Some (Fin (inject_Z z))
  | Real q => Some (Fin q)
  | Text s | Blob s => py_float_of_text s
  end.

(** [v is None or v == ""] *)
Definition is_blank (v : value) : bool :=
  match v with
  | Null => true
  | Text EmptyString => true
  | _ => false
  end.

(** The loop over [values]: [(is_numeric, numeric_values)], stopping at the
    first value that [float] refuses. *)
Fixpoint scan_numeric (values : list value) (numeric_values : list pyfloat)
  : bool * list pyfloat :=
  match values with
  | [] => (true, numeric_values)
  | v :: r =>
    if is_blank v then scan_numeric r numeric_values
    else match py_float v with
         | Some x => scan_numeric r (numeric_values ++ [x])
         | None => (false, numeric_values)
         end
  end.

(** [min(l)] and [max(l)] of Python: the first element, replaced by each
    later one that compares strictly below (above) it. *)
Definition py_min (l : list pyfloat) : option pyfloat :=
  match l with
  | [] => None
  | x :: r => Some (foldl (fun m v => if float_lt v m then v else m) x r)
  end.

Definition py_max (l : list pyfloat) : option pyfloat :=
  match l with
  | [] => None
  | x :: r => Some (foldl (fun m v => if float_lt m v then v else m) x r)
  end.

Definition first_column (rows : list (list value)) : list value :=
  map (fun r => nth 0 r Null) rows.

Definition report (values : list value) : option (pyfloat * pyfloat) :=
  let '(is_numeric, numeric_values) := scan_numeric values [] in
  if is_numeric then
    match py_min numeric_values, py_max numeric_values with
    | Some mn, Some mx => Some (mn, mx)
    | _, _ => None
    end
  else None.

Fixpoint properties_loop (conn : string) (all_fields : list string)
    (result : gmap string (pyfloat * pyfloat)) : io (gmap string (pyfloat * pyfloat)) :=
  match all_fields with
  | [] => ret result
  | field :: r =>
    do rows <- execute conn ("SELECT " +:+ quoted field +:+ " FROM materials") [];
    properties_loop conn r
      (match report (first_column rows) with
       | Some range => <[field := range]> result
       | None => result
       end)
  end.

Definition filterable (f : string) : bool :=
  negb (str_in (lower f) ["id"; "name"; "category"]).

Definition properties : io (gmap string (pyfloat * pyfloat)) :=
  do cur <- get_current;
  do conn <- connect cur;
  do fields <- table_info conn;
  properties_loop conn (List.filter filterable fields) ∅.

(** *** [search] *)

(** One entry of [conditions]: what [cond.get] returns for the three keys,
    [None] (for the property) and [Null] (for a bound) when the key is
    missing or null.  The property is a JSON string when present. *)
Record condition : Type := {
  c_property : option string;
  c_min : value;
  c_max : value
}.

Definition name_column (table_cols : list string) : option string :=
  List.find (fun cand => str_in cand table_cols) NAME_CANDIDATES.

Definition select_list (table_cols : list string) : list string :=
  ["rowid AS id"]
  ++ [match name_column table_cols with
      | Some name_col => quoted name_col +:+ " AS name"
      | None => "'' AS name"
      end]
  ++ map quoted table_cols.

(** [if not prop: continue] *)
Definition falsy (prop : option string) : bool :=
  match prop with
  | None | Some EmptyString => true
  | Some _ => false
  end.

Fixpoint add_conditions (conditions : list condition) (query : string) (params : list value)
  : string * list value :=
  match conditions with
  | [] => (query, params)
  | cond :: r =>
    let prop := c_property cond in
    if falsy prop then add_conditions r query params
    else add_conditions r
           (query +:+ " AND CAST(" +:+ quoted (default EmptyString prop)
                  +:+ " AS REAL) BETWEEN ? AND ?")
           (params ++ [c_min cond; c_max cond])
  end.

(** [dict(zip(columns, r))]: a later value for a key replaces the earlier. *)
Definition dict_zip (keys : list string) (vals : list value) : gmap string value :=
  foldl (fun d kv => <[fst kv := snd kv]> d) ∅ (zip keys vals).

Record search_result : Type := {
  sr_columns : list string;
  sr_data : list (gmap string value)
}.

Definition search (conditions : list condition) : io search_result :=
  do cur <- get_current;
  do conn <- connect cur;
  do table_cols <- table_info conn;
  let query := "SELECT " +:+ join ", " (select_list table_cols)
               +:+ " FROM materials WHERE 1=1" in
  let '(query, params) := add_conditions conditions query [] in
  do rows <- execute conn query params;
  let columns := "id" :: "name" :: table_cols in
  ret {| sr_columns := columns; sr_data := map (dict_zip columns) rows |}.

(** *** [stats] *)

Definition fetchone_0 (rows : list (list value)) : io value :=
  match rows with
  | (v :: _) :: _ => ret v
  | _ => raise TypeError
  end.

(** The [total] of the response; [Null] is JSON null. *)
Definition stats : io value :=
  do total <- try_except
      (do cur <- get_current;
       do conn <- connect cur;
       do rows <- execute conn "SELECT COUNT(*) FROM materials" [];
       fetchone_0 rows)
      (fun _ => ret Null);
  ret total.

(** *** [db_select] and [db_upload] *)

Inductive body : Type :=
| B_ok (current : string) (db_path : option string) (warn : option exn)
| B_error (msg : string).

Definition response : Type := Z * body.

Definition db_select (key : option string) : io response :=
  if bool_decide (key = Some "main") then
    run set_current MAIN_DB;
    ret (200, B_ok "main" None None)
  else if bool_decide (key = Some "user") then
    do user_exists <- os_path_exists USER_DB;
    if negb user_exists then
      do main_exists <- os_path_exists MAIN_DB;
      if negb main_exists then ret (500, B_error "main db missing")
      else
        run shutil_copy MAIN_DB USER_DB;
        run set_current USER_DB;
        ret (200, B_ok "user" None None)
    else
      run set_current USER_DB;
      ret (200, B_ok "user" None None)
  else ret (400, B_error "unknown db").

(** [pd.read_excel(path)], with either engine. *)
Definition read_excel (p : string) : io dataframe :=
  fun w => match files w !! p with
           | Some (F_sheet df) => (Ok df, w)
           | Some _ => (Raise ValueError, w)
           | None => (Raise OSError, w)
           end.

Fixpoint insert_all (conn sql : string) (rows : list (list value)) : io unit :=
  match rows with
  | [] => ret tt
  | vals :: r =>
    run execute conn sql vals;
    insert_all conn sql r
  end.

Definition placeholders (n : nat) : string := join ", " (replicate n "?").

(** The table built from a spreadsheet, every column TEXT (the upload, and
    the spreadsheet branch of [init_db]). *)
Definition create_sql_sheet (columns : list string) : string :=
  "CREATE TABLE materials ("
  +:+ join ", " (map (fun col => quoted col +:+ " TEXT") columns) +:+ ")".

Definition insert_sql (columns : list string) : string :=
  "INSERT INTO materials (" +:+ join ", " (map quoted columns)
  +:+ ") VALUES (" +:+ placeholders (List.length columns) +:+ ")".

Definition build_from_sheet (conn : string) (df : dataframe) : io unit :=
  let columns := df_columns df in
  run execute conn (create_sql_sheet columns) [];
  insert_all conn (insert_sql columns) (df_rows df).

(** The first [try] of [db_upload]: the database is built from the saved
    spreadsheet; [Some] is the response of an early [return]. *)
Definition upload_build (tmp_xlsx tmp_db : string) : io (option response) :=
  try_except
    (do c <- get_config;
     if negb (pandas c)
     then ret (Some (500, B_error "需要安装 pandas 与 openpyxl/xlrd"))
     else
       do df <- read_excel tmp_xlsx;
       do conn <- connect tmp_db;
       run build_from_sheet conn df;
       ret None)
    (fun e =>
       run try_except (os_remove tmp_db) (fun _ => ret tt);
       ret (Some (500, B_error "构建数据库失败"))).

(** The second [try]: the new database replaces the user database, and
    becomes the active one itself when that fails. *)
Definition upload_replace (tmp_db : string) : io response :=
  try_except
    (do user_exists <- os_path_exists USER_DB;
     run (if user_exists
          then try_except (os_remove USER_DB) (fun _ => ret tt)
          else ret tt);
     run shutil_copy tmp_db USER_DB;
     run set_current USER_DB;
     ret (200, B_ok "user" (Some USER_DB) None))
    (fun e =>
       run set_current tmp_db;
       ret (200, B_ok "temp" (Some tmp_db) (Some e))).

Definition upload_xlsx (ts : string) : string := "uploads/upload-" +:+ ts +:+ ".xlsx".
Definition upload_db (ts : string) : string := "uploads/upload-" +:+ ts +:+ ".db".

Definition allowed_name (filename : string) : bool :=
  endswith (lower filename) ".xlsx" || endswith (lower filename) ".xls".

(** The request of an upload: the file under the key [file], if any, with
    its name; [ts] is the time stamp taken from the clock. *)
Definition db_upload (upload : option (string * file)) (ts : string) : io response :=
  match upload with
  | None => ret (400, B_error "缺少文件")
  | Some (filename, content) =>
    if negb (allowed_name filename)
    then ret (400, B_error "仅支持 .xlsx 或 .xls")
    else
      run os_makedirs "uploads";
      let tmp_xlsx := upload_xlsx ts in
      run write_file tmp_xlsx content;
      let tmp_db := upload_db ts in
      do early <- upload_build tmp_xlsx tmp_db;
      match early with
      | Some resp => ret resp
      | None => upload_replace tmp_db
      end
  end.

(** *** [export_candidates] *)





(** *** [init_db] *)

(** The value of [row[f]] in the dictionary that [csv.DictReader] builds
    from one line: the line is padded with [None] up to the header, and a
    later field of the same name replaces an earlier one. *)
Fixpoint dict_reader_get (fieldnames : list string) (line : list string) (f : string)
  : option string :=
  match fieldnames with
  | [] => None
  | k :: ks =>
    let here := match line with v :: _ => Some v | [] => None end in
    let later := dict_reader_get ks (tail line) f in
    if str_in f ks then later
    else if String.eqb k f then here else later
  end.

(** [[row[f] if row[f] != "" else None for f in fieldnames]] *)
Definition csv_values (fieldnames : list string) (line : list string) : list value :=
  map (fun f => match dict_reader_get fieldnames line f with
                | Some EmptyString | None => Null
                | Some s => Text s
                end) fieldnames.

Definition column_sql (field : string) : string :=
  let field_escaped := quoted field in
  if String.eqb (lower field) "id" then field_escaped +:+ " INTEGER PRIMARY KEY"
  else if str_in (lower field) ["name"; "category"] then field_escaped +:+ " TEXT"
  else field_escaped +:+ " REAL".

Definition create_sql_csv (fieldnames : list string) : string :=
  "CREATE TABLE materials (" +:+ join ", " (map column_sql fieldnames) +:+ ")".

(** [open(CSV_FILE)] and [csv.DictReader]: the header and the data lines;
    lines without a field are skipped. *)
Definition read_csv (p : string) : io (list string * list (list string)) :=
  fun w => match files w !! p with
           | Some (F_csv lines) =>
             match List.filter (fun l => negb (bool_decide (l = []))) lines with
             | [] => (Ok ([], []), w)
             | header :: data => (Ok (header, data), w)
             end
           | Some _ => (Raise ValueError, w)
           | None => (Raise OSError, w)
           end.

Definition init_db : io unit :=
  do db_exists <- os_path_exists DB_FILE;
  run (if db_exists then os_remove DB_FILE else ret tt);
  do conn <- connect MAIN_DB;
  do c <- get_config;
  do xls_exists <- os_path_exists (XLS_FILE c);
  if xls_exists then
    if negb (pandas c) then raise RuntimeError
    else
      do df <- read_excel (XLS_FILE c);
      build_from_sheet conn df
  else
    do csv <- read_csv CSV_FILE;
    let fieldnames := fst csv in
    if bool_decide (fieldnames = []) then raise RuntimeError
    else
      run execute conn (create_sql_csv fieldnames) [];
      insert_all conn (insert_sql fieldnames) (map (csv_values fieldnames) (snd csv)).

(** *** [update_db_from_csv] *)

(** [csv.DictReader(f)] as [update_db_from_csv] reads it: [fieldnames] is
    the first line, blank or not, and [None] for a file without a line; the
    rows are the later lines that hold a field. *)
Definition dict_reader (p : string) : io (option (list string) * list (list string)) :=
  fun w => match files w !! p with
           | Some (F_csv []) => (Ok (None, []), w)
           | Some (F_csv (header :: data)) =>
             (Ok (Some header, List.filter (fun l => negb (bool_decide (l = []))) data), w)
           | Some _ => (Raise ValueError, w)
           | None => (Raise OSError, w)
           end.

(** The content of the database file of a connection, and its return to
    an earlier content: what happens to the rows inserted through a
    connection that is dropped without [commit]. *)
Definition snapshot (conn : string) : io (option file) :=
  fun w => (Ok (files w !! conn), w).

Definition rollback (conn : string) (saved : option file) : io unit :=
  fun w => (Ok tt, match saved with
                   | Some f => with_files w (<[conn := f]> (files w))
                   | None => w
                   end).

(** [for field in fieldnames] raises [TypeError] on [None].  The table is
    created outside a transaction; the rows are inserted in one that only
    the [commit] at the end makes durable, and there is no [finally] here:
    an exception among the inserts loses all of them. *)
Definition update_db_from_csv : io unit :=
  do db_exists <- os_path_exists DB_FILE;
  run (if db_exists then os_remove DB_FILE else ret tt);
  do conn <- connect DB_FILE;
  do csv <- dict_reader CSV_FILE;
  match fst csv with
  | None => raise TypeError
  | Some fieldnames =>
    run execute conn (create_sql_csv fieldnames) [];
    do created <- snapshot conn;
    try_except
      (insert_all conn (insert_sql fieldnames) (map (csv_values fieldnames) (snd csv)))
      (fun e => run rollback conn created; raise e)
  end.

(** *** [_choose_name_column_from] *)


(** *** [get_item] *)

Inductive item_body : Type :=
| Item_data (data : gmap string value)
| Item_error (msg : string).

(** [item_id] is what the route converter [<int:item_id>] hands over: an
    integer that is not negative. *)
Definition get_item (item_id : Z) : io (Z * item_body) :=
  do cur <- get_current;
  do conn <- connect cur;
  do table_cols <- table_info conn;
  let query := "SELECT " +:+ join ", " (select_list table_cols)
               +:+ " FROM materials WHERE rowid = ?" in
  do rows <- execute conn query [Int item_id];
  match rows with
  | [] => ret (404, Item_error "not found")
  | row :: _ =>
    let columns := "id" :: "name" :: table_cols in
    ret (200, Item_data (dict_zip columns row))
  end.

(** *** [db_options] *)

Record db_option : Type := {
  opt_key : string;
  opt_label : string;
  opt_path : string;
  opt_exists : bool
}.

(** The [current] and the [options] of the response. *)
Definition db_options : io (string * list db_option) :=
  do main_exists <- os_path_exists MAIN_DB;
  do user_exists <- os_path_exists USER_DB;
  do current <- get_current;
  let cur := if String.eqb current MAIN_DB then "main"
             else if String.eqb current USER_DB then "user" else "temp" in
  ret (cur, [{| opt_key := "main"; opt_label := "主数据库"; opt_path := MAIN_DB;
                opt_exists := main_exists |};
             {| opt_key := "user"; opt_label := "用户数据库"; opt_path := USER_DB;
                opt_exists := user_exists |}]).

(** ** [tools/merge_results.py] *)

Definition KEY_COL : string := "source_folder".
Definition DEFAULT_TARGET_COLS : list string := ["合金成分"].

(** Frames are read by [pd.read_excel]: labels are distinct and every row
    has one cell per label; [Null] is the missing cell (NaN, None, NA). *)
Fixpoint col_index (columns : list string) (c : string) : option nat :=
  match columns with
  | [] => None
  | k :: r => if String.eqb k c then Some O else option_map S (col_index r c)
  end.

(** [row[c]], [Null] for a label the frame does not have. *)
Definition get_cell (columns : list string) (row : list value) (c : string) : value :=
  match col_index columns c with
  | Some j => nth j row Null
  | None => Null
  end.

Definition set_cell (columns : list string) (row : list value) (c : string) (v : value)
  : list value :=
  match col_index columns c with
  | Some j => <[j := v]> row
  | None => row
  end.

Section Merge.

(** [str(v)] of a cell that is a float or bytes. *)
Variable py_repr : value -> string.

(** The global [TARGET_COLS], which [main] may replace. *)
Variable TARGET_COLS : list string.

(** [astype(str)] on one cell *)
Definition astype_str (v : value) : string :=
  match v with
  | Text s => s
  | Int z => pretty z
  | Null => "nan"
  | _ => py_repr v
  end.

(** [normalize_key] on one cell *)
Definition normalize_key (v : value) : value := Text (strip (astype_str v)).

Definition is_missing (val : value) : bool :=
  match val with
  | Null => true
  | Text s => String.eqb (strip s) EmptyString
  | _ => false
  end.

(** [df[KEY_COL] = normalize_key(df[KEY_COL])] *)
Definition normalize_keys (df : dataframe) : dataframe :=
  {| df_columns := df_columns df;
     df_rows := map (fun row => set_cell (df_columns df) row KEY_COL
                                  (normalize_key (get_cell (df_columns df) row KEY_COL)))
                    (df_rows df) |}.

Definition key_of (columns : list string) (row : list value) : string :=
  bytes_of (get_cell columns row KEY_COL).

(** [drop_duplicates(subset=[KEY_COL], keep="first")] *)
Fixpoint drop_duplicates (columns : list string) (seen : list string)
    (rows : list (list value)) : list (list value) :=
  match rows with
  | [] => []
  | row :: r =>
    let k := key_of columns row in
    if str_in k seen then drop_duplicates columns seen r
    else row :: drop_duplicates columns (k :: seen) r
  end.

(** The keys of a dictionary built by a comprehension: each once, in the
    order of first appearance. *)
Fixpoint dict_keys (seen : list string) (l : list string) : list string :=
  match l with
  | [] => []
  | c :: r => if str_in c seen then dict_keys seen r else c :: dict_keys (c :: seen) r
  end.

(** [s.reindex(base_df.index)] at one label: the cell of the row of [new_df]
    that has this key, [Null] when there is none. *)
Definition aligned_cell (new_df : dataframe) (col : string) (k : string) : value :=
  match List.find (fun row => String.eqb (key_of (df_columns new_df) row) k) (df_rows new_df) with
  | Some row => get_cell (df_columns new_df) row col
  | None => Null
  end.

(** [base_df[col] = pd.NA] for a label that is new *)
Definition ensure_column (col : string) (df : dataframe) : dataframe :=
  if str_in col (df_columns df) then df
  else {| df_columns := (df_columns df ++ [col])%list;
          df_rows := map (fun row : list value => (row ++ [Null])%list) (df_rows df) |}.

(** One turn of the loop over [new_map], on the frame indexed by key. *)
Definition fill_column (new_df : dataframe) (col : string) (base_df : dataframe)
  : dataframe :=
  let base_df := ensure_column col base_df in
  let columns := df_columns base_df in
  {| df_columns := columns;
     df_rows :=
       map (fun row =>
              let aligned := aligned_cell new_df col (key_of columns row) in
              let mask := is_missing (get_cell columns row col) && negb (is_missing aligned) in
              if mask then set_cell columns row col aligned else row)
           (df_rows base_df) |}.

(** [set_index(KEY_COL)] then [reset_index()]: the key becomes the first
    column. *)
Definition key_first (df : dataframe) : dataframe :=
  let columns := KEY_COL :: List.filter (fun c => negb (String.eqb c KEY_COL)) (df_columns df) in
  {| df_columns := columns;
     df_rows := map (fun row => map (get_cell (df_columns df) row) columns) (df_rows df) |}.

Definition merge_new (base_df new_df : dataframe) : result dataframe :=
  if negb (str_in KEY_COL (df_columns new_df)) then Raise KeyError
  else if negb (str_in KEY_COL (df_columns base_df)) then Raise KeyError
  else
    let base_df := normalize_keys base_df in
    let new_df := normalize_keys new_df in
    let new_df := {| df_columns := df_columns new_df;
                     df_rows := drop_duplicates (df_columns new_df) [] (df_rows new_df) |} in
    let new_map := dict_keys [] (List.filter (fun col => str_in col (df_columns new_df)) TARGET_COLS) in
    if str_in KEY_COL new_map then Raise KeyError
    else
      let base_df :=
        match new_map with
        | [] => base_df
        | _ => key_first (foldl (fun df col => fill_column new_df col df) base_df new_map)
        end in
      let base_keys := map (key_of (df_columns base_df)) (df_rows base_df) in
      let new_only := List.filter (fun row => negb (str_in (key_of (df_columns new_df) row) base_keys))
                                  (df_rows new_df) in
      let to_append := map (fun row => map (get_cell (df_columns new_df) row) (df_columns base_df))
                           new_only in
      Ok {| df_columns := df_columns base_df; df_rows := (df_rows base_df ++ to_append)%list |}.

(** The key of a row as [normalize_key] leaves it. *)
Definition normal_key (columns : list string) (row : list value) : string :=
  strip (astype_str (get_cell columns row KEY_COL)).

(** The cell of [col] in the first row of the new file whose key, once
    normalised, is [k]; the missing cell when no row has that key. *)
Definition matched_cell (new_df : dataframe) (col k : string) : value :=
  match List.find (fun row => String.eqb (normal_key (df_columns new_df) row) k)
                  (df_rows new_df) with
  | Some row => get_cell (df_columns new_df) row col
  | None => Null
  end.

(** The update rule on one cell. *)
Definition merged_cell (old new_val : value) : value :=
  if is_missing old && negb (is_missing new_val) then new_val else old.

(** Every row has one cell per label. *)
Definition rectangular (df : dataframe) : Prop :=
  Forall (fun row => List.length row = List.length (df_columns df)) (df_rows df).

End Merge.

(** *** [_is_element_col] and [add_new_columns] *)

Definition _ELEMENTS : list string :=
  ["H"; "He"; "Li"; "Be"; "B"; "C"; "N"; "O"; "F"; "Ne"; "Na"; "Mg"; "Al"; "Si"; "P"; "S";
   "Cl"; "Ar"; "K"; "Ca"; "Sc"; "Ti"; "V"; "Cr"; "Mn"; "Fe"; "Co"; "Ni"; "Cu"; "Zn"; "Ga";
   "Ge"; "As"; "Se"; "Br"; "Kr"; "Rb"; "Sr"; "Y"; "Zr"; "Nb"; "Mo"; "Tc"; "Ru"; "Rh"; "Pd";
   "Ag"; "Cd"; "In"; "Sn"; "Sb"; "Te"; "I"; "Xe"; "Cs"; "Ba"; "La"; "Ce"; "Pr"; "Nd"; "Pm";
   "Sm"; "Eu"; "Gd"; "Tb"; "Dy"; "Ho"; "Er"; "Tm"; "Yb"; "Lu"; "Hf"; "Ta"; "W"; "Re"; "Os";
   "Ir"; "Pt"; "Au"; "Hg"; "Tl"; "Pb"; "Bi"; "Po"; "At"; "Rn"; "Fr"; "Ra"; "Ac"; "Th"; "Pa";
   "U"; "Np"; "Pu"; "Am"; "Cm"; "Bk"; "Cf"; "Es"; "Fm"; "Md"; "No"; "Lr"; "Rf"; "Db"; "Sg";
   "Bh"; "Hs"; "Mt"; "Ds"; "Rg"; "Cn"; "Nh"; "Fl"; "Mc"; "Lv"; "Ts"; "Og"].

Definition is_lower (c : ascii) : bool := byte_in 97 122 c.

Definition upper_char (c : ascii) : ascii :=
  if is_lower c then ascii_of_N (N_of_ascii c - 32) else c.

(** [str.upper()] and [str.capitalize()] on text that is ASCII. *)
Fixpoint upper (s : string) : string :=
  match s with
  | EmptyString => EmptyString
  | String c r => String (upper_char c) (upper r)
  end.

Definition capitalize (s : string) : string :=
  match s with
  | EmptyString => EmptyString
  | String c r => String (upper_char c) (lower r)
  end.

Fixpoint is_ascii (s : string) : bool :=
  match s with
  | EmptyString => true
  | String c r => byte_in 0 127 c && is_ascii r
  end.

(** [None] for a name that holds a code point outside ASCII: the case
    mappings of such code points are not modelled (some of them map to
    ASCII letters). *)
Definition _is_element_col (name : string) : option bool :=
  let n := strip name in
  if String.eqb n EmptyString then Some false
  else if negb (is_ascii n) then None
  else if str_in (capitalize n) _ELEMENTS then Some true
  else if str_in (upper n) (map upper _ELEMENTS) then Some true
  else Some false.


Section AddNewColumns.

Variable py_repr : value -> string.



End AddNewColumns.

(** *** [read_base_df] and [main] *)

Definition BASE_XLS : string := "results-csv.xls".
Definition BASE_XLSX : string := "results-csv.xlsx".

Definition read_base_df : io dataframe :=
  do xlsx_exists <- os_path_exists BASE_XLSX;
  do df <- (if xlsx_exists then read_excel BASE_XLSX
            else
              do xls_exists <- os_path_exists BASE_XLS;
              if xls_exists then read_excel BASE_XLS else raise OSError);
  if negb (str_in KEY_COL (df_columns df)) then raise KeyError
  else ret df.

Section Main.

Variable py_repr : value -> string.


End Main.

(** ** Notions used by the statements below *)

(** The lexer as a transducer: the tokens read from [s] and the state
    reached, without the final flush. *)
Fixpoint lex_run (st : lex_state) (s : string) : list token * lex_state :=
  match s with
  | EmptyString => ([], st)
  | String c r =>
    let '(t1, st1) := lex_step st c in
    let '(t2, st2) := lex_run st1 r in
    (t1 ++ t2, st2)
  end.

(** The name holds no double-quote character. *)
Fixpoint no_dquote (s : string) : bool :=
  match s with
  | EmptyString => true
  | String c r => negb (Ascii.eqb c dquote) && no_dquote r
  end.

(** A table as the engine keeps it: at least one column, names distinct
    without regard to case, one cell per column in every row, no two rows
    with the same rowid; and with names free of the quote character, which
    is what the quoting of this program can address. *)
Record wf_table (t : table) : Prop := {
  wf_names : forallb no_dquote (col_names t) = true;
  wf_distinct : NoDup (map lower (col_names t));
  wf_columns : col_names t <> [];
  wf_width : Forall (fun row => List.length (snd row) = List.length (tbl_cols t)) (tbl_rows t);
  wf_rowids : NoDup (map fst (tbl_rows t))
}.




(** Text and tokens of the pieces of a statement. *)
Definition cond_sql (prop : string) : string :=
  " AND CAST(" +:+ quoted prop +:+ " AS REAL) BETWEEN ? AND ?".

Definition cond_tokens (prop : string) : list token :=
  [TWord W_and; TWord W_cast; TPunct P_lparen; TName prop; TWord W_as;
   TWord W_real; TPunct P_rparen; TWord W_between; TPunct P_qmark;
   TWord W_and; TPunct P_qmark].

Fixpoint concat_str (l : list string) : string :=
  match l with
  | [] => EmptyString
  | x :: r => x +:+ concat_str r
  end.

(** The conditions that [search] does not skip. *)
Definition active (conditions : list condition) : list condition :=
  List.filter (fun c => negb (falsy (c_property c))) conditions.

Definition prop_of (c : condition) : string := default EmptyString (c_property c).

Definition bounds_of (c : condition) : list value := [c_min c; c_max c].

(** The lexer stands at the end of a token [t] that any blank, comma or
    parenthesis closes. *)
Inductive pending : lex_state -> token -> Prop :=
| pending_word (a : string) : pending (LWord a) (TWord (classify a))
| pending_name (a : string) : pending (LNameQ a) (TName a)
| pending_string (a : string) : pending (LStrQ a) (TString a).

(** [sep + x] for every [x], concatenated: [join] without its head. *)
Fixpoint prefixed (sep : string) (l : list string) : string :=
  match l with
  | [] => EmptyString
  | x :: r => sep +:+ x +:+ prefixed sep r
  end.

Definition name_tokens (cols : list string) : list token :=
  flat_map (fun c => [TPunct P_comma; TName c]) cols.

Definition name_item_token (table_cols : list string) : token :=
  match name_column table_cols with
  | Some name_col => TName name_col
  | None => TString EmptyString
  end.

Definition name_item_expr (table_cols : list string) : sexpr :=
  match name_column table_cols with
  | Some name_col => X_name name_col
  | None => X_string EmptyString
  end.

Definition search_tokens (table_cols props : list string) : list token :=
  [TWord W_select; TWord W_rowid; TWord W_as; TWord (W_other "id"); TPunct P_comma;
   name_item_token table_cols; TWord W_as; TWord (W_other "name")]
  ++ name_tokens table_cols
  ++ [TWord W_from; TWord W_materials; TWord W_where; TWord W_one; TPunct P_eq; TWord W_one]
  ++ flat_map cond_tokens props.

Definition search_sql (table_cols props : list string) : string :=
  ("SELECT " +:+ join ", " (select_list table_cols) +:+ " FROM materials WHERE 1=1")
  +:+ concat_str (map cond_sql props).

(** The position of a column, by its name. *)
Definition col_pos (cols : list string) (c : string) : nat :=
  default O (find_col cols c).

(** What [search] shows of one row: the row identifier, the display name
    and the cells. *)
Definition name_getter (t : table) : getter :=
  match name_column (col_names t) with
  | Some name_col => cell (col_pos (col_names t) name_col)
  | None => fun _ => Text EmptyString
  end.

Definition search_columns (t : table) : list string := "id" :: "name" :: col_names t.

Definition result_row (t : table) (row : Z * list value) : list value :=
  resolve_rowid t row :: name_getter t row :: snd row.

Definition row_dict (t : table) (row : Z * list value) : gmap string value :=
  dict_zip (search_columns t) (result_row t row).


(** The database file that is active holds the table [t] and can be opened. *)
Definition serves (w : world) (t : table) : Prop :=
  files w !! CURRENT_DB w = Some (F_db (Some t))
  /\ faults w (Op_open (CURRENT_DB w)) = false.

(** ** A small installation, for the concrete cases *)

Definition sample_engine : engine :=
  {| dqs := true; max_variables := 999; render_real := fun _ => "0.0" |}.

Definition sample_config : config :=
  {| sqlite := sample_engine; pandas := true; openpyxl := true;
     XLS_FILE := "results-csv.xls" |}.

(** The table that [init_db] builds from the CSV lines below. *)
Definition no_faults : os_op -> bool := fun _ => false.

Definition sample_csv : list (list string) :=
  [["id"; "name"; "density"; "note"; "hardness"];
   ["2"; "Ti"; "4.5"; "abc"; "1"];
   ["1"; "Al"; ""; "nan"; "nan"];
   ["5"; "Cu"; "8.9"; "1"; "3"]].

Definition sample_table : table :=
  {| tbl_cols := [{| col_name := "id"; col_type := T_integer_pk |};
                  {| col_name := "name"; col_type := T_text |};
                  {| col_name := "density"; col_type := T_real |};
                  {| col_name := "note"; col_type := T_real |};
                  {| col_name := "hardness"; col_type := T_real |}];
     tbl_rows := [(1, [Int 1; Text "Al"; Null; Text "nan"; Text "nan"]);
                  (2, [Int 2; Text "Ti"; Real (45 # 10); Text "abc"; Real (inject_Z 1)]);
                  (5, [Int 5; Text "Cu"; Real (89 # 10); Real (inject_Z 1);
                       Real (inject_Z 3)])] |}.

Definition csv_world : world :=
  {| files := {[ CSV_FILE := F_csv sample_csv ]};
     faults := no_faults;
     CURRENT_DB := MAIN_DB;
     cfg := sample_config |}.

Definition sample_world : world :=
  {| files := {[ MAIN_DB := F_db (Some sample_table) ]};
     faults := no_faults;
     CURRENT_DB := MAIN_DB;
     cfg := sample_config |}.

(** What [stats] reports: the number of rows when the active database
    opens and holds the table, JSON null otherwise. *)
Definition stats_total (w : world) : value :=
  if faults w (Op_open (CURRENT_DB w)) then Null
  else match files w !! CURRENT_DB w with
       | Some (F_db (Some t)) => Int (Z.of_nat (List.length (tbl_rows t)))
       | _ => Null
       end.

(** An upload at a moment when the user database cannot be written. *)
Definition sample_ts : string := "20260101-120000".

Definition sample_sheet : dataframe :=
  {| df_columns := ["source_folder"; "合金成分"];
     df_rows := [[Text "f1"; Text "AlTi"]; [Text "f2"; Null]] |}.

Definition copy_fails (src dst : string) : os_op -> bool :=
  fun op => match op with
            | Op_copy a b => String.eqb a src && String.eqb b dst
            | _ => false
            end.

Definition faulty_world : world :=
  {| files := {[ MAIN_DB := F_db (Some sample_table) ]};
     faults := copy_fails (upload_db sample_ts) USER_DB;
     CURRENT_DB := MAIN_DB;
     cfg := sample_config |}.

(** A header name that holds the quote character: [x" TEXT, "y]. *)
Definition breaking_name : string :=
  "x" +:+ String dquote " TEXT, " +:+ String dquote "y".

Definition breaking_sheet : dataframe :=
  {| df_columns := [breaking_name]; df_rows := [] |}.








(** The rows that [export_candidates] fetches for the identifiers [ids]. *)
Definition selected (ids : list Z) (row : Z * list value) : bool :=
  bool_decide (fst row ∈ ids).

Definition export_rows (t : table) (ids : list Z) : list (Z * list value) :=
  merge_sort (key_le (resolve_rowid t)) (List.filter (selected ids) (tbl_rows t)).



(** Two small spreadsheets for the merge tool. *)
Definition sample_repr : value -> string := fun _ => "0.0".

Definition sample_base : dataframe :=
  {| df_columns := ["source_folder"; "合金成分"; "Ti"];
     df_rows := [[Text "f1"; Text " "; Null];
                 [Text " f2"; Text "Old"; Int 1];
                 [Int 3; Null; Null]] |}.

Definition sample_new : dataframe :=
  {| df_columns := ["Ti"; "source_folder"; "合金成分"];
     df_rows := [[Int 5; Text "f1 "; Text "AlTiCu"];
                 [Int 6; Text "f2"; Text "New"];
                 [Int 7; Text "f1"; Text "Dup"];
                 [Int 8; Text "f9"; Text "X"];
                 [Int 9; Text "3"; Text "  "]] |}.




(** A computation that leaves the file at [p] as it is, and one that leaves
    the pointer to the active database as it is. *)
Definition keeps_file {A : Type} (p : string) (m : io A) : Prop :=
  forall w, files (snd (m w)) !! p = files w !! p.

Definition keeps_current {A : Type} (m : io A) : Prop :=
  forall w, CURRENT_DB (snd (m w)) = CURRENT_DB w.

(** The kind of column that the CSV branch of [init_db] declares for a
    field, and the text and tokens of a declaration. *)
Definition column_kind (field : string) : coltype :=
  if String.eqb (lower field) "id" then T_integer_pk
  else if str_in (lower field) ["name"; "category"] then T_text
  else T_real.












(** What is bound for a cell of a CSV line: NULL for a cell that is empty
    or that the line does not have. *)
Definition csv_cell (c : option string) : value :=
  match c with
  | Some s => if String.eqb s EmptyString then Null else Text s
  | None => Null
  end.


(** A computation that leaves the world as it is. *)
Definition changes_nothing {A : Type} (m : io A) : Prop := forall w, snd (m w) = w.

(** The keys of the new file that no row of the base has, each once, in the
    order in which the new file first shows them. *)
Definition new_only_keys (py_repr : value -> string) (base_df new_df : dataframe)
  : list string :=
  dict_keys (map (normal_key py_repr (df_columns base_df)) (df_rows base_df))
            (map (normal_key py_repr (df_columns new_df)) (df_rows new_df)).

(** The row that the merge appends for such a key, under the labels
    [columns]: the key, and for every other label the cell of the first row
    of the new file that has the key. *)
Definition appended_row (py_repr : value -> string) (new_df : dataframe)
    (columns : list string) (k : string) : list value :=
  map (fun c => if String.eqb c KEY_COL then Text k else matched_cell py_repr new_df c k)
      columns.

(** The cell that a row of the base has under [c] after the merge. *)
Definition merged_base_cell (py_repr : value -> string) (TARGET_COLS : list string)
    (base_df new_df : dataframe) (row : list value) (c : string) : value :=
  let k := normal_key py_repr (df_columns base_df) row in
  if String.eqb c KEY_COL then Text k
  else if str_in c TARGET_COLS && str_in c (df_columns new_df)
       then merged_cell (get_cell (df_columns base_df) row c) (matched_cell py_repr new_df c k)
       else get_cell (df_columns base_df) row c.






(** The columns of the table of a CSV file. *)
Definition csv_columns (header : list string) : list column :=
  map (fun f => {| col_name := f; col_type := column_kind f |}) header.





(** A CSV file whose second line repeats the key of the first. *)
Definition repeating_csv_world : world :=
  {| files := {[ CSV_FILE := F_csv [["id"; "name"]; ["1"; "a"]; ["1"; "b"]] ]};
     faults := no_faults;
     CURRENT_DB := MAIN_DB;
     cfg := sample_config |}.


(** * Properties *)

(** ** The lexer on generated text *)

#[local] Arguments String.append !s1 s2 : simpl nomatch.

Lemma append_assoc (a b c : string) : (a +:+ b) +:+ c = a +:+ (b +:+ c).
Proof. induction a as [|x a IH]; simpl; [reflexivity | now rewrite IH]. Qed.

Lemma append_nil_r (a : string) : a +:+ EmptyString = a.
Proof. induction a as [|x a IH]; simpl; [reflexivity | now rewrite IH]. Qed.

Lemma lex_from_run (st : lex_state) (s : string) :
  lex_from st s = fst (lex_run st s) ++ lex_flush (snd (lex_run st s)).
Proof.
  revert st. induction s as [|c r IH]; intros st; simpl.
  - reflexivity.
  - rewrite IH. destruct (lex_step st c) as [t1 st1]; simpl.
    destruct (lex_run st1 r) as [t2 st2]; simpl.
    now rewrite app_assoc.
Qed.

Lemma lex_run_app (st : lex_state) (a b : string) :
  lex_run st (a +:+ b) =
  (fst (lex_run st a) ++ fst (lex_run (snd (lex_run st a)) b),
   snd (lex_run (snd (lex_run st a)) b)).
Proof.
  revert st. induction a as [|c r IH]; intros st; simpl.
  - now destruct (lex_run st b).
  - destruct (lex_step st c) as [t1 st1]. rewrite IH.
    destruct (lex_run st1 r) as [t2 st2]; simpl.
    now rewrite app_assoc.
Qed.

Lemma lex_run_name (acc n : string) :
  no_dquote n = true -> lex_run (LName acc) n = ([], LName (acc +:+ n)).
Proof.
  revert acc. induction n as [|c r IH]; intros acc H; simpl in *.
  - now rewrite append_nil_r.
  - apply andb_prop in H as [Hc Hr].
    apply negb_true_iff in Hc. rewrite Hc.
    rewrite (IH _ Hr). unfold snoc. now rewrite append_assoc.
Qed.

(** A quote-free name between its quotes is read back as that name. *)
Lemma lex_run_quoted (n : string) :
  no_dquote n = true -> lex_run LIdle (quoted n) = ([], LNameQ n).
Proof.
  intros H. unfold quoted.
  change (String dquote (n +:+ String dquote EmptyString))
    with (String dquote EmptyString +:+ (n +:+ String dquote EmptyString)).
  rewrite !lex_run_app. simpl. rewrite (lex_run_name _ _ H). simpl.
  reflexivity.
Qed.

Lemma lex_from_app (st : lex_state) (a b : string) :
  lex_from st (a +:+ b) = fst (lex_run st a) ++ lex_from (snd (lex_run st a)) b.
Proof.
  rewrite !lex_from_run, lex_run_app. simpl. now rewrite app_assoc.
Qed.

Lemma lex_from_quoted (n r : string) :
  no_dquote n = true -> lex_from LIdle (quoted n +:+ r) = lex_from (LNameQ n) r.
Proof. intros H. now rewrite lex_from_app, (lex_run_quoted _ H). Qed.

Lemma pending_space (st : lex_state) (t : token) (r : string) :
  pending st t -> lex_from st (String " "%char r) = t :: lex_from LIdle r.
Proof. intros [a|a|a]; reflexivity. Qed.

Lemma pending_comma (st : lex_state) (t : token) (r : string) :
  pending st t -> lex_from st (String ","%char r) = t :: TPunct P_comma :: lex_from LIdle r.
Proof. intros [a|a|a]; reflexivity. Qed.


Lemma pending_end (st : lex_state) (t : token) :
  pending st t -> lex_from st EmptyString = [t].
Proof. intros [a|a|a]; reflexivity. Qed.

Lemma lex_from_idle_space (r : string) :
  lex_from LIdle (String " "%char r) = lex_from LIdle r.
Proof. reflexivity. Qed.

(** One range condition, wherever it is appended. *)
Lemma lex_from_cond (prop r : string) :
  no_dquote prop = true ->
  lex_from LIdle (cond_sql prop +:+ r) = cond_tokens prop ++ lex_from LIdle r.
Proof.
  intros H. unfold cond_sql. rewrite !append_assoc.
  rewrite (lex_from_app LIdle " AND CAST(").
  change (lex_run LIdle " AND CAST(")
    with ([TWord W_and; TWord W_cast; TPunct P_lparen], LIdle).
  cbn [fst snd]. rewrite (lex_from_quoted _ _ H).
  rewrite (lex_from_app (LNameQ prop) " AS REAL) BETWEEN ? AND ?").
  reflexivity.
Qed.

Lemma lex_from_conds (props : list string) :
  forallb no_dquote props = true ->
  lex_from LIdle (concat_str (map cond_sql props)) = flat_map cond_tokens props.
Proof.
  induction props as [|p r IH]; intros H; [reflexivity|].
  simpl in H. apply andb_prop in H as [Hp Hr].
  cbn [map concat_str flat_map]. rewrite (lex_from_cond _ _ Hp), (IH Hr).
  reflexivity.
Qed.

Lemma lex_from_cond_pending (st : lex_state) (t : token) (prop r : string) :
  pending st t -> no_dquote prop = true ->
  lex_from st (cond_sql prop +:+ r) = t :: cond_tokens prop ++ lex_from LIdle r.
Proof.
  intros Hst H. rewrite <- (lex_from_cond _ _ H).
  unfold cond_sql. rewrite !append_assoc.
  change (" AND CAST(" +:+ quoted prop +:+ " AS REAL) BETWEEN ? AND ?" +:+ r)
    with (String " "%char ("AND CAST(" +:+ quoted prop +:+ " AS REAL) BETWEEN ? AND ?" +:+ r)).
  rewrite (pending_space _ _ _ Hst), lex_from_idle_space. reflexivity.
Qed.

Lemma lex_from_conds_pending (st : lex_state) (t : token) (props : list string) :
  pending st t -> forallb no_dquote props = true ->
  lex_from st (concat_str (map cond_sql props)) = t :: flat_map cond_tokens props.
Proof.
  intros Hst H. destruct props as [|p r].
  - now apply pending_end.
  - simpl in H. apply andb_prop in H as [Hp Hr].
    cbn [map concat_str flat_map].
    rewrite (lex_from_cond_pending _ _ _ _ Hst Hp), (lex_from_conds _ Hr). reflexivity.
Qed.

Lemma join_cons (sep x : string) (l : list string) :
  join sep (x :: l) = x +:+ prefixed sep l.
Proof.
  revert x. induction l as [|y r IH]; intros x.
  - simpl. now rewrite append_nil_r.
  - change (join sep (x :: y :: r)) with (x +:+ sep +:+ join sep (y :: r)).
    rewrite IH. reflexivity.
Qed.

Lemma lex_from_prefixed_names (st : lex_state) (t : token) (cols : list string)
    (r : string) (R : list token) :
  pending st t -> forallb no_dquote cols = true ->
  (forall st' t', pending st' t' -> lex_from st' r = t' :: R) ->
  lex_from st (prefixed ", " (map quoted cols) +:+ r) = t :: name_tokens cols ++ R.
Proof.
  intros Hst H Hr. revert st t Hst. induction cols as [|c l IH]; intros st t Hst.
  - simpl. now apply Hr.
  - simpl in H. apply andb_prop in H as [Hc Hl].
    cbn [map prefixed name_tokens flat_map].
    rewrite !append_assoc.
    change (", " +:+ quoted c +:+ prefixed ", " (map quoted l) +:+ r)
      with (String ","%char (String " "%char (quoted c +:+ prefixed ", " (map quoted l) +:+ r))).
    rewrite (pending_comma _ _ _ Hst), lex_from_idle_space, (lex_from_quoted _ _ Hc).
    rewrite (IH Hl _ _ (pending_name c)). reflexivity.
Qed.

Lemma str_in_In (s : string) (l : list string) : str_in s l = true <-> In s l.
Proof.
  unfold str_in. rewrite existsb_exists. split.
  - intros (x & Hx & He). apply String.eqb_eq in He. now subst.
  - intros H. exists s. split; [assumption | apply String.eqb_refl].
Qed.

Lemma forallb_In {A : Type} (f : A -> bool) (l : list A) (x : A) :
  forallb f l = true -> In x l -> f x = true.
Proof. rewrite forallb_forall. auto. Qed.

Lemma name_column_In (cols : list string) (n : string) :
  name_column cols = Some n -> In n cols.
Proof.
  unfold name_column. intros H. apply find_some in H as [_ H].
  now apply str_in_In.
Qed.

Lemma lex_from_tail (st : lex_state) (t : token) (props : list string) :
  pending st t -> forallb no_dquote props = true ->
  lex_from st (" FROM materials WHERE 1=1" +:+ concat_str (map cond_sql props))
  = t :: [TWord W_from; TWord W_materials; TWord W_where; TWord W_one; TPunct P_eq; TWord W_one]
      ++ flat_map cond_tokens props.
Proof.
  intros Hst H.
  change (" FROM materials WHERE 1=1" +:+ concat_str (map cond_sql props))
    with (String " "%char ("FROM materials WHERE 1=1" +:+ concat_str (map cond_sql props))).
  rewrite (pending_space _ _ _ Hst), lex_from_app.
  change (lex_run LIdle "FROM materials WHERE 1=1")
    with ([TWord W_from; TWord W_materials; TWord W_where; TWord W_one; TPunct P_eq], LWord "1").
  cbn [fst snd]. rewrite (lex_from_conds_pending _ _ _ (pending_word "1") H).
  reflexivity.
Qed.

(** The text of [search] is read as the tokens it was written for. *)
Lemma lex_search_sql (table_cols props : list string) :
  forallb no_dquote table_cols = true -> forallb no_dquote props = true ->
  lex (search_sql table_cols props) = search_tokens table_cols props.
Proof.
  intros Hc Hp. unfold lex, search_sql, search_tokens, select_list.
  cbn [app]. rewrite join_cons. cbn [prefixed]. rewrite !append_assoc.
  rewrite (lex_from_app LIdle "SELECT ").
  change (lex_run LIdle "SELECT ") with ([TWord W_select], LIdle). cbn [fst snd].
  rewrite (lex_from_app LIdle "rowid AS id").
  change (lex_run LIdle "rowid AS id") with ([TWord W_rowid; TWord W_as], LWord "id").
  cbn [fst snd]. rewrite (lex_from_app (LWord "id") ", ").
  change (lex_run (LWord "id") ", ") with ([TWord (W_other "id"); TPunct P_comma], LIdle).
  cbn [fst snd app]. do 5 f_equal.
  unfold name_item_token. destruct (name_column table_cols) as [nc|] eqn:Hn.
  - assert (Hq : no_dquote nc = true)
      by (eapply forallb_In; [exact Hc | now apply name_column_In]).
    rewrite !append_assoc, (lex_from_quoted _ _ Hq).
    rewrite (lex_from_app (LNameQ nc) " AS name"). cbn [fst snd app].
    change (lex_run (LNameQ nc) " AS name") with ([TName nc; TWord W_as], LWord "name").
    cbn [fst snd app]. do 2 f_equal.
    apply (lex_from_prefixed_names _ _ _ _ _ (pending_word "name") Hc).
    intros st' t' Hst'. now apply lex_from_tail.
  - rewrite (lex_from_app LIdle "'' AS name").
    change (lex_run LIdle "'' AS name") with ([TString EmptyString; TWord W_as], LWord "name").
    cbn [fst snd app]. do 2 f_equal.
    apply (lex_from_prefixed_names _ _ _ _ _ (pending_word "name") Hc).
    intros st' t' Hst'. now apply lex_from_tail.
Qed.

(** ** The parser on those tokens *)

Lemma parse_items_step (c : string) (ts : list token) :
  parse_items (TPunct P_comma :: TName c :: TPunct P_comma :: ts)
  = cons_fst (Some (X_name c)) (parse_items (TPunct P_comma :: ts)).
Proof. reflexivity. Qed.

Lemma parse_items_names (cols : list string) (R : list token) :
  parse_items (name_tokens cols ++ TWord W_from :: R)
  = Some (map X_name cols, TWord W_from :: R).
Proof.
  induction cols as [|c l IH]; [reflexivity|].
  destruct l as [|d l'].
  - reflexivity.
  - change (name_tokens (c :: d :: l') ++ TWord W_from :: R)
      with (TPunct P_comma :: TName c :: TPunct P_comma
            :: (TName d :: name_tokens l' ++ TWord W_from :: R)).
    rewrite parse_items_step.
    change (TPunct P_comma :: TName d :: name_tokens l' ++ TWord W_from :: R)
      with (name_tokens (d :: l') ++ TWord W_from :: R).
    rewrite IH. reflexivity.
Qed.

Lemma parse_atoms_conds (props : list string) :
  parse_atoms (flat_map cond_tokens props) = Some (map A_between props, []).
Proof.
  induction props as [|p l IH]; [reflexivity|].
  cbn [flat_map cond_tokens app map]. cbn [parse_atoms]. rewrite IH. reflexivity.
Qed.

Lemma parse_search_tokens (table_cols props : list string) :
  parse (search_tokens table_cols props)
  = Some (S_select (X_rowid :: name_item_expr table_cols :: map X_name table_cols)
                   (A_true :: map A_between props) false).
Proof.
  unfold search_tokens. cbn [app]. cbn [parse].
  assert (Hitems :
    parse_items (TPunct P_comma :: TWord W_rowid :: TWord W_as :: TWord (W_other "id")
                 :: TPunct P_comma :: name_item_token table_cols :: TWord W_as
                 :: TWord (W_other "name")
                 :: name_tokens table_cols
                    ++ TWord W_from :: TWord W_materials :: TWord W_where :: TWord W_one
                       :: TPunct P_eq :: TWord W_one :: flat_map cond_tokens props)
    = Some (X_rowid :: name_item_expr table_cols :: map X_name table_cols,
            TWord W_from :: TWord W_materials :: TWord W_where :: TWord W_one
            :: TPunct P_eq :: TWord W_one :: flat_map cond_tokens props)).
  { cbn [parse_items]. rewrite parse_items_names.
    unfold name_item_token, name_item_expr.
    destruct (name_column table_cols); reflexivity. }
  rewrite Hitems. cbn [parse_tail]. cbn [parse_atoms].
  rewrite parse_atoms_conds. reflexivity.
Qed.

(** ** [search] *)

Lemma add_conditions_spec (conditions : list condition) (query : string) (params : list value) :
  add_conditions conditions query params
  = (query +:+ concat_str (map cond_sql (map prop_of (active conditions))),
     params ++ flat_map bounds_of (active conditions)).
Proof.
  revert query params. induction conditions as [|c r IH]; intros query params.
  - simpl. now rewrite append_nil_r, app_nil_r.
  - cbn [add_conditions active List.filter].
    destruct (falsy (c_property c)) eqn:Hf; cbn [negb].
    + apply IH.
    + rewrite IH. cbn [map concat_str flat_map bounds_of].
      unfold cond_sql, prop_of. rewrite !append_assoc, <- app_assoc. reflexivity.
Qed.

Lemma find_col_lookup (cols : list string) (c : string) (j : nat) :
  NoDup (map lower cols) -> cols !! j = Some c -> find_col cols c = Some j.
Proof.
  revert j. induction cols as [|k r IH]; intros j Hnd Hj; [discriminate|].
  simpl in Hnd. apply NoDup_cons in Hnd as [Hk Hr].
  destruct j as [|j]; simpl in *.
  - injection Hj as ->. unfold name_eqb. now rewrite String.eqb_refl.
  - unfold name_eqb. destruct (String.eqb (lower k) (lower c)) eqn:He.
    + apply String.eqb_eq in He. exfalso. apply Hk. rewrite He.
      apply list_elem_of_fmap. exists c. split; [reflexivity|].
      eapply list_elem_of_lookup_2; eassumption.
    + rewrite (IH _ Hr Hj). reflexivity.
Qed.

Lemma find_col_In (cols : list string) (c : string) :
  In c cols -> is_Some (find_col cols c).
Proof.
  induction cols as [|k r IH]; intros H; [destruct H|].
  simpl. destruct (name_eqb k c) eqn:He; [eauto|].
  destruct H as [->|H].
  - unfold name_eqb in He. now rewrite String.eqb_refl in He.
  - destruct (IH H) as [i ->]. simpl. eauto.
Qed.

Lemma col_pos_lookup (cols : list string) (c : string) (j : nat) :
  NoDup (map lower cols) -> cols !! j = Some c -> col_pos cols c = j.
Proof. intros Hnd Hj. unfold col_pos. now rewrite (find_col_lookup _ _ _ Hnd Hj). Qed.

Lemma resolve_names (eng : engine) (t : table) (l : list string) :
  Forall (fun c => is_Some (find_col (col_names t) c)) l ->
  rmap_list (resolve_expr eng t) (map X_name l)
  = Ok (map (fun c => cell (col_pos (col_names t) c)) l).
Proof.
  induction 1 as [|c r [i Hi] Hr IH]; [reflexivity|].
  cbn [map rmap_list resolve_expr]. unfold resolve_name, col_pos at 1.
  rewrite Hi, IH. reflexivity.
Qed.

Lemma cells_of_row (cols : list string) (vals : list value) (rid : Z) :
  NoDup (map lower cols) -> List.length vals = List.length cols ->
  map (fun g : getter => g (rid, vals)) (map (fun c => cell (col_pos cols c)) cols) = vals.
Proof.
  intros Hnd Hlen. rewrite map_map. apply list_eq. intros j.
  rewrite list_lookup_fmap.
  destruct (cols !! j) as [c|] eqn:Hj; simpl.
  - rewrite (col_pos_lookup _ _ _ Hnd Hj). unfold cell. simpl.
    assert (Hlt : (j < List.length vals)%nat)
      by (rewrite Hlen; eapply lookup_lt_Some; eassumption).
    destruct (lookup_lt_is_Some_2 vals j Hlt) as [v Hv].
    rewrite Hv. f_equal. now apply nth_lookup_Some with (d := Null) in Hv.
  - symmetry. apply lookup_ge_None. rewrite Hlen. now apply lookup_ge_None.
Qed.

Lemma is_true_and (a b : option bool) :
  is_true (sql_and a b) = is_true a && is_true b.
Proof. destruct a as [[|]|], b as [[|]|]; reflexivity. Qed.

Lemma holds_spec (preds : list predicate) (row : Z * list value) :
  holds preds row = forallb (fun p : predicate => is_true (p row)) preds.
Proof.
  unfold holds.
  assert (H : forall acc, is_true (foldl (fun acc p => sql_and acc (p row)) acc preds)
                          = is_true acc && forallb (fun p : predicate => is_true (p row)) preds).
  { induction preds as [|p r IH]; intros acc; simpl.
    - now rewrite andb_true_r.
    - rewrite IH, is_true_and, andb_assoc. reflexivity. }
  rewrite H. reflexivity.
Qed.

Lemma with_files_same (w : world) (p : string) (f : file) :
  files w !! p = Some f -> with_files w (<[p := f]> (files w)) = w.
Proof.
  intros H. unfold with_files. rewrite (insert_id _ _ _ H). now destruct w.
Qed.





Lemma resolve_items (eng : engine) (t : table) :
  wf_table t ->
  rmap_list (resolve_expr eng t)
            (X_rowid :: name_item_expr (col_names t) :: map X_name (col_names t))
  = Ok (resolve_rowid t :: name_getter t
        :: map (fun c => cell (col_pos (col_names t) c)) (col_names t)).
Proof.
  intros Hwf.
  assert (Hall : Forall (fun c => is_Some (find_col (col_names t) c)) (col_names t)).
  { apply Forall_forall. intros c Hc. apply find_col_In. now apply list_elem_of_In. }
  cbn [rmap_list resolve_expr rbind].
  unfold name_item_expr, name_getter.
  destruct (name_column (col_names t)) as [nc|] eqn:Hn.
  - cbn [resolve_expr]. unfold resolve_name.
    destruct (find_col_In _ _ (name_column_In _ _ Hn)) as [i Hi].
    assert (Hp : col_pos (col_names t) nc = i) by (unfold col_pos; now rewrite Hi).
    rewrite Hi, Hp. cbn [rbind].
    rewrite (resolve_names _ _ _ Hall). reflexivity.
  - cbn [resolve_expr rbind]. rewrite (resolve_names _ _ _ Hall). reflexivity.
Qed.



(** ** Dictionaries built by [dict(zip(...))] *)





Lemma sample_table_wf : wf_table sample_table.
Proof.
  split.
  - reflexivity.
  - apply (bool_decide_unpack _). vm_compute. reflexivity.
  - discriminate.
  - repeat constructor.
  - apply (bool_decide_unpack _). vm_compute. reflexivity.
Defined.

Lemma sample_world_serves : serves sample_world sample_table.
Proof. split; reflexivity. Defined.

Lemma active_app (l1 l2 : list condition) : active (l1 ++ l2) = active l1 ++ active l2.
Proof. unfold active. apply List.filter_app. Qed.

Lemma search_congr (c1 c2 : list condition) (w : world) :
  (forall q ps, add_conditions c1 q ps = add_conditions c2 q ps) ->
  search c1 w = search c2 w.
Proof.
  intros H. unfold search, bind, get_current. cbv beta iota.
  destruct (connect (CURRENT_DB w) w) as [[conn|e] w1]; [|reflexivity].
  destruct (table_info conn w1) as [[cols|e] w2]; [|reflexivity].
  now rewrite H.
Qed.

(** C8. A constraint of the conditions list whose "property" field is
    missing is skipped without notice: it adds nothing to the query text or
    to its parameters, and the search answers as it does for the same list
    without that constraint. *)
Theorem search_skips_missing_property
    (before after : list condition) (lo hi : value) (w : world) :
  let skipped := {| c_property := None; c_min := lo; c_max := hi |} in
  (forall query params,
     add_conditions (before ++ skipped :: after) query params
     = add_conditions (before ++ after) query params)
  /\ search (before ++ skipped :: after) w = search (before ++ after) w.
Proof.
  intros skipped.
  assert (H : forall query params,
     add_conditions (before ++ skipped :: after) query params
     = add_conditions (before ++ after) query params).
  { intros query params. rewrite !add_conditions_spec, !active_app. reflexivity. }
  split; [exact H | now apply search_congr].
Qed.



(** ** Range conditions *)






(** ** [stats] *)

Lemma count_statement : parse (lex "SELECT COUNT(*) FROM materials") = Some S_count.
Proof. reflexivity. Qed.

Lemma run_count (eng : engine) (db : option table) :
  run_statement eng db "SELECT COUNT(*) FROM materials" []
  = match db with
    | Some t => Ok ([[Int (Z.of_nat (List.length (tbl_rows t)))]], db)
    | None => Raise OperationalError
    end.
Proof.
  unfold run_statement. rewrite count_statement.
  cbn [statement_arity].
  replace (max_variables eng <? 0)%nat with false by (symmetry; apply Nat.ltb_ge; lia).
  destruct db; reflexivity.
Qed.

(** C10. [stats] never raises: whatever the active-database pointer names,
    it answers, with the number of rows of the table when the database opens
    and holds it, and with null when the file cannot be opened, is missing,
    is no database or has no such table. *)
Theorem stats_never_raises (w : world) :
  fst (stats w) = Ok (stats_total w)
  /\ (forall t, serves w t ->
        fst (stats w) = Ok (Int (Z.of_nat (List.length (tbl_rows t)))))
  /\ ((forall t, ~ serves w t) -> fst (stats w) = Ok Null).
Proof.
  assert (H : fst (stats w) = Ok (stats_total w)).
  { unfold stats, stats_total, bind, try_except, get_current. cbv beta iota.
    unfold connect. destruct (faults w (Op_open (CURRENT_DB w))); [reflexivity|].
    destruct (files w !! CURRENT_DB w) as [f|] eqn:Hf.
    - unfold execute. rewrite Hf. destruct f as [db| | |]; try reflexivity.
      rewrite run_count. destruct db; reflexivity.
    - unfold execute. cbn [files with_files]. rewrite lookup_insert_eq.
      rewrite run_count. reflexivity. }
  split; [exact H | split].
  - intros t [Hf Hop]. rewrite H. unfold stats_total. now rewrite Hop, Hf.
  - intros Hno. rewrite H. unfold stats_total.
    destruct (faults w (Op_open (CURRENT_DB w))) eqn:Hop; [reflexivity|].
    destruct (files w !! CURRENT_DB w) as [[[t|]| | |]|] eqn:Hf; try reflexivity.
    exfalso. apply (Hno t). now split.
Qed.

(** ** [db_select] and [db_upload] *)

Lemma user_is_not_main : USER_DB <> MAIN_DB.
Proof. discriminate. Qed.

(** C5. Selecting "user" when no user database exists: if the main database
    is missing as well, the answer is the error "main db missing" (status
    500) and nothing is created or changed; if the main database exists (and
    the copy itself goes through), the user database becomes a copy of it
    and the active one, and what is later done to the main file, by writing,
    removing or running a statement on it, leaves that copy as it is. *)
Theorem select_user_first_time (w : world) :
  files w !! USER_DB = None ->
  (files w !! MAIN_DB = None ->
     db_select (Some "user") w = (Ok (500, B_error "main db missing"), w))
  /\ (forall f, files w !! MAIN_DB = Some f ->
        faults w (Op_copy MAIN_DB USER_DB) = false ->
        exists w',
          db_select (Some "user") w = (Ok (200, B_ok "user" None None), w')
          /\ files w' !! USER_DB = Some f
          /\ files w' !! MAIN_DB = Some f
          /\ CURRENT_DB w' = USER_DB
          /\ (forall f', files (snd (write_file MAIN_DB f' w')) !! USER_DB = Some f)
          /\ files (snd (os_remove MAIN_DB w')) !! USER_DB = Some f
          /\ (forall sql ps, files (snd (execute MAIN_DB sql ps w')) !! USER_DB = Some f)).
Proof.
  intros Hu. split.
  - intros Hm. unfold db_select, bind, os_path_exists. cbn [bool_decide decide_rel].
    rewrite (bool_decide_eq_false_2 (Some "user" = Some "main")) by discriminate.
    rewrite (bool_decide_eq_true_2 (Some "user" = Some "user")) by reflexivity.
    cbv beta iota. rewrite Hu.
    rewrite (bool_decide_eq_false_2 (is_Some None)) by (intros [? ?]; discriminate).
    cbv beta iota. cbn [negb]. rewrite Hm.
    rewrite (bool_decide_eq_false_2 (is_Some None)) by (intros [? ?]; discriminate).
    reflexivity.
  - intros f Hm Hc.
    exists (with_current (with_files w (<[USER_DB := f]> (files w))) USER_DB).
    split; [|repeat split].
    + unfold db_select, bind, os_path_exists.
      rewrite (bool_decide_eq_false_2 (Some "user" = Some "main")) by discriminate.
      rewrite (bool_decide_eq_true_2 (Some "user" = Some "user")) by reflexivity.
      cbv beta iota. rewrite Hu.
      rewrite (bool_decide_eq_false_2 (is_Some None)) by (intros [? ?]; discriminate).
      cbv beta iota. cbn [negb]. rewrite Hm.
      rewrite (bool_decide_eq_true_2 (is_Some (Some f))) by eauto.
      cbn [negb]. unfold shutil_copy. rewrite Hc, Hm. reflexivity.
    + cbn [files with_current with_files]. apply lookup_insert_eq.
    + cbn [files with_current with_files]. rewrite lookup_insert_ne by exact user_is_not_main.
      exact Hm.
    + intros f'. unfold write_file. cbn [faults with_current with_files].
      destruct (faults w (Op_write MAIN_DB)); cbn [snd files with_files with_current].
      * apply lookup_insert_eq.
      * rewrite lookup_insert_ne by (intros H; now apply user_is_not_main).
        apply lookup_insert_eq.
    + unfold os_remove. cbn [faults with_current with_files files].
      destruct (faults w (Op_remove MAIN_DB)); cbn [snd files with_files with_current].
      * apply lookup_insert_eq.
      * rewrite lookup_insert_ne by exact user_is_not_main. rewrite Hm.
        cbn [snd files with_files]. rewrite lookup_delete_ne by (intros H; now apply user_is_not_main).
        apply lookup_insert_eq.
    + intros sql ps. unfold execute. cbn [files with_current with_files cfg].
      rewrite lookup_insert_ne by exact user_is_not_main. rewrite Hm.
      destruct f as [db| | |]; cbn [snd files with_files with_current];
        try apply lookup_insert_eq.
      destruct (run_statement (sqlite (cfg w)) db sql ps) as [[rows db']|e];
        cbn [snd files with_files with_current].
      * rewrite lookup_insert_ne by (intros H; now apply user_is_not_main).
        apply lookup_insert_eq.
      * apply lookup_insert_eq.
Qed.

Lemma select_user_first_time_witness :
  exists w',
    db_select (Some "user") sample_world = (Ok (200, B_ok "user" None None), w')
    /\ files w' !! USER_DB = Some (F_db (Some sample_table))
    /\ files w' !! MAIN_DB = Some (F_db (Some sample_table))
    /\ CURRENT_DB w' = USER_DB
    /\ (forall f', files (snd (write_file MAIN_DB f' w')) !! USER_DB
                   = Some (F_db (Some sample_table)))
    /\ files (snd (os_remove MAIN_DB w')) !! USER_DB = Some (F_db (Some sample_table))
    /\ (forall sql ps, files (snd (execute MAIN_DB sql ps w')) !! USER_DB
                       = Some (F_db (Some sample_table))).
Proof.
  assert (Hu : files sample_world !! USER_DB = None) by reflexivity.
  exact (proj2 (select_user_first_time sample_world Hu)
               (F_db (Some sample_table)) eq_refl eq_refl).
Defined.

Lemma upload_db_is_not_user (ts : string) : upload_db ts <> USER_DB.
Proof. unfold upload_db, USER_DB. simpl. discriminate. Qed.

(** C6. An upload whose database was built but whose copy over the user
    database fails does not fail: it answers 200 with current "temp", the
    path of the new database and a warning, and the new database, as it was
    built, is the active one. *)
Theorem upload_falls_back_to_temp
    (w w2 : world) (filename : string) (content : file) (ts : string) :
  allowed_name filename = true ->
  faults w (Op_mkdir "uploads") = false ->
  faults w (Op_write (upload_xlsx ts)) = false ->
  upload_build (upload_xlsx ts) (upload_db ts)
               (with_files w (<[upload_xlsx ts := content]> (files w)))
  = (Ok None, w2) ->
  faults w2 (Op_copy (upload_db ts) USER_DB) = true ->
  exists w3,
    db_upload (Some (filename, content)) ts w
    = (Ok (200, B_ok "temp" (Some (upload_db ts)) (Some OSError)), w3)
    /\ CURRENT_DB w3 = upload_db ts
    /\ files w3 !! upload_db ts = files w2 !! upload_db ts.
Proof.
  intros Hname Hmk Hwr Hbuild Hcopy.
  unfold db_upload. rewrite Hname. cbn [negb].
  unfold bind at 1. unfold os_makedirs. rewrite Hmk.
  unfold bind at 1. unfold write_file. rewrite Hwr.
  unfold bind at 1. rewrite Hbuild.
  unfold upload_replace, try_except, bind, os_path_exists. cbv beta iota.
  destruct (bool_decide (is_Some (files w2 !! USER_DB))) eqn:Hex.
  - unfold os_remove.
    destruct (faults w2 (Op_remove USER_DB)) eqn:Hrm.
    + unfold ret, shutil_copy. rewrite Hcopy. unfold set_current.
      eexists. split; [reflexivity|]. split; reflexivity.
    + apply bool_decide_eq_true_1 in Hex as [f Hf]. rewrite Hf.
      unfold ret, shutil_copy. cbn [faults with_files]. rewrite Hcopy.
      unfold set_current. eexists. split; [reflexivity|]. split; [reflexivity|].
      cbn [files with_current with_files].
      apply lookup_delete_ne. intros H. symmetry in H. now apply upload_db_is_not_user in H.
  - unfold ret, shutil_copy. rewrite Hcopy. unfold set_current.
    eexists. split; [reflexivity|]. split; reflexivity.
Qed.

Lemma upload_falls_back_to_temp_witness :
  exists w3,
    db_upload (Some ("new.xlsx", F_sheet sample_sheet)) sample_ts faulty_world
    = (Ok (200, B_ok "temp" (Some (upload_db sample_ts)) (Some OSError)), w3)
    /\ CURRENT_DB w3 = upload_db sample_ts
    /\ files w3 !! upload_db sample_ts
       = Some (F_db (Some {| tbl_cols := [{| col_name := "source_folder"; col_type := T_text |};
                                          {| col_name := "合金成分"; col_type := T_text |}];
                             tbl_rows := [(1, [Text "f1"; Text "AlTi"]);
                                          (2, [Text "f2"; Null])] |})).
Proof.
  pose (w1 := with_files faulty_world
                (<[upload_xlsx sample_ts := F_sheet sample_sheet]> (files faulty_world))).
  pose (w2 := snd (upload_build (upload_xlsx sample_ts) (upload_db sample_ts) w1)).
  assert (Hb : upload_build (upload_xlsx sample_ts) (upload_db sample_ts) w1 = (Ok None, w2)).
  { rewrite (surjective_pairing (upload_build _ _ w1)).
    apply pair_equal_spec. split; [vm_compute; reflexivity | reflexivity]. }
  destruct (upload_falls_back_to_temp faulty_world w2 "new.xlsx" (F_sheet sample_sheet)
              sample_ts eq_refl eq_refl eq_refl Hb eq_refl) as (w3 & H1 & H2 & H3).
  exists w3. split; [exact H1 | split; [exact H2|]].
  rewrite H3. vm_compute. reflexivity.
Defined.

(** ** Quoting of names *)

(** A name free of the quote character is read back whole from between its
    quotes. *)
Lemma quoted_read_back (n : string) :
  no_dquote n = true -> lex (quoted n) = [TName n].
Proof.
  intros H. unfold lex. rewrite lex_from_run, (lex_run_quoted _ H). reflexivity.
Qed.

(** C4 at a name that holds a quote character.  The name [x" TEXT, "y] is
    wrapped in quotes as it is, its own quote closes the identifier, and the
    rest of it is read as SQL: the CREATE TABLE statement written for this
    one name declares two columns, [x] and [y]; an upload of a sheet whose
    only column has this label builds a table with those two columns. *)
Theorem create_table_name_breaks_out :
  lex (quoted breaking_name)
  = [TName "x"; TWord W_text; TPunct P_comma; TName "y"]
  /\ parse (lex (create_sql_csv [breaking_name]))
     = Some (S_create [("x", T_text); ("y", T_real)])
  /\ parse (lex (create_sql_sheet [breaking_name]))
     = Some (S_create [("x", T_text); ("y", T_text)])
  /\ files (snd (db_upload (Some ("new.xlsx", F_sheet breaking_sheet)) sample_ts sample_world))
       !! USER_DB
     = Some (F_db (Some {| tbl_cols := [{| col_name := "x"; col_type := T_text |};
                                        {| col_name := "y"; col_type := T_text |}];
                           tbl_rows := [] |})).
Proof. repeat split; vm_compute; reflexivity. Qed.

(** ** [init_db] on the sample *)

Lemma init_db_builds_sample :
  fst (init_db csv_world) = Ok tt
  /\ files (snd (init_db csv_world)) !! MAIN_DB = Some (F_db (Some sample_table)).
Proof. split; vm_compute; reflexivity. Qed.

(** ** [properties] *)


(** *** The order of floats *)








(** *** [min] and [max] *)







(** *** The scan of a column *)






(** *** The loop over the fields *)








(** ** [export_candidates] *)

















(** ** The merge tool *)

Lemma str_in_cons (s x : string) (l : list string) :
  str_in s (x :: l) = String.eqb s x || str_in s l.
Proof. reflexivity. Qed.

Lemma col_index_lt (columns : list string) (c : string) (j : nat) :
  col_index columns c = Some j -> (j < List.length columns)%nat.
Proof.
  revert j. induction columns as [|k r IH]; intros j H; [discriminate|].
  simpl in *. destruct (String.eqb k c).
  - injection H as <-. lia.
  - destruct (col_index r c) as [i|]; [|discriminate]. injection H as <-.
    specialize (IH _ eq_refl). lia.
Qed.

Lemma col_index_In (columns : list string) (c : string) :
  is_Some (col_index columns c) <-> str_in c columns = true.
Proof.
  induction columns as [|k r IH]; simpl.
  - split; [intros [? ?]; discriminate | discriminate].
  - rewrite (String.eqb_sym c k). destruct (String.eqb k c); simpl.
    + split; eauto.
    + rewrite <- IH. destruct (col_index r c); simpl; split; intros [? ?]; eauto; discriminate.
Qed.

Lemma col_index_nth (columns : list string) (c : string) (j : nat) :
  col_index columns c = Some j -> nth j columns EmptyString = c.
Proof.
  revert j. induction columns as [|k r IH]; intros j H; [discriminate|].
  simpl in H. destruct (String.eqb k c) eqn:He.
  - injection H as <-. now apply String.eqb_eq in He.
  - destruct (col_index r c) as [i|]; [|discriminate]. injection H as <-.
    simpl. now apply IH.
Qed.

Lemma col_index_app_l (columns : list string) (c d : string) :
  str_in d columns = false ->
  col_index (columns ++ [d]) c
  = match col_index columns c with
    | Some j => Some j
    | None => if String.eqb d c then Some (List.length columns) else None
    end.
Proof.
  intros Hd. induction columns as [|k r IH]; simpl.
  - now destruct (String.eqb d c).
  - simpl in Hd. apply orb_false_elim in Hd as [_ Hd].
    destruct (String.eqb k c); [reflexivity|]. rewrite (IH Hd).
    destruct (col_index r c); [reflexivity|]. now destruct (String.eqb d c).
Qed.

(** Reading a cell after writing one. *)
Lemma get_set_cell (columns : list string) (row : list value) (col c : string) (v : value) :
  List.length row = List.length columns -> str_in col columns = true ->
  get_cell columns (set_cell columns row col v) c
  = if String.eqb c col then v else get_cell columns row c.
Proof.
  intros Hlen Hin. apply col_index_In in Hin as [j Hj].
  unfold get_cell, set_cell. rewrite Hj.
  pose proof (col_index_lt _ _ _ Hj) as Hlt.
  destruct (String.eqb c col) eqn:He.
  - apply String.eqb_eq in He. subst c. rewrite Hj.
    apply nth_lookup_Some with (d := Null).
    apply list_lookup_insert_eq. lia.
  - destruct (col_index columns c) as [i|] eqn:Hi; [|reflexivity].
    assert (i <> j).
    { intros ->. apply col_index_nth in Hi. apply col_index_nth in Hj.
      rewrite Hi in Hj. subst. now rewrite String.eqb_refl in He. }
    destruct (row !! i) as [x|] eqn:Hx.
    + rewrite (nth_lookup_Some _ _ Null x Hx).
      apply nth_lookup_Some. rewrite list_lookup_insert_ne by congruence. exact Hx.
    + rewrite !nth_overflow; [reflexivity | | ].
      * apply lookup_ge_None in Hx. exact Hx.
      * rewrite length_insert. apply lookup_ge_None in Hx. exact Hx.
Qed.

Lemma length_set_cell (columns : list string) (row : list value) (col : string) (v : value) :
  List.length (set_cell columns row col v) = List.length row.
Proof. unfold set_cell. destruct (col_index columns col); [apply length_insert | reflexivity]. Qed.

(** A label that is added, with its missing cell, changes no reading. *)
Lemma get_cell_ensure (columns : list string) (row : list value) (d c : string) :
  List.length row = List.length columns -> str_in d columns = false ->
  get_cell (columns ++ [d]) (row ++ [Null]) c = get_cell columns row c.
Proof.
  intros Hlen Hd. unfold get_cell. rewrite (col_index_app_l _ _ _ Hd).
  destruct (col_index columns c) as [j|] eqn:Hj.
  - apply app_nth1. rewrite Hlen. now apply col_index_lt with (c := c).
  - destruct (String.eqb d c); [|reflexivity].
    rewrite <- Hlen. rewrite app_nth2 by lia. now rewrite Nat.sub_diag.
Qed.

(** Reading a row that was laid out anew, label by label. *)
Lemma get_cell_map (columns : list string) (g : string -> value) (c : string) :
  (str_in c columns = false -> g c = Null) ->
  get_cell columns (map g columns) c = g c.
Proof.
  intros Hout. unfold get_cell. destruct (col_index columns c) as [j|] eqn:Hj.
  - pose proof (col_index_lt _ _ _ Hj) as Hlt. pose proof (col_index_nth _ _ _ Hj) as Hn.
    rewrite <- Hn. rewrite (nth_indep _ Null (g EmptyString)) by (now rewrite length_map).
    apply map_nth.
  - symmetry. apply Hout. destruct (str_in c columns) eqn:Hin; [|reflexivity].
    apply col_index_In in Hin as [j' Hj']. congruence.
Qed.

Section MergeFacts.

Variable py_repr : value -> string.
Variable TARGET_COLS : list string.

Lemma fill_row_cell (N : dataframe) (col : string) (cols1 : list string) (row1 : list value) :
  List.length row1 = List.length cols1 -> str_in col cols1 = true ->
  let a := aligned_cell N col (key_of cols1 row1) in
  let row2 := if is_missing (get_cell cols1 row1 col) && negb (is_missing a)
              then set_cell cols1 row1 col a else row1 in
  List.length row2 = List.length cols1
  /\ forall c, get_cell cols1 row2 c
               = if String.eqb c col then merged_cell (get_cell cols1 row1 col) a
                 else get_cell cols1 row1 c.
Proof.
  intros Hlen Hin a row2. unfold row2, merged_cell.
  destruct (is_missing (get_cell cols1 row1 col) && negb (is_missing a)) eqn:Hmask.
  - split; [now rewrite length_set_cell|]. intros c. now apply get_set_cell.
  - split; [exact Hlen|]. intros c. destruct (String.eqb c col) eqn:He; [|reflexivity].
    apply String.eqb_eq in He. now subst c.
Qed.

Lemma fill_column_spec (N df : dataframe) (col : string) :
  rectangular df ->
  rectangular (fill_column N col df)
  /\ forall i row, df_rows df !! i = Some row ->
       exists row', df_rows (fill_column N col df) !! i = Some row'
         /\ forall c, get_cell (df_columns (fill_column N col df)) row' c
                      = if String.eqb c col
                        then merged_cell (get_cell (df_columns df) row col)
                                         (aligned_cell N col (key_of (df_columns df) row))
                        else get_cell (df_columns df) row c.
Proof.
  intros Hrect. unfold rectangular in *. rewrite Forall_forall in Hrect.
  unfold fill_column, ensure_column.
  destruct (str_in col (df_columns df)) eqn:Hin; cbn [df_columns df_rows].
  - split.
    + apply Forall_forall. intros row' Hrow'.
      apply list_elem_of_fmap in Hrow' as (row & -> & Hrow).
      exact (proj1 (fill_row_cell N col _ row (Hrect _ Hrow) Hin)).
    + intros i row Hi. rewrite list_lookup_fmap, Hi. eexists. split; [reflexivity|].
      assert (Hrow : row ∈ df_rows df) by (eapply list_elem_of_lookup_2; eassumption).
      exact (proj2 (fill_row_cell N col _ row (Hrect _ Hrow) Hin)).
  - assert (Hin' : str_in col (df_columns df ++ [col]) = true).
    { apply str_in_In, in_or_app. right. now left. }
    assert (Hext : forall row, row ∈ df_rows df ->
              List.length (row ++ [Null]) = List.length (df_columns df ++ [col])).
    { intros row Hrow. rewrite !length_app, (Hrect _ Hrow). reflexivity. }
    split.
    + apply Forall_forall. intros row' Hrow'.
      apply list_elem_of_fmap in Hrow' as (row1 & -> & Hrow1).
      apply list_elem_of_fmap in Hrow1 as (row & -> & Hrow).
      exact (proj1 (fill_row_cell N col _ _ (Hext _ Hrow) Hin')).
    + intros i row Hi. rewrite !list_lookup_fmap, Hi. eexists. split; [reflexivity|].
      assert (Hrow : row ∈ df_rows df) by (eapply list_elem_of_lookup_2; eassumption).
      intros c. etransitivity.
      { exact (proj2 (fill_row_cell N col _ _ (Hext _ Hrow) Hin') c). }
      unfold key_of. rewrite !(get_cell_ensure _ _ _ _ (Hrect _ Hrow) Hin). reflexivity.
Qed.

(** The loop over [new_map]: a target is filled from the cells the frame
    had before the loop, every other label keeps its cells. *)
Lemma fill_columns_spec (N : dataframe) (targets : list string) (df : dataframe) :
  rectangular df -> str_in KEY_COL targets = false -> NoDup targets ->
  rectangular (foldl (fun df col => fill_column N col df) df targets)
  /\ forall i row, df_rows df !! i = Some row ->
       exists row', df_rows (foldl (fun df col => fill_column N col df) df targets) !! i
                    = Some row'
         /\ forall c,
              get_cell (df_columns (foldl (fun df col => fill_column N col df) df targets)) row' c
              = if str_in c targets
                then merged_cell (get_cell (df_columns df) row c)
                                 (aligned_cell N c (key_of (df_columns df) row))
                else get_cell (df_columns df) row c.
Proof.
  revert df. induction targets as [|col r IH]; intros df Hrect Hkey Hnd.
  - split; [exact Hrect|]. intros i row Hi. exists row. split; [exact Hi | reflexivity].
  - cbn [foldl]. apply NoDup_cons in Hnd as [Hcol Hnd].
    rewrite str_in_cons in Hkey. apply orb_false_elim in Hkey as [Hk Hkey].
    destruct (fill_column_spec N df col Hrect) as [Hrect1 Hstep].
    destruct (IH (fill_column N col df) Hrect1 Hkey Hnd) as [Hrect2 Hrest].
    split; [exact Hrect2|]. intros i row Hi.
    destruct (Hstep i row Hi) as (row1 & Hi1 & Hc1).
    destruct (Hrest i row1 Hi1) as (row2 & Hi2 & Hc2).
    exists row2. split; [exact Hi2|]. intros c. rewrite Hc2.
    assert (Hkeyof : key_of (df_columns (fill_column N col df)) row1
                     = key_of (df_columns df) row).
    { unfold key_of. rewrite Hc1. now rewrite Hk. }
    rewrite str_in_cons.
    destruct (String.eqb c col) eqn:He; cbn [orb].
    + apply String.eqb_eq in He. subst c.
      assert (Hnot : str_in col r = false).
      { destruct (str_in col r) eqn:H; [|reflexivity].
        exfalso. apply Hcol. now apply list_elem_of_In, str_in_In. }
      rewrite Hnot, Hc1, String.eqb_refl. reflexivity.
    + destruct (str_in c r); rewrite !Hc1, ?He, ?Hkeyof; reflexivity.
Qed.

End MergeFacts.

Section MergeTheorem.

Variable py_repr : value -> string.
Variable TARGET_COLS : list string.

Lemma normalized_row (cols : list string) (row : list value) :
  List.length row = List.length cols -> str_in KEY_COL cols = true ->
  let row' := set_cell cols row KEY_COL (normalize_key py_repr (get_cell cols row KEY_COL)) in
  List.length row' = List.length cols
  /\ key_of cols row' = normal_key py_repr cols row
  /\ forall c, String.eqb c KEY_COL = false -> get_cell cols row' c = get_cell cols row c.
Proof.
  intros Hlen Hin row'. unfold row'. split; [now rewrite length_set_cell|]. split.
  - unfold key_of. rewrite (get_set_cell _ _ _ _ _ Hlen Hin), String.eqb_refl. reflexivity.
  - intros c Hc. now rewrite (get_set_cell _ _ _ _ _ Hlen Hin), Hc.
Qed.

Lemma find_ext_in {A : Type} (p q : A -> bool) (l : list A) :
  (forall x, x ∈ l -> p x = q x) -> List.find p l = List.find q l.
Proof.
  induction l as [|a r IH]; intros H; [reflexivity|].
  simpl. rewrite (H a) by left. destruct (q a); [reflexivity|].
  apply IH. intros x Hx. apply H. now right.
Qed.

Lemma find_map {A B : Type} (p : B -> bool) (f : A -> B) (l : list A) :
  List.find p (map f l) = option_map f (List.find (fun x => p (f x)) l).
Proof.
  induction l as [|a r IH]; [reflexivity|]. simpl. now destruct (p (f a)).
Qed.

Lemma find_drop_duplicates (cols : list string) (seen : list string)
    (rows : list (list value)) (k : string) :
  List.find (fun row => String.eqb (key_of cols row) k) (drop_duplicates cols seen rows)
  = if str_in k seen then None
    else List.find (fun row => String.eqb (key_of cols row) k) rows.
Proof.
  revert seen. induction rows as [|row r IH]; intros seen.
  - simpl. now destruct (str_in k seen).
  - cbn [drop_duplicates List.find].
    destruct (str_in (key_of cols row) seen) eqn:Hseen.
    + rewrite IH. destruct (str_in k seen) eqn:Hk; [reflexivity|].
      destruct (String.eqb (key_of cols row) k) eqn:He; [|reflexivity].
      apply String.eqb_eq in He. congruence.
    + cbn [List.find]. destruct (String.eqb (key_of cols row) k) eqn:He.
      * apply String.eqb_eq in He. subst k. now rewrite Hseen.
      * rewrite IH, str_in_cons. rewrite String.eqb_sym in He. rewrite He. reflexivity.
Qed.

(** What the loop aligns with a base row is the cell of the first row of
    the new file that has its key. *)
Lemma aligned_is_matched (new_df : dataframe) (col k : string) :
  rectangular new_df -> str_in KEY_COL (df_columns new_df) = true ->
  String.eqb col KEY_COL = false ->
  aligned_cell
    {| df_columns := df_columns (normalize_keys py_repr new_df);
       df_rows := drop_duplicates (df_columns (normalize_keys py_repr new_df)) []
                                  (df_rows (normalize_keys py_repr new_df)) |} col k
  = matched_cell py_repr new_df col k.
Proof.
  intros Hrect Hin Hcol. unfold aligned_cell, matched_cell, normalize_keys.
  cbn [df_columns df_rows]. rewrite find_drop_duplicates. cbn [str_in existsb].
  rewrite find_map. unfold rectangular in Hrect. rewrite Forall_forall in Hrect.
  rewrite (find_ext_in _ (fun row => String.eqb (normal_key py_repr (df_columns new_df) row) k)).
  - destruct (List.find _ (df_rows new_df)) as [row|] eqn:Hfind; [|reflexivity].
    cbn [option_map]. apply find_some in Hfind as [Hrow _].
    apply list_elem_of_In in Hrow.
    exact (proj2 (proj2 (normalized_row _ _ (Hrect _ Hrow) Hin)) col Hcol).
  - intros row Hrow.
    now rewrite (proj1 (proj2 (normalized_row _ _ (Hrect _ Hrow) Hin))).
Qed.

Lemma str_in_filter (f : string -> bool) (l : list string) (c : string) :
  str_in c (List.filter f l) = str_in c l && f c.
Proof.
  induction l as [|x r IH]; [reflexivity|]. simpl List.filter.
  destruct (f x) eqn:Hx; rewrite !str_in_cons, ?IH.
  - destruct (String.eqb c x) eqn:He; [|reflexivity].
    apply String.eqb_eq in He. subst. now rewrite Hx.
  - destruct (String.eqb c x) eqn:He; [|reflexivity].
    apply String.eqb_eq in He. subst. rewrite Hx. now rewrite andb_false_r.
Qed.

Lemma str_in_dict_keys (seen l : list string) (c : string) :
  str_in c (dict_keys seen l) = str_in c l && negb (str_in c seen).
Proof.
  revert seen. induction l as [|x r IH]; intros seen; [reflexivity|].
  cbn [dict_keys]. destruct (str_in x seen) eqn:Hx; rewrite !str_in_cons, ?IH, ?str_in_cons.
  - destruct (String.eqb c x) eqn:He; [|reflexivity].
    apply String.eqb_eq in He. subst. rewrite Hx. cbn [negb orb]. now rewrite andb_false_r.
  - destruct (String.eqb c x) eqn:He; cbn [orb negb].
    + apply String.eqb_eq in He. subst. now rewrite Hx.
    + reflexivity.
Qed.

Lemma NoDup_dict_keys (seen l : list string) : NoDup (dict_keys seen l).
Proof.
  revert seen. induction l as [|x r IH]; intros seen; [constructor|].
  cbn [dict_keys]. destruct (str_in x seen); [apply IH|].
  apply NoDup_cons. split; [|apply IH].
  intros Hin. apply list_elem_of_In, str_in_In in Hin.
  rewrite str_in_dict_keys, str_in_cons, String.eqb_refl in Hin.
  cbn [orb negb] in Hin. now rewrite andb_false_r in Hin.
Qed.

Lemma key_first_spec (df : dataframe) :
  forall i row, df_rows df !! i = Some row ->
    exists row', df_rows (key_first df) !! i = Some row'
      /\ forall c, get_cell (df_columns (key_first df)) row' c = get_cell (df_columns df) row c.
Proof.
  intros i row Hi. unfold key_first. cbn [df_rows df_columns].
  rewrite list_lookup_fmap, Hi. eexists. split; [reflexivity|].
  intros c. apply get_cell_map. rewrite str_in_cons, str_in_filter.
  intros H. apply orb_false_elim in H as [Hk H]. rewrite Hk in H. cbn [negb] in H.
  rewrite andb_true_r in H. unfold get_cell.
  destruct (col_index (df_columns df) c) as [j|] eqn:Hj; [|reflexivity].
  assert (Hs : is_Some (col_index (df_columns df) c)) by eauto.
  apply col_index_In in Hs. congruence.
Qed.


End MergeTheorem.


(** The merge of the two samples: the blank cell of [f1] is filled, the
    cell of [f2] is kept, the blank new cell for key 3 fills nothing, and
    the row of the new key [f9] is appended. *)
Example merge_new_sample :
  merge_new sample_repr DEFAULT_TARGET_COLS sample_base sample_new
  = Ok {| df_columns := ["source_folder"; "合金成分"; "Ti"];
          df_rows := [[Text "f1"; Text "AlTiCu"; Null];
                      [Text "f2"; Text "Old"; Int 1];
                      [Text "3"; Null; Null];
                      [Text "f9"; Text "X"; Int 8]] |}.
Proof. vm_compute. reflexivity. Qed.

(** The export of the sample for the identifiers 5, 2, 5 and 7. *)
Example export_rows_sample :
  map fst (export_rows sample_table [5; 2; 5; 7]) = [2; 5].
Proof. vm_compute. reflexivity. Qed.

(** ** The INSERT statement *)




(** ** [get_item] *)

(** The head of the statements of [search] and [get_item], whatever text
    follows the list of columns. *)
Lemma lex_select_head (table_cols : list string) (r : string) (R : list token) :
  forallb no_dquote table_cols = true ->
  (forall st t, pending st t -> lex_from st r = t :: R) ->
  lex ("SELECT " +:+ join ", " (select_list table_cols) +:+ r)
  = [TWord W_select; TWord W_rowid; TWord W_as; TWord (W_other "id"); TPunct P_comma;
     name_item_token table_cols; TWord W_as; TWord (W_other "name")]
    ++ name_tokens table_cols ++ R.
Proof.
  intros Hc Hr. unfold lex, select_list.
  cbn [app]. rewrite join_cons. cbn [prefixed]. rewrite !append_assoc.
  rewrite (lex_from_app LIdle "SELECT ").
  change (lex_run LIdle "SELECT ") with ([TWord W_select], LIdle). cbn [fst snd].
  rewrite (lex_from_app LIdle "rowid AS id").
  change (lex_run LIdle "rowid AS id") with ([TWord W_rowid; TWord W_as], LWord "id").
  cbn [fst snd]. rewrite (lex_from_app (LWord "id") ", ").
  change (lex_run (LWord "id") ", ") with ([TWord (W_other "id"); TPunct P_comma], LIdle).
  cbn [fst snd app]. do 5 f_equal.
  unfold name_item_token. destruct (name_column table_cols) as [nc|] eqn:Hn.
  - assert (Hq : no_dquote nc = true)
      by (eapply forallb_In; [exact Hc | now apply name_column_In]).
    rewrite !append_assoc, (lex_from_quoted _ _ Hq).
    rewrite (lex_from_app (LNameQ nc) " AS name"). cbn [fst snd app].
    change (lex_run (LNameQ nc) " AS name") with ([TName nc; TWord W_as], LWord "name").
    cbn [fst snd app]. do 2 f_equal.
    now apply (lex_from_prefixed_names _ _ _ _ _ (pending_word "name") Hc).
  - rewrite (lex_from_app LIdle "'' AS name").
    change (lex_run LIdle "'' AS name") with ([TString EmptyString; TWord W_as], LWord "name").
    cbn [fst snd app]. do 2 f_equal.
    now apply (lex_from_prefixed_names _ _ _ _ _ (pending_word "name") Hc).
Qed.

Lemma parse_item_statement (table_cols : list string) :
  forallb no_dquote table_cols = true ->
  parse (lex ("SELECT " +:+ join ", " (select_list table_cols)
              +:+ " FROM materials WHERE rowid = ?"))
  = Some (S_select (X_rowid :: name_item_expr table_cols :: map X_name table_cols)
                   [A_rowid_eq] false).
Proof.
  intros Hc.
  rewrite (lex_select_head table_cols " FROM materials WHERE rowid = ?"
             [TWord W_from; TWord W_materials; TWord W_where; TWord W_rowid;
              TPunct P_eq; TPunct P_qmark] Hc).
  - cbn [app parse].
    assert (Hitems :
      parse_items (TPunct P_comma :: TWord W_rowid :: TWord W_as :: TWord (W_other "id")
                   :: TPunct P_comma :: name_item_token table_cols :: TWord W_as
                   :: TWord (W_other "name")
                   :: name_tokens table_cols
                      ++ [TWord W_from; TWord W_materials; TWord W_where; TWord W_rowid;
                          TPunct P_eq; TPunct P_qmark])
      = Some (X_rowid :: name_item_expr table_cols :: map X_name table_cols,
              [TWord W_from; TWord W_materials; TWord W_where; TWord W_rowid;
               TPunct P_eq; TPunct P_qmark])).
    { cbn [parse_items]. rewrite parse_items_names.
      unfold name_item_token, name_item_expr.
      destruct (name_column table_cols); reflexivity. }
    rewrite Hitems. reflexivity.
  - intros st t Hst.
    change (" FROM materials WHERE rowid = ?")
      with (String " "%char "FROM materials WHERE rowid = ?").
    rewrite (pending_space _ _ _ Hst). reflexivity.
Qed.







(** ** [search] with several conditions *)









(** ** The keys [id] and [name] of a result *)





(** ** [db_select] *)



(** ** What a handler leaves alone *)

Lemma keeps_file_bind {A B : Type} (p : string) (m : io A) (k : A -> io B) :
  keeps_file p m -> (forall a, keeps_file p (k a)) -> keeps_file p (bind m k).
Proof.
  intros Hm Hk w. unfold bind. specialize (Hm w).
  destruct (m w) as [[a|e] w']; cbn [snd] in *; [rewrite Hk|]; exact Hm.
Qed.

Lemma keeps_file_try {A : Type} (p : string) (m : io A) (h : exn -> io A) :
  keeps_file p m -> (forall e, keeps_file p (h e)) -> keeps_file p (try_except m h).
Proof.
  intros Hm Hh w. unfold try_except. specialize (Hm w).
  destruct (m w) as [[a|e] w']; cbn [snd] in *; [exact Hm|].
  destruct e; cbn [snd]; try (rewrite Hh; exact Hm). exact Hm.
Qed.

Lemma keeps_file_ret {A : Type} (p : string) (a : A) : keeps_file p (ret a).
Proof. intros w. reflexivity. Qed.

Lemma keeps_file_raise {A : Type} (p : string) (e : exn) : keeps_file p (@raise A e).
Proof. intros w. reflexivity. Qed.

Lemma keeps_file_exists (p q : string) : keeps_file p (os_path_exists q).
Proof. intros w. reflexivity. Qed.

Lemma keeps_file_config (p : string) : keeps_file p get_config.
Proof. intros w. reflexivity. Qed.

Lemma keeps_file_get_current (p : string) : keeps_file p get_current.
Proof. intros w. reflexivity. Qed.

Lemma keeps_file_set_current (p q : string) : keeps_file p (set_current q).
Proof. intros w. reflexivity. Qed.

Lemma keeps_file_makedirs (p q : string) : keeps_file p (os_makedirs q).
Proof. intros w. unfold os_makedirs. now destruct (faults w _). Qed.

Lemma keeps_file_read_excel (p q : string) : keeps_file p (read_excel q).
Proof. intros w. unfold read_excel. now destruct (files w !! q) as [[]|]. Qed.

Lemma keeps_file_remove (p q : string) : p <> q -> keeps_file p (os_remove q).
Proof.
  intros Hne w. unfold os_remove. destruct (faults w _); [reflexivity|].
  destruct (files w !! q); [|reflexivity]. cbn [snd files with_files].
  now apply lookup_delete_ne.
Qed.

Lemma keeps_file_write (p q : string) (f : file) : p <> q -> keeps_file p (write_file q f).
Proof.
  intros Hne w. unfold write_file. destruct (faults w _); [reflexivity|].
  cbn [snd files with_files]. now apply lookup_insert_ne.
Qed.

Lemma keeps_file_copy (p src dst : string) : p <> dst -> keeps_file p (shutil_copy src dst).
Proof.
  intros Hne w. unfold shutil_copy. destruct (faults w _); [reflexivity|].
  destruct (files w !! src); [|reflexivity]. cbn [snd files with_files].
  now apply lookup_insert_ne.
Qed.

Lemma keeps_file_execute (p conn sql : string) (ps : list value) :
  p <> conn -> keeps_file p (execute conn sql ps).
Proof.
  intros Hne w. unfold execute. destruct (files w !! conn) as [[db| | |]|]; try reflexivity.
  destruct (run_statement _ _ _ _) as [[rows db']|e]; [|reflexivity].
  cbn [snd files with_files]. now apply lookup_insert_ne.
Qed.

Lemma keeps_file_connect {B : Type} (p q : string) (k : string -> io B) :
  p <> q -> keeps_file p (k q) -> keeps_file p (bind (connect q) k).
Proof.
  intros Hne Hk w. unfold bind, connect. destruct (faults w _); [reflexivity|].
  destruct (files w !! q); [apply Hk|]. rewrite Hk. cbn [files with_files].
  now apply lookup_insert_ne.
Qed.

Lemma keeps_file_insert_all (p conn sql : string) (rows : list (list value)) :
  p <> conn -> keeps_file p (insert_all conn sql rows).
Proof.
  intros Hne. induction rows as [|vals r IH]; [apply keeps_file_ret|].
  cbn [insert_all]. apply keeps_file_bind; [now apply keeps_file_execute | intros _; exact IH].
Qed.

Lemma keeps_file_build (p conn : string) (df : dataframe) :
  p <> conn -> keeps_file p (build_from_sheet conn df).
Proof.
  intros Hne. unfold build_from_sheet.
  apply keeps_file_bind; [now apply keeps_file_execute|].
  intros _. now apply keeps_file_insert_all.
Qed.

Lemma keeps_file_upload_build (p tmp_xlsx tmp_db : string) :
  p <> tmp_db -> keeps_file p (upload_build tmp_xlsx tmp_db).
Proof.
  intros Hne. unfold upload_build. apply keeps_file_try.
  - apply keeps_file_bind; [apply keeps_file_config|]. intros c.
    destruct (negb (pandas c)); [apply keeps_file_ret|].
    apply keeps_file_bind; [apply keeps_file_read_excel|]. intros df.
    apply keeps_file_connect; [exact Hne|].
    apply keeps_file_bind; [now apply keeps_file_build | intros _; apply keeps_file_ret].
  - intros e. apply keeps_file_bind; [|intros _; apply keeps_file_ret].
    apply keeps_file_try; [now apply keeps_file_remove | intros _; apply keeps_file_ret].
Qed.

Lemma keeps_current_bind {A B : Type} (m : io A) (k : A -> io B) :
  keeps_current m -> (forall a, keeps_current (k a)) -> keeps_current (bind m k).
Proof.
  intros Hm Hk w. unfold bind. specialize (Hm w).
  destruct (m w) as [[a|e] w']; cbn [snd] in *; [rewrite Hk|]; exact Hm.
Qed.

Lemma keeps_current_try {A : Type} (m : io A) (h : exn -> io A) :
  keeps_current m -> (forall e, keeps_current (h e)) -> keeps_current (try_except m h).
Proof.
  intros Hm Hh w. unfold try_except. specialize (Hm w).
  destruct (m w) as [[a|e] w']; cbn [snd] in *; [exact Hm|].
  destruct e; cbn [snd]; try (rewrite Hh; exact Hm). exact Hm.
Qed.

Lemma keeps_current_ret {A : Type} (a : A) : keeps_current (ret a).
Proof. intros w. reflexivity. Qed.

Lemma keeps_current_raise {A : Type} (e : exn) : keeps_current (@raise A e).
Proof. intros w. reflexivity. Qed.

Lemma keeps_current_exists (q : string) : keeps_current (os_path_exists q).
Proof. intros w. reflexivity. Qed.

Lemma keeps_current_config : keeps_current get_config.
Proof. intros w. reflexivity. Qed.

Lemma keeps_current_makedirs (q : string) : keeps_current (os_makedirs q).
Proof. intros w. unfold os_makedirs. now destruct (faults w _). Qed.

Lemma keeps_current_read_excel (q : string) : keeps_current (read_excel q).
Proof. intros w. unfold read_excel. now destruct (files w !! q) as [[]|]. Qed.

Lemma keeps_current_remove (q : string) : keeps_current (os_remove q).
Proof.
  intros w. unfold os_remove. destruct (faults w _); [reflexivity|].
  now destruct (files w !! q).
Qed.

Lemma keeps_current_write (q : string) (f : file) : keeps_current (write_file q f).
Proof. intros w. unfold write_file. now destruct (faults w _). Qed.

Lemma keeps_current_connect (q : string) : keeps_current (connect q).
Proof.
  intros w. unfold connect. destruct (faults w _); [reflexivity|].
  now destruct (files w !! q).
Qed.

Lemma keeps_current_execute (conn sql : string) (ps : list value) :
  keeps_current (execute conn sql ps).
Proof.
  intros w. unfold execute. destruct (files w !! conn) as [[db| | |]|]; try reflexivity.
  now destruct (run_statement _ _ _ _) as [[rows db']|e].
Qed.

Lemma keeps_current_insert_all (conn sql : string) (rows : list (list value)) :
  keeps_current (insert_all conn sql rows).
Proof.
  induction rows as [|vals r IH]; [apply keeps_current_ret|].
  cbn [insert_all]. apply keeps_current_bind; [apply keeps_current_execute | intros _; exact IH].
Qed.

Lemma keeps_current_upload_build (tmp_xlsx tmp_db : string) :
  keeps_current (upload_build tmp_xlsx tmp_db).
Proof.
  unfold upload_build. apply keeps_current_try.
  - apply keeps_current_bind; [apply keeps_current_config|]. intros c.
    destruct (negb (pandas c)); [apply keeps_current_ret|].
    apply keeps_current_bind; [apply keeps_current_read_excel|]. intros df.
    apply keeps_current_bind; [apply keeps_current_connect|]. intros conn.
    apply keeps_current_bind; [|intros _; apply keeps_current_ret].
    unfold build_from_sheet.
    apply keeps_current_bind; [apply keeps_current_execute|].
    intros _. apply keeps_current_insert_all.
  - intros e. apply keeps_current_bind; [|intros _; apply keeps_current_ret].
    apply keeps_current_try; [apply keeps_current_remove | intros _; apply keeps_current_ret].
Qed.

(** ** [db_upload] *)

Lemma upload_xlsx_is_not_main (ts : string) : MAIN_DB <> upload_xlsx ts.
Proof. unfold upload_xlsx, MAIN_DB, DB_FILE. simpl. discriminate. Qed.

Lemma upload_db_is_not_main (ts : string) : MAIN_DB <> upload_db ts.
Proof. unfold upload_db, MAIN_DB, DB_FILE. simpl. discriminate. Qed.

Lemma upload_xlsx_is_not_user (ts : string) : USER_DB <> upload_xlsx ts.
Proof. unfold upload_xlsx, USER_DB. simpl. discriminate. Qed.

Lemma upload_build_early (tmp_xlsx tmp_db : string) (w : world) (resp : response) :
  fst (upload_build tmp_xlsx tmp_db w) = Ok (Some resp) -> fst resp = 500.
Proof.
  unfold upload_build, try_except, bind, get_config. cbv beta iota.
  destruct (negb (pandas (cfg w))); [intros [= <-]; reflexivity|].
  destruct (read_excel tmp_xlsx w) as [[df|e] w1].
  - destruct (connect tmp_db w1) as [[conn|e] w2].
    + destruct (build_from_sheet conn df w2) as [[[]|e] w3].
      * discriminate.
      * destruct e; try discriminate;
          destruct (os_remove tmp_db w3) as [[[]|e'] w4]; try destruct e';
          cbn [ret fst]; intros [= <-]; reflexivity.
    + destruct e; try discriminate;
        destruct (os_remove tmp_db w2) as [[[]|e'] w4]; try destruct e';
        cbn [ret fst]; intros [= <-]; reflexivity.
  - destruct e; try discriminate;
      destruct (os_remove tmp_db w1) as [[[]|e'] w4]; try destruct e';
      cbn [ret fst]; intros [= <-]; reflexivity.
Qed.

Lemma upload_replace_outcome (tmp_db : string) (w : world) :
  (fst (upload_replace tmp_db w) = Ok (200, B_ok "user" (Some USER_DB) None)
   /\ CURRENT_DB (snd (upload_replace tmp_db w)) = USER_DB)
  \/ (exists e, fst (upload_replace tmp_db w) = Ok (200, B_ok "temp" (Some tmp_db) (Some e))
                /\ CURRENT_DB (snd (upload_replace tmp_db w)) = tmp_db).
Proof.
  unfold upload_replace, try_except, bind, os_path_exists. cbv beta iota.
  destruct (bool_decide (is_Some (files w !! USER_DB))).
  - destruct (os_remove USER_DB w) as [[[]|e] w1] eqn:Hrm.
    + cbn [ret]. unfold shutil_copy.
      destruct (faults w1 (Op_copy tmp_db USER_DB)); [right; eexists; split; reflexivity|].
      destruct (files w1 !! tmp_db); [left | right; eexists]; split; reflexivity.
    + assert (He : e = OSError).
      { unfold os_remove in Hrm. destruct (faults w _); [congruence|].
        destruct (files w !! USER_DB); congruence. }
      subst e. cbn [ret]. unfold shutil_copy.
      destruct (faults w1 (Op_copy tmp_db USER_DB)); [right; eexists; split; reflexivity|].
      destruct (files w1 !! tmp_db); [left | right; eexists]; split; reflexivity.
  - cbn [ret]. unfold shutil_copy.
    destruct (faults w (Op_copy tmp_db USER_DB)); [right; eexists; split; reflexivity|].
    destruct (files w !! tmp_db); [left | right; eexists]; split; reflexivity.
Qed.

Lemma keeps_file_upload_replace (p tmp_db : string) :
  p <> USER_DB -> keeps_file p (upload_replace tmp_db).
Proof.
  intros Hne. unfold upload_replace. apply keeps_file_try.
  - apply keeps_file_bind; [apply keeps_file_exists|]. intros user_exists.
    apply keeps_file_bind.
    + destruct user_exists; [|apply keeps_file_ret].
      apply keeps_file_try; [now apply keeps_file_remove | intros _; apply keeps_file_ret].
    + intros _. apply keeps_file_bind; [now apply keeps_file_copy|].
      intros _. apply keeps_file_bind; [apply keeps_file_set_current|].
      intros _. apply keeps_file_ret.
  - intros e. apply keeps_file_bind; [apply keeps_file_set_current|].
    intros _. apply keeps_file_ret.
Qed.

(** X6. An upload is contained.  Whatever is uploaded and whatever fails,
    the main database is not changed.  An upload that is answered with an
    error leaves the active database and the user database as they were, and
    one that is rejected with 400 (no file, or a name that ends in neither
    .xlsx nor .xls) changes nothing at all.  An upload that is answered with
    200 has made either the user database or the database just built the
    active one, as the answer says. *)
Theorem db_upload_is_contained (upload : option (string * file)) (ts : string) (w : world) :
  files (snd (db_upload upload ts w)) !! MAIN_DB = files w !! MAIN_DB
  /\ (forall resp, fst (db_upload upload ts w) = Ok resp -> fst resp <> 200 ->
        CURRENT_DB (snd (db_upload upload ts w)) = CURRENT_DB w
        /\ files (snd (db_upload upload ts w)) !! USER_DB = files w !! USER_DB)
  /\ (forall resp, fst (db_upload upload ts w) = Ok resp -> fst resp = 400 ->
        snd (db_upload upload ts w) = w)
  /\ (forall resp, fst (db_upload upload ts w) = Ok resp -> fst resp = 200 ->
        (snd resp = B_ok "user" (Some USER_DB) None
         /\ CURRENT_DB (snd (db_upload upload ts w)) = USER_DB)
        \/ (exists e, snd resp = B_ok "temp" (Some (upload_db ts)) (Some e)
                      /\ CURRENT_DB (snd (db_upload upload ts w)) = upload_db ts)).
Proof.
  split.
  { revert w. change (keeps_file MAIN_DB (db_upload upload ts)).
    unfold db_upload. destruct upload as [[filename content]|]; [|apply keeps_file_ret].
    destruct (negb (allowed_name filename)); [apply keeps_file_ret|].
    apply keeps_file_bind; [apply keeps_file_makedirs|]. intros _.
    apply keeps_file_bind; [apply keeps_file_write, upload_xlsx_is_not_main|]. intros _.
    apply keeps_file_bind; [apply keeps_file_upload_build, upload_db_is_not_main|].
    intros [resp|]; [apply keeps_file_ret|].
    apply keeps_file_upload_replace. discriminate. }
  unfold db_upload. destruct upload as [[filename content]|].
  2:{ cbn [ret fst snd]. split; [|split]; intros resp [= <-]; cbn [fst]; auto; discriminate. }
  destruct (negb (allowed_name filename)).
  { cbn [ret fst snd]. split; [|split]; intros resp [= <-]; cbn [fst]; auto; discriminate. }
  unfold bind, os_makedirs, write_file. cbv beta iota.
  destruct (faults w (Op_mkdir "uploads")); cbv beta iota.
  { cbn [fst snd]. split; [|split]; intros resp; discriminate. }
  destruct (faults w (Op_write (upload_xlsx ts))); cbv beta iota.
  { cbn [fst snd]. split; [|split]; intros resp; discriminate. }
  set (w1 := with_files w (<[upload_xlsx ts := content]> (files w))).
  pose proof (keeps_current_upload_build (upload_xlsx ts) (upload_db ts) w1) as Hcur.
  pose proof (keeps_file_upload_build USER_DB (upload_xlsx ts) (upload_db ts)
                (fun H => upload_db_is_not_user ts (eq_sym H)) w1) as Huser.
  pose proof (upload_build_early (upload_xlsx ts) (upload_db ts) w1) as Hearly.
  destruct (upload_build (upload_xlsx ts) (upload_db ts) w1) as [[[early|]|e] w2];
    cbn [fst snd] in *.
  - specialize (Hearly _ eq_refl). cbn [ret fst snd].
    split; [|split]; intros resp [= <-]; try congruence.
    intros _. split; [exact Hcur|]. rewrite Huser. unfold w1. cbn [files with_files].
    apply lookup_insert_ne. intros H. symmetry in H. now apply upload_xlsx_is_not_user in H.
  - destruct (upload_replace_outcome (upload_db ts) w2) as [[Hr Hc] | (e & Hr & Hc)];
      rewrite Hr; (split; [|split]); intros resp [= <-]; cbn [fst snd]; try congruence.
    + intros _. now left.
    + intros _. right. eauto.
  - split; [|split]; intros resp; discriminate.
Qed.

Lemma db_upload_is_contained_witness :
  snd (db_upload (Some ("notes.txt", F_other)) sample_ts sample_world) = sample_world
  /\ files (snd (db_upload (Some ("new.xlsx", F_other)) sample_ts sample_world)) !! MAIN_DB
     = files sample_world !! MAIN_DB.
Proof.
  split.
  - destruct (db_upload_is_contained (Some ("notes.txt", F_other)) sample_ts sample_world)
      as (_ & _ & H3 & _).
    apply (H3 (400, B_error "仅支持 .xlsx 或 .xls")); reflexivity.
  - exact (proj1 (db_upload_is_contained (Some ("new.xlsx", F_other)) sample_ts
                    sample_world)).
Defined.

(** ** The CREATE TABLE statement *)









(** ** Rows inserted one by one *)










Lemma with_files_twice (w : world) (a b : gmap string file) :
  with_files (with_files w a) b = with_files w b.
Proof. reflexivity. Qed.











(** ** [init_db] *)

(** The start of [init_db]: the old database is removed and an empty one is
    opened in its place. *)
Lemma init_db_start (w : world) :
  faults w (Op_remove DB_FILE) = false -> faults w (Op_open MAIN_DB) = false ->
  exists w1,
    (do db_exists <- os_path_exists DB_FILE;
     run (if db_exists then os_remove DB_FILE else ret tt);
     connect MAIN_DB) w = (Ok MAIN_DB, w1)
    /\ w1 = with_files w (<[MAIN_DB := F_db None]> (files w)).
Proof.
  intros Hrm Hop. unfold bind, os_path_exists. cbv beta iota.
  destruct (files w !! DB_FILE) as [f|] eqn:Hf.
  - rewrite bool_decide_eq_true_2 by eauto. unfold os_remove. rewrite Hrm, Hf.
    unfold connect. cbn [faults files with_files]. rewrite Hop.
    change MAIN_DB with DB_FILE. rewrite lookup_delete_eq.
    eexists. split; [reflexivity|]. rewrite with_files_twice. cbn [files with_files].
    now rewrite insert_delete_eq.
  - rewrite bool_decide_eq_false_2 by (intros [? ?]; discriminate).
    cbn [ret]. unfold connect. rewrite Hop. change MAIN_DB with DB_FILE. rewrite Hf.
    eexists. split; reflexivity.
Qed.

Lemma init_db_unfold (w : world) :
  faults w (Op_remove DB_FILE) = false -> faults w (Op_open MAIN_DB) = false ->
  init_db w
  = (do c <- get_config;
     do xls_exists <- os_path_exists (XLS_FILE c);
     if xls_exists then
       if negb (pandas c) then raise RuntimeError
       else
         do df <- read_excel (XLS_FILE c);
         build_from_sheet MAIN_DB df
     else
       do csv <- read_csv CSV_FILE;
       let fieldnames := fst csv in
       if bool_decide (fieldnames = []) then raise RuntimeError
       else
         run execute MAIN_DB (create_sql_csv fieldnames) [];
         insert_all MAIN_DB (insert_sql fieldnames) (map (csv_values fieldnames) (snd csv)))
    (with_files w (<[MAIN_DB := F_db None]> (files w))).
Proof.
  intros Hrm Hop. destruct (init_db_start w Hrm Hop) as (w1 & Hstart & ->).
  unfold init_db. unfold bind in Hstart |- *. cbv beta iota in Hstart |- *.
  destruct (os_path_exists DB_FILE w) as [[b|e] w0]; [|discriminate].
  destruct ((if b then os_remove DB_FILE else ret tt) w0) as [[[]|e] w0']; [|discriminate].
  now rewrite Hstart.
Qed.



(** X9. [init_db] removes the old database before it reads its source.
    When the source cannot be used (the spreadsheet is there but pandas is
    not; or there is neither spreadsheet nor CSV file; or the CSV file is
    empty) it raises, and what is left as the main database is an empty
    database without the table: the data of the old one is lost.  No other
    file is touched. *)
Theorem init_db_failure_loses_database (w : world) :
  faults w (Op_remove DB_FILE) = false ->
  faults w (Op_open MAIN_DB) = false ->
  XLS_FILE (cfg w) <> MAIN_DB ->
  (is_Some (files w !! XLS_FILE (cfg w)) /\ pandas (cfg w) = false)
  \/ (files w !! XLS_FILE (cfg w) = None
      /\ (files w !! CSV_FILE = None \/ files w !! CSV_FILE = Some (F_csv []))) ->
  exists e w',
    init_db w = (Raise e, w')
    /\ files w' !! MAIN_DB = Some (F_db None)
    /\ forall p, p <> MAIN_DB -> files w' !! p = files w !! p.
Proof.
  intros Hrm Hop Hne Hcase. rewrite (init_db_unfold w Hrm Hop).
  unfold bind, get_config, os_path_exists. cbv beta iota. cbn [cfg files with_files].
  rewrite lookup_insert_ne by congruence.
  assert (Hw : forall e, exists e' w',
             (@Raise unit e, with_files w (<[MAIN_DB := F_db None]> (files w)))
             = (Raise e', w')
             /\ files w' !! MAIN_DB = Some (F_db None)
             /\ forall p, p <> MAIN_DB -> files w' !! p = files w !! p).
  { intros e. eexists _, _. split; [reflexivity|]. cbn [files with_files]. split.
    - apply lookup_insert_eq.
    - intros p Hp. now apply lookup_insert_ne. }
  destruct Hcase as [[Hx Hpd] | [Hx Hcsv]].
  - rewrite bool_decide_eq_true_2 by exact Hx. rewrite Hpd. cbn [negb raise]. apply Hw.
  - rewrite Hx. rewrite bool_decide_eq_false_2 by (intros [? ?]; discriminate).
    unfold read_csv. cbn [files with_files].
    rewrite lookup_insert_ne by discriminate.
    destruct Hcsv as [-> | ->]; [apply Hw|].
    cbn [List.filter fst]. rewrite bool_decide_eq_true_2 by reflexivity.
    cbn [raise]. apply Hw.
Qed.

Lemma init_db_failure_loses_database_witness :
  exists e w',
    init_db sample_world = (Raise e, w')
    /\ files w' !! MAIN_DB = Some (F_db None)
    /\ forall p, p <> MAIN_DB -> files w' !! p = files sample_world !! p.
Proof.
  apply (init_db_failure_loses_database sample_world);
    [reflexivity | reflexivity | discriminate |].
  right. split; [reflexivity | left; reflexivity].
Defined.

(** ** The table of a CSV file *)





Lemma dict_reader_get_nodup (fieldnames line : list string) (j : nat) (f : string) :
  NoDup fieldnames -> fieldnames !! j = Some f ->
  dict_reader_get fieldnames line f = line !! j.
Proof.
  revert line j. induction fieldnames as [|k ks IH]; intros line j Hnd Hj; [discriminate|].
  apply NoDup_cons in Hnd as [Hk Hks]. cbn [dict_reader_get].
  destruct j as [|j]; cbn [lookup list_lookup] in Hj.
  - injection Hj as ->.
    assert (Hin : str_in f ks = false).
    { apply not_true_is_false. intros H. apply Hk. now apply list_elem_of_In, str_in_In. }
    rewrite Hin, String.eqb_refl. now destruct line.
  - assert (Hin : str_in f ks = true).
    { apply str_in_In, list_elem_of_In. eapply list_elem_of_lookup_2. exact Hj. }
    rewrite Hin, (IH (tail line) j Hks Hj). now destruct line.
Qed.

(** X11. The values bound for one line of the CSV file, under a header of
    distinct names: one value per field of the header, the cell at the
    position of the field as text, and NULL for a cell that is empty or that
    a short line does not have; cells beyond the header are dropped. *)
Theorem csv_values_cells (fieldnames line : list string) :
  NoDup fieldnames ->
  List.length (csv_values fieldnames line) = List.length fieldnames
  /\ forall j, (j < List.length fieldnames)%nat ->
               csv_values fieldnames line !! j = Some (csv_cell (line !! j)).
Proof.
  intros Hnd. unfold csv_values. split; [apply length_map|].
  intros j Hj. rewrite list_lookup_fmap.
  destruct (lookup_lt_is_Some_2 _ _ Hj) as [f Hf]. rewrite Hf.
  cbn [fmap option_fmap option_map]. cbv beta.
  rewrite (dict_reader_get_nodup _ _ _ _ Hnd Hf). unfold csv_cell.
  now destruct (line !! j) as [[|c s]|].
Qed.

Lemma csv_values_cells_witness :
  List.length (csv_values ["id"; "name"; "density"] ["7"; ""]) = 3%nat
  /\ forall j, (j < 3)%nat ->
               csv_values ["id"; "name"; "density"] ["7"; ""] !! j
               = Some (csv_cell (["7"; ""] !! j)).
Proof.
  apply (csv_values_cells ["id"; "name"; "density"] ["7"; ""]).
  apply (bool_decide_unpack _). vm_compute. reflexivity.
Defined.

(** ** [update_db_from_csv] *)



(** Where the two part: the second line repeats the key of the first, both
    functions raise, and only [init_db] keeps the row of the first line. *)
Example update_db_loses_rows :
  fst (init_db repeating_csv_world) = Raise IntegrityError
  /\ fst (update_db_from_csv repeating_csv_world) = Raise IntegrityError
  /\ files (snd (init_db repeating_csv_world)) !! MAIN_DB
     = Some (F_db (Some {| tbl_cols := csv_columns ["id"; "name"];
                           tbl_rows := [(1, [Int 1; Text "a"])] |}))
  /\ files (snd (update_db_from_csv repeating_csv_world)) !! MAIN_DB
     = Some (F_db (Some {| tbl_cols := csv_columns ["id"; "name"]; tbl_rows := [] |})).
Proof. repeat split; vm_compute; reflexivity. Qed.

(** ** [db_options] *)

Lemma db_select_granted (key : option string) (w : world) (b : body) :
  fst (db_select key w) = Ok (200, b) ->
  (b = B_ok "main" None None /\ CURRENT_DB (snd (db_select key w)) = MAIN_DB)
  \/ (b = B_ok "user" None None /\ CURRENT_DB (snd (db_select key w)) = USER_DB
      /\ is_Some (files (snd (db_select key w)) !! USER_DB)).
Proof.
  unfold db_select.
  destruct (bool_decide (key = Some "main")).
  { cbn [bind set_current ret fst snd with_current CURRENT_DB]. intros [= <-]. now left. }
  destruct (bool_decide (key = Some "user")); [|discriminate].
  unfold bind, os_path_exists. cbv beta iota.
  destruct (files w !! USER_DB) as [fu|] eqn:Huser.
  - rewrite bool_decide_eq_true_2 by eauto.
    cbn [negb set_current ret fst snd with_current files CURRENT_DB].
    intros [= <-]. right. rewrite Huser. eauto.
  - rewrite bool_decide_eq_false_2 by (intros [? ?]; discriminate). cbn [negb].
    destruct (files w !! MAIN_DB) as [fm|] eqn:Hmainf.
    + rewrite bool_decide_eq_true_2 by eauto. cbn [negb].
      unfold shutil_copy. destruct (faults w (Op_copy MAIN_DB USER_DB)); [discriminate|].
      rewrite Hmainf.
      cbn [set_current ret fst snd with_current with_files files CURRENT_DB].
      intros [= <-]. right. rewrite lookup_insert_eq. eauto.
    + rewrite bool_decide_eq_false_2 by (intros [? ?]; discriminate). discriminate.
Qed.

Lemma upload_replace_cases (tmp_db : string) (w : world) :
  (fst (upload_replace tmp_db w) = Ok (200, B_ok "user" (Some USER_DB) None)
   /\ CURRENT_DB (snd (upload_replace tmp_db w)) = USER_DB
   /\ is_Some (files (snd (upload_replace tmp_db w)) !! USER_DB))
  \/ (exists e, fst (upload_replace tmp_db w) = Ok (200, B_ok "temp" (Some tmp_db) (Some e))
                /\ CURRENT_DB (snd (upload_replace tmp_db w)) = tmp_db).
Proof.
  assert (Hcopy : forall w1 : world,
    (fst (try_except
            (do _ <- shutil_copy tmp_db USER_DB;
             do _ <- set_current USER_DB;
             ret (200, B_ok "user" (Some USER_DB) None))
            (fun e => do _ <- set_current tmp_db;
                      ret (200, B_ok "temp" (Some tmp_db) (Some e))) w1)
     = Ok (200, B_ok "user" (Some USER_DB) None)
     /\ CURRENT_DB (snd (try_except
            (do _ <- shutil_copy tmp_db USER_DB;
             do _ <- set_current USER_DB;
             ret (200, B_ok "user" (Some USER_DB) None))
            (fun e => do _ <- set_current tmp_db;
                      ret (200, B_ok "temp" (Some tmp_db) (Some e))) w1)) = USER_DB
     /\ is_Some (files (snd (try_except
            (do _ <- shutil_copy tmp_db USER_DB;
             do _ <- set_current USER_DB;
             ret (200, B_ok "user" (Some USER_DB) None))
            (fun e => do _ <- set_current tmp_db;
                      ret (200, B_ok "temp" (Some tmp_db) (Some e))) w1)) !! USER_DB))
    \/ (exists e,
         fst (try_except
            (do _ <- shutil_copy tmp_db USER_DB;
             do _ <- set_current USER_DB;
             ret (200, B_ok "user" (Some USER_DB) None))
            (fun e => do _ <- set_current tmp_db;
                      ret (200, B_ok "temp" (Some tmp_db) (Some e))) w1)
         = Ok (200, B_ok "temp" (Some tmp_db) (Some e))
         /\ CURRENT_DB (snd (try_except
            (do _ <- shutil_copy tmp_db USER_DB;
             do _ <- set_current USER_DB;
             ret (200, B_ok "user" (Some USER_DB) None))
            (fun e => do _ <- set_current tmp_db;
                      ret (200, B_ok "temp" (Some tmp_db) (Some e))) w1)) = tmp_db)).
  { intros w1. unfold try_except, bind, shutil_copy. cbv beta iota.
    destruct (faults w1 (Op_copy tmp_db USER_DB)).
    - right. eexists. split; reflexivity.
    - destruct (files w1 !! tmp_db).
      + left. cbn [set_current ret fst snd with_current with_files files CURRENT_DB].
        repeat split. rewrite lookup_insert_eq. eauto.
      + right. eexists. split; reflexivity. }
  unfold upload_replace, try_except, bind, os_path_exists. cbv beta iota.
  unfold try_except, bind in Hcopy. cbv beta iota in Hcopy.
  destruct (bool_decide (is_Some (files w !! USER_DB))).
  - destruct (os_remove USER_DB w) as [[[]|e] w1] eqn:Hrm.
    + cbn [ret]. apply Hcopy.
    + assert (He : e = OSError).
      { unfold os_remove in Hrm. destruct (faults w _); [congruence|].
        destruct (files w !! USER_DB); congruence. }
      subst e. cbn [ret]. apply Hcopy.
  - cbn [ret]. apply Hcopy.
Qed.

Lemma db_upload_granted (upload : option (string * file)) (ts : string) (w : world) (b : body) :
  fst (db_upload upload ts w) = Ok (200, b) ->
  (b = B_ok "user" (Some USER_DB) None
   /\ CURRENT_DB (snd (db_upload upload ts w)) = USER_DB
   /\ is_Some (files (snd (db_upload upload ts w)) !! USER_DB))
  \/ (exists e, b = B_ok "temp" (Some (upload_db ts)) (Some e)
                /\ CURRENT_DB (snd (db_upload upload ts w)) = upload_db ts).
Proof.
  unfold db_upload. destruct upload as [[filename content]|]; [|discriminate].
  destruct (negb (allowed_name filename)); [discriminate|].
  unfold bind, os_makedirs, write_file. cbv beta iota.
  destruct (faults w (Op_mkdir "uploads")); cbv beta iota; [discriminate|].
  destruct (faults w (Op_write (upload_xlsx ts))); cbv beta iota; [discriminate|].
  set (w1 := with_files w (<[upload_xlsx ts := content]> (files w))).
  pose proof (upload_build_early (upload_xlsx ts) (upload_db ts) w1) as Hearly.
  destruct (upload_build (upload_xlsx ts) (upload_db ts) w1) as [[[early|]|e] w2];
    cbn [fst snd] in *.
  - specialize (Hearly _ eq_refl). cbn [ret fst]. intros [= H]. rewrite H in Hearly.
    discriminate.
  - destruct (upload_replace_cases (upload_db ts) w2) as [(Hr & Hc & Hu) | (e & Hr & Hc)];
      rewrite Hr; intros [= <-].
    + left. repeat split; assumption.
    + right. eauto.
  - discriminate.
Qed.

(** X13. [db_options] shows the switch that was granted last: after a
    [db_select] or a [db_upload] answered with 200, its [current] is the
    [current] of that answer (main, user or temp), and when that is the user
    database the option [user] is reported as existing.  It changes
    nothing. *)
Theorem db_options_reports_switch (w : world) :
  (forall key cur p warn,
     fst (db_select key w) = Ok (200, B_ok cur p warn) ->
     exists o_main o_user,
       db_options (snd (db_select key w))
       = (Ok (cur, [o_main; o_user]), snd (db_select key w))
       /\ (cur = "user" -> opt_exists o_user = true))
  /\ (forall upload ts cur p warn,
        fst (db_upload upload ts w) = Ok (200, B_ok cur p warn) ->
        exists o_main o_user,
          db_options (snd (db_upload upload ts w))
          = (Ok (cur, [o_main; o_user]), snd (db_upload upload ts w))
          /\ (cur = "user" -> opt_exists o_user = true)).
Proof.
  assert (Hopt : forall w' : world,
    (CURRENT_DB w' = MAIN_DB ->
     exists o_main o_user, db_options w' = (Ok ("main", [o_main; o_user]), w'))
    /\ (CURRENT_DB w' = USER_DB -> is_Some (files w' !! USER_DB) ->
        exists o_main o_user, db_options w' = (Ok ("user", [o_main; o_user]), w')
                              /\ opt_exists o_user = true)
    /\ (forall ts, CURRENT_DB w' = upload_db ts ->
        exists o_main o_user, db_options w' = (Ok ("temp", [o_main; o_user]), w'))).
  { intros w'. unfold db_options, bind, os_path_exists, get_current. cbv beta iota.
    split; [|split].
    - intros ->. eexists _, _. reflexivity.
    - intros -> Hu. eexists _, _. split; [reflexivity|]. cbn [opt_exists].
      now apply bool_decide_eq_true_2.
    - intros ts ->. eexists _, _. reflexivity. }
  split.
  - intros key cur p warn Hr.
    destruct (db_select_granted _ _ _ Hr) as [[[= -> -> ->] Hc] | ([= -> -> ->] & Hc & Hu)].
    + destruct (proj1 (Hopt _) Hc) as (om & ou & Ho).
      exists om, ou. split; [exact Ho | discriminate].
    + destruct (proj1 (proj2 (Hopt _)) Hc Hu) as (om & ou & Ho & He).
      exists om, ou. split; [exact Ho | intros _; exact He].
  - intros upload ts cur p warn Hr.
    destruct (db_upload_granted _ _ _ _ Hr)
      as [([= -> -> ->] & Hc & Hu) | (e & [= -> -> ->] & Hc)].
    + destruct (proj1 (proj2 (Hopt _)) Hc Hu) as (om & ou & Ho & He).
      exists om, ou. split; [exact Ho | intros _; exact He].
    + destruct (proj2 (proj2 (Hopt _)) ts Hc) as (om & ou & Ho).
      exists om, ou. split; [exact Ho | discriminate].
Qed.

Lemma db_options_reports_switch_witness :
  exists o_main o_user,
    db_options (snd (db_select (Some "user") sample_world))
    = (Ok ("user", [o_main; o_user]), snd (db_select (Some "user") sample_world))
    /\ ("user" = "user" -> opt_exists o_user = true).
Proof.
  apply (proj1 (db_options_reports_switch sample_world) (Some "user") "user" None None).
  vm_compute. reflexivity.
Defined.

(** ** A database file that is missing *)

(** X14. When the file of the active database is missing, opening it
    creates it, as an empty database without the table.  [stats] then
    answers null and [properties] answers with no property, [search] and
    [get_item] raise the engine's error; each leaves the empty file behind.
    So after any of them a request to select the user database no longer
    finds the main database missing: it copies the empty file. *)
Theorem missing_database_is_created (w : world) :
  files w !! CURRENT_DB w = None ->
  faults w (Op_open (CURRENT_DB w)) = false ->
  let w' := with_files w (<[CURRENT_DB w := F_db None]> (files w)) in
  stats w = (Ok Null, w')
  /\ properties w = (Ok ∅, w')
  /\ search [] w = (Raise OperationalError, w')
  /\ (forall item_id, get_item item_id w = (Raise OperationalError, w'))
  /\ (CURRENT_DB w = MAIN_DB -> files w !! USER_DB = None ->
      faults w (Op_copy MAIN_DB USER_DB) = false ->
      fst (db_select (Some "user") w) = Ok (500, B_error "main db missing")
      /\ fst (db_select (Some "user") w') = Ok (200, B_ok "user" None None)
      /\ files (snd (db_select (Some "user") w')) !! USER_DB = Some (F_db None)).
Proof.
  intros Hf Hop w'.
  assert (Hw' : files w' !! CURRENT_DB w = Some (F_db None))
    by (cbn [w' files with_files]; apply lookup_insert_eq).
  assert (Hsame : with_files w' (<[CURRENT_DB w := F_db None]> (files w')) = w').
  { apply with_files_same. exact Hw'. }
  split; [|split; [|split; [|split]]].
  - unfold stats, bind, try_except, get_current. cbv beta iota.
    unfold connect. rewrite Hop, Hf. fold w'.
    unfold execute. rewrite Hw', run_count. reflexivity.
  - unfold properties, bind, get_current. cbv beta iota.
    unfold connect. rewrite Hop, Hf. fold w'.
    unfold table_info. rewrite Hw'. reflexivity.
  - unfold search, bind, get_current. cbv beta iota.
    unfold connect. rewrite Hop, Hf. fold w'.
    unfold table_info. rewrite Hw'. cbv beta iota. cbn [add_conditions].
    unfold execute. rewrite Hw'. reflexivity.
  - intros item_id. unfold get_item, bind, get_current. cbv beta iota.
    unfold connect. rewrite Hop, Hf. fold w'.
    unfold table_info. rewrite Hw'. cbv beta iota.
    unfold execute. rewrite Hw'. unfold run_statement.
    rewrite (parse_item_statement [] eq_refl).
    cbn [statement_arity map atom_arity list_sum foldr Nat.add].
    now destruct (max_variables (sqlite (cfg w')) <? 1)%nat.
  - intros Hcur Huser Hcp. rewrite Hcur in Hf.
    unfold db_select.
    rewrite (bool_decide_eq_false_2 (Some "user" = Some "main")) by discriminate.
    rewrite (bool_decide_eq_true_2 (Some "user" = Some "user")) by reflexivity.
    unfold bind, os_path_exists. cbv beta iota.
    assert (Hu' : files w' !! USER_DB = None).
    { cbn [w' files with_files]. rewrite lookup_insert_ne; [exact Huser|].
      rewrite Hcur. discriminate. }
    assert (Hm' : files w' !! MAIN_DB = Some (F_db None)) by (now rewrite <- Hcur).
    rewrite Huser, Hu'.
    rewrite !(bool_decide_eq_false_2 (is_Some None)) by (intros [? ?]; discriminate).
    cbn [negb]. cbv beta. rewrite Hf, Hm'.
    rewrite (bool_decide_eq_false_2 (is_Some None)) by (intros [? ?]; discriminate).
    rewrite bool_decide_eq_true_2 by eauto. cbn [negb ret fst].
    split; [reflexivity|]. unfold shutil_copy.
    change (faults w') with (faults w). rewrite Hcp, Hm'.
    cbn [set_current ret fst snd with_current with_files files].
    split; [reflexivity | apply lookup_insert_eq].
Qed.

Lemma missing_database_is_created_witness :
  let w := {| files := ∅; faults := no_faults; CURRENT_DB := MAIN_DB;
              cfg := sample_config |} in
  let w' := with_files w (<[CURRENT_DB w := F_db None]> (files w)) in
  stats w = (Ok Null, w')
  /\ properties w = (Ok ∅, w')
  /\ search [] w = (Raise OperationalError, w')
  /\ (forall item_id, get_item item_id w = (Raise OperationalError, w'))
  /\ (CURRENT_DB w = MAIN_DB -> files w !! USER_DB = None ->
      faults w (Op_copy MAIN_DB USER_DB) = false ->
      fst (db_select (Some "user") w) = Ok (500, B_error "main db missing")
      /\ fst (db_select (Some "user") w') = Ok (200, B_ok "user" None None)
      /\ files (snd (db_select (Some "user") w')) !! USER_DB = Some (F_db None)).
Proof.
  intros w.
  apply (missing_database_is_created w); reflexivity.
Defined.

(** ** Handlers that only query *)







Lemma changes_nothing_raise {A : Type} (e : exn) : changes_nothing (@raise A e).
Proof. intros w. reflexivity. Qed.








(** ** The merge tool: the shape of the merged frame *)

Lemma dict_keys_ext (s1 s2 l : list string) :
  (forall k, str_in k s1 = str_in k s2) -> dict_keys s1 l = dict_keys s2 l.
Proof.
  revert s1 s2. induction l as [|x r IH]; intros s1 s2 H; [reflexivity|].
  cbn [dict_keys]. rewrite (H x). destruct (str_in x s2).
  - now apply IH.
  - f_equal. apply IH. intros k. rewrite !str_in_cons. now rewrite H.
Qed.

Lemma fill_column_length (N : dataframe) (col : string) (df : dataframe) :
  List.length (df_rows (fill_column N col df)) = List.length (df_rows df).
Proof.
  unfold fill_column, ensure_column. destruct (str_in col (df_columns df));
    cbn [df_rows]; now rewrite ?length_map.
Qed.

Lemma fill_columns_length (N : dataframe) (targets : list string) (df : dataframe) :
  List.length (df_rows (foldl (fun df col => fill_column N col df) df targets))
  = List.length (df_rows df).
Proof.
  revert df. induction targets as [|col r IH]; intros df; [reflexivity|].
  cbn [foldl]. now rewrite IH, fill_column_length.
Qed.

Lemma str_in_app (c : string) (a b : list string) :
  str_in c (a ++ b) = str_in c a || str_in c b.
Proof. unfold str_in. apply existsb_app. Qed.

Lemma fill_column_columns (N : dataframe) (col : string) (df : dataframe) (c : string) :
  str_in c (df_columns (fill_column N col df))
  = str_in c (df_columns df) || String.eqb c col.
Proof.
  unfold fill_column, ensure_column. destruct (str_in col (df_columns df)) eqn:Hin;
    cbn [df_columns].
  - destruct (String.eqb_spec c col) as [->|_]; [now rewrite Hin | now rewrite orb_false_r].
  - rewrite str_in_app, str_in_cons. cbn [str_in existsb]. now rewrite orb_false_r.
Qed.

Lemma fill_columns_columns (N : dataframe) (targets : list string) (df : dataframe)
    (c : string) :
  str_in c (df_columns (foldl (fun df col => fill_column N col df) df targets))
  = str_in c (df_columns df) || str_in c targets.
Proof.
  revert df. induction targets as [|col r IH]; intros df.
  - cbn [foldl str_in existsb]. now rewrite orb_false_r.
  - cbn [foldl]. rewrite IH, fill_column_columns, str_in_cons. now rewrite orb_assoc.
Qed.

Lemma key_first_columns (df : dataframe) (c : string) :
  str_in KEY_COL (df_columns df) = true ->
  str_in c (df_columns (key_first df)) = str_in c (df_columns df).
Proof.
  intros Hk. unfold key_first. cbn [df_columns]. rewrite str_in_cons, str_in_filter.
  destruct (String.eqb_spec c KEY_COL) as [->|_]; cbn [orb negb].
  - now rewrite Hk.
  - now rewrite andb_true_r.
Qed.


Section MergeShape.

Variable py_repr : value -> string.
Variable TARGET_COLS : list string.

Lemma normalized_key_cell (cols : list string) (row : list value) :
  List.length row = List.length cols -> str_in KEY_COL cols = true ->
  get_cell cols (set_cell cols row KEY_COL (normalize_key py_repr (get_cell cols row KEY_COL)))
           KEY_COL
  = Text (normal_key py_repr cols row).
Proof.
  intros Hlen Hin. rewrite (get_set_cell _ _ _ _ _ Hlen Hin), String.eqb_refl. reflexivity.
Qed.

(** The rows of the new file that are appended, as rows for its new keys. *)
Lemma new_only_rows (new_df : dataframe) (cols : list string)
    (pre rest : list (list value)) (S seen S' : list string) :
  rectangular new_df -> str_in KEY_COL (df_columns new_df) = true ->
  df_rows new_df = pre ++ rest ->
  (forall k, str_in k seen = str_in k (map (normal_key py_repr (df_columns new_df)) pre)) ->
  (forall k, str_in k S' = str_in k S || str_in k seen) ->
  map (fun row => map (get_cell (df_columns new_df) row) cols)
      (List.filter (fun row => negb (str_in (key_of (df_columns new_df) row) S))
         (drop_duplicates (df_columns new_df) seen
            (map (fun row => set_cell (df_columns new_df) row KEY_COL
                               (normalize_key py_repr
                                  (get_cell (df_columns new_df) row KEY_COL))) rest)))
  = map (appended_row py_repr new_df cols)
        (dict_keys S' (map (normal_key py_repr (df_columns new_df)) rest)).
Proof.
  intros Hrect Hkey. revert pre seen S'.
  induction rest as [|r rest' IH]; intros pre seen S' Hrows Hseen HS'; [reflexivity|].
  assert (Hr : r ∈ df_rows new_df).
  { rewrite Hrows. apply elem_of_app. right. left. }
  unfold rectangular in Hrect. pose proof Hrect as Hall. rewrite Forall_forall in Hall.
  destruct (normalized_row py_repr _ _ (Hall _ Hr) Hkey) as (Hlen & Hk & Hother).
  cbn [map drop_duplicates dict_keys]. rewrite Hk.
  set (k := normal_key py_repr (df_columns new_df) r) in *.
  assert (Hrows' : df_rows new_df = (pre ++ [r]) ++ rest') by (now rewrite <- app_assoc).
  destruct (str_in k seen) eqn:Hks.
  - rewrite HS', Hks, orb_true_r.
    apply (IH (pre ++ [r]) seen S' Hrows'); [|exact HS'].
    intros k'. rewrite map_app, str_in_app. cbn [map]. rewrite str_in_cons.
    cbn [str_in existsb]. rewrite <- Hseen. fold k.
    destruct (String.eqb_spec k' k) as [->|_]; [now rewrite Hks | now rewrite !orb_false_r].
  - assert (Hseen' : forall k', str_in k' (k :: seen)
              = str_in k' (map (normal_key py_repr (df_columns new_df)) (pre ++ [r]))).
    { intros k'. rewrite map_app, str_in_app, str_in_cons. cbn [map]. rewrite str_in_cons.
      cbn [str_in existsb]. rewrite <- Hseen. fold k.
      rewrite orb_false_r. apply orb_comm. }
    cbn [List.filter]. rewrite Hk. fold k. rewrite HS', Hks, orb_false_r.
    destruct (str_in k S) eqn:HkS; cbn [negb].
    + apply (IH (pre ++ [r]) (k :: seen) S' Hrows' Hseen').
      intros k'. rewrite HS', str_in_cons.
      destruct (String.eqb_spec k' k) as [->|_]; [now rewrite HkS | reflexivity].
    + cbn [map]. f_equal.
      * unfold appended_row. apply map_ext. intros c.
        destruct (String.eqb_spec c KEY_COL) as [->|Hc].
        -- now rewrite (normalized_key_cell _ _ (Hall _ Hr) Hkey).
        -- apply String.eqb_neq in Hc. rewrite (Hother c Hc).
           unfold matched_cell. rewrite Hrows.
           assert (Hfind : List.find (fun row => String.eqb
                              (normal_key py_repr (df_columns new_df) row) k)
                                     (pre ++ r :: rest') = Some r).
           { assert (Hpre : str_in k (map (normal_key py_repr (df_columns new_df)) pre)
                            = false) by (now rewrite <- Hseen).
             clear -Hpre. induction pre as [|x p IHp].
             - cbn [app List.find]. unfold k. now rewrite String.eqb_refl.
             - cbn [map] in Hpre. rewrite str_in_cons in Hpre.
               apply orb_false_elim in Hpre as [Hx Hp].
               cbn [app List.find]. rewrite String.eqb_sym, Hx. now apply IHp. }
           now rewrite Hfind.
      * apply (IH (pre ++ [r]) (k :: seen) (k :: S') Hrows' Hseen').
        intros k'. rewrite !str_in_cons, HS'.
        now destruct (String.eqb k' k), (str_in k' S).
Qed.

Lemma merge_new_shape (base_df new_df : dataframe) :
  rectangular base_df -> rectangular new_df ->
  str_in KEY_COL (df_columns base_df) = true ->
  str_in KEY_COL (df_columns new_df) = true ->
  str_in KEY_COL TARGET_COLS = false ->
  exists cols rows1,
    merge_new py_repr TARGET_COLS base_df new_df
    = Ok {| df_columns := cols;
            df_rows := rows1 ++ map (appended_row py_repr new_df cols)
                                    (new_only_keys py_repr base_df new_df) |}
    /\ List.length rows1 = List.length (df_rows base_df)
    /\ (forall c, str_in c cols
                  = str_in c (df_columns base_df)
                    || (str_in c TARGET_COLS && str_in c (df_columns new_df)))
    /\ forall i row, df_rows base_df !! i = Some row ->
         exists row1, rows1 !! i = Some row1
           /\ forall c, get_cell cols row1 c
                        = merged_base_cell py_repr TARGET_COLS base_df new_df row c.
Proof.
  intros Hb Hn Hkb Hkn Hkt.
  unfold merge_new. rewrite Hkn, Hkb. cbn [negb].
  set (B0 := normalize_keys py_repr base_df).
  set (N := {| df_columns := df_columns (normalize_keys py_repr new_df);
               df_rows := drop_duplicates (df_columns (normalize_keys py_repr new_df)) []
                                          (df_rows (normalize_keys py_repr new_df)) |}).
  set (new_map := dict_keys [] (List.filter (fun col => str_in col (df_columns N)) TARGET_COLS)).
  assert (Hmap : forall c, str_in c new_map
                           = str_in c TARGET_COLS && str_in c (df_columns new_df)).
  { intros c. unfold new_map. rewrite str_in_dict_keys, str_in_filter.
    cbn [str_in existsb negb]. now rewrite andb_true_r. }
  assert (Hkm : str_in KEY_COL new_map = false) by (now rewrite Hmap, Hkt).
  rewrite Hkm.
  pose proof Hb as Hball. unfold rectangular in Hball. rewrite Forall_forall in Hball.
  assert (HrectB0 : rectangular B0).
  { apply Forall_forall. intros row0 H0. unfold B0, normalize_keys in H0.
    cbn [df_rows] in H0. apply list_elem_of_fmap in H0 as (row & -> & Hrow).
    exact (proj1 (normalized_row py_repr _ _ (Hball _ Hrow) Hkb)). }
  assert (HB0 : forall i row, df_rows base_df !! i = Some row ->
                  exists row0, df_rows B0 !! i = Some row0
                    /\ get_cell (df_columns B0) row0 KEY_COL
                       = Text (normal_key py_repr (df_columns base_df) row)
                    /\ key_of (df_columns B0) row0
                       = normal_key py_repr (df_columns base_df) row
                    /\ forall c, String.eqb c KEY_COL = false ->
                                 get_cell (df_columns B0) row0 c
                                 = get_cell (df_columns base_df) row c).
  { intros i row Hi. unfold B0, normalize_keys. cbn [df_rows df_columns].
    rewrite list_lookup_fmap, Hi. eexists. split; [reflexivity|].
    assert (Hrow : row ∈ df_rows base_df) by (eapply list_elem_of_lookup_2; eassumption).
    split; [exact (normalized_key_cell _ _ (Hball _ Hrow) Hkb)|].
    exact (proj2 (normalized_row py_repr _ _ (Hball _ Hrow) Hkb)). }
  destruct (fill_columns_spec N new_map B0 HrectB0 Hkm (NoDup_dict_keys _ _))
    as [_ Hfold].
  pose proof (fill_columns_length N new_map B0) as HlenW.
  pose proof (fill_columns_columns N new_map B0) as HcolW.
  set (W := foldl (fun df col => fill_column N col df) B0 new_map) in *.
  set (B1 := match new_map with [] => B0 | _ :: _ => key_first W end).
  assert (HB1 : forall i row0, df_rows W !! i = Some row0 ->
            exists row1, df_rows B1 !! i = Some row1
              /\ forall c, get_cell (df_columns B1) row1 c = get_cell (df_columns W) row0 c).
  { intros i row0 Hi. unfold B1. destruct new_map as [|x r] eqn:Hnm.
    - exists row0. split; [exact Hi | reflexivity].
    - now apply key_first_spec. }
  assert (HlenB1 : List.length (df_rows B1) = List.length (df_rows base_df)).
  { unfold B1. destruct new_map as [|x r] eqn:Hnm.
    - unfold B0, normalize_keys. cbn [df_rows]. apply length_map.
    - unfold key_first. cbn [df_rows]. rewrite length_map, HlenW.
      unfold B0, normalize_keys. cbn [df_rows]. apply length_map. }
  assert (HcolB1 : forall c, str_in c (df_columns B1)
                    = str_in c (df_columns base_df)
                      || (str_in c TARGET_COLS && str_in c (df_columns new_df))).
  { intros c. rewrite <- Hmap. unfold B1. destruct new_map as [|x r] eqn:Hnm.
    - cbn [str_in existsb]. now rewrite orb_false_r.
    - rewrite key_first_columns; [apply HcolW|].
      rewrite HcolW. unfold B0, normalize_keys. cbn [df_columns]. now rewrite Hkb. }
  assert (Hcells : forall i row, df_rows base_df !! i = Some row ->
            exists row1, df_rows B1 !! i = Some row1
              /\ forall c, get_cell (df_columns B1) row1 c
                           = merged_base_cell py_repr TARGET_COLS base_df new_df row c).
  { intros i row Hi.
    destruct (HB0 i row Hi) as (row0 & Hi0 & Hkc0 & Hkey0 & Hc0).
    destruct (Hfold i row0 Hi0) as (rowW & HiW & HcW).
    destruct (HB1 i rowW HiW) as (row1 & Hi1 & Hc1).
    exists row1. split; [exact Hi1|]. intros c. rewrite Hc1, HcW. unfold merged_base_cell.
    destruct (String.eqb_spec c KEY_COL) as [->|Hck].
    - now rewrite Hkm.
    - apply String.eqb_neq in Hck. rewrite Hmap, (Hc0 _ Hck), Hkey0.
      destruct (str_in c TARGET_COLS && str_in c (df_columns new_df)); [|reflexivity].
      unfold N. now rewrite (aligned_is_matched py_repr _ _ _ Hn Hkn Hck). }
  exists (df_columns B1), (df_rows B1).
  split; [|split; [exact HlenB1 | split; [exact HcolB1 | exact Hcells]]].
  do 2 f_equal. f_equal.
  assert (Hkeys : map (key_of (df_columns B1)) (df_rows B1)
                  = map (normal_key py_repr (df_columns base_df)) (df_rows base_df)).
  { apply list_eq. intros i. rewrite !list_lookup_fmap.
    destruct (df_rows base_df !! i) as [row|] eqn:Hi.
    - destruct (Hcells i row Hi) as (row1 & Hi1 & Hc1). rewrite Hi1. cbn [fmap option_fmap option_map].
      f_equal. unfold key_of. rewrite Hc1. unfold merged_base_cell.
      now rewrite String.eqb_refl.
    - apply lookup_ge_None in Hi. rewrite <- HlenB1 in Hi.
      apply lookup_ge_None in Hi. now rewrite Hi. }
  rewrite Hkeys. unfold N, normalize_keys. cbn [df_columns df_rows].
  unfold new_only_keys.
  apply (new_only_rows new_df (df_columns B1) [] (df_rows new_df)
           (map (normal_key py_repr (df_columns base_df)) (df_rows base_df)) []
           (map (normal_key py_repr (df_columns base_df)) (df_rows base_df)) Hn Hkn).
  - reflexivity.
  - reflexivity.
  - intros k. cbn [str_in existsb]. now rewrite orb_false_r.
Qed.

End MergeShape.




(** X17. What the merge leaves alone.  No row of the base is dropped or
    moved and no label of the base is lost.  In a row of the base the key is
    replaced by its normalised text (the text of the cell, stripped), and
    every cell under a label that is neither the key nor a target column
    keeps its value; a cell under a target column that the new file does not
    have keeps its value as well. *)
Theorem merge_keeps_other_cells
    (py_repr : value -> string) (TARGET_COLS : list string) (base_df new_df : dataframe) :
  rectangular base_df -> rectangular new_df ->
  str_in KEY_COL (df_columns base_df) = true ->
  str_in KEY_COL (df_columns new_df) = true ->
  str_in KEY_COL TARGET_COLS = false ->
  exists merged,
    merge_new py_repr TARGET_COLS base_df new_df = Ok merged
    /\ (forall c, str_in c (df_columns base_df) = true ->
                  str_in c (df_columns merged) = true)
    /\ forall i row, df_rows base_df !! i = Some row ->
         exists row', df_rows merged !! i = Some row'
           /\ get_cell (df_columns merged) row' KEY_COL
              = Text (strip (astype_str py_repr (get_cell (df_columns base_df) row KEY_COL)))
           /\ forall c, c <> KEY_COL ->
                str_in c TARGET_COLS = false \/ str_in c (df_columns new_df) = false ->
                get_cell (df_columns merged) row' c = get_cell (df_columns base_df) row c.
Proof.
  intros Hb Hn Hkb Hkn Hkt.
  destruct (merge_new_shape py_repr TARGET_COLS base_df new_df Hb Hn Hkb Hkn Hkt)
    as (cols & rows1 & Hm & Hlen & Hcols & Hcells).
  eexists. split; [exact Hm|]. cbn [df_rows df_columns]. split.
  - intros c Hc. now rewrite Hcols, Hc.
  - intros i row Hi. destruct (Hcells i row Hi) as (row1 & Hi1 & Hc1).
    exists row1. split; [now apply lookup_app_l_Some|]. split.
    + rewrite Hc1. unfold merged_base_cell. now rewrite String.eqb_refl.
    + intros c Hck Hc. rewrite Hc1. unfold merged_base_cell.
      apply String.eqb_neq in Hck. rewrite Hck.
      destruct Hc as [-> | ->]; [reflexivity | now rewrite andb_false_r].
Qed.

Lemma merge_keeps_other_cells_witness :
  exists merged,
    merge_new sample_repr DEFAULT_TARGET_COLS sample_base sample_new = Ok merged
    /\ (forall c, str_in c (df_columns sample_base) = true ->
                  str_in c (df_columns merged) = true)
    /\ forall i row, df_rows sample_base !! i = Some row ->
         exists row', df_rows merged !! i = Some row'
           /\ get_cell (df_columns merged) row' KEY_COL
              = Text (strip (astype_str sample_repr
                               (get_cell (df_columns sample_base) row KEY_COL)))
           /\ forall c, c <> KEY_COL ->
                str_in c DEFAULT_TARGET_COLS = false
                \/ str_in c (df_columns sample_new) = false ->
                get_cell (df_columns merged) row' c = get_cell (df_columns sample_base) row c.
Proof.
  apply (merge_keeps_other_cells sample_repr DEFAULT_TARGET_COLS sample_base sample_new);
    [repeat constructor | repeat constructor | reflexivity | reflexivity | reflexivity].
Defined.

(** ** [add_new_columns] *)









(** ** [_is_element_col] *)

Lemma upper_char_lower_char (c : ascii) : upper_char (lower_char c) = upper_char c.
Proof. destruct c as [[] [] [] [] [] [] [] []]; reflexivity. Qed.

Lemma upper_char_idem (c : ascii) : upper_char (upper_char c) = upper_char c.
Proof. destruct c as [[] [] [] [] [] [] [] []]; reflexivity. Qed.

Lemma upper_lower (s : string) : upper (lower s) = upper s.
Proof.
  induction s as [|c r IH]; [reflexivity|].
  cbn [lower upper]. now rewrite upper_char_lower_char, IH.
Qed.

Lemma upper_capitalize (s : string) : upper (capitalize s) = upper s.
Proof.
  destruct s as [|c r]; [reflexivity|].
  cbn [capitalize upper]. now rewrite upper_char_idem, upper_lower.
Qed.

Lemma str_in_map_upper (s : string) (l : list string) :
  str_in s l = true -> str_in (upper s) (map upper l) = true.
Proof.
  intros H. apply str_in_In in H. apply str_in_In. now apply in_map.
Qed.

(** X19. Whether a label names a chemical element does not depend on the
    case of its letters nor on blanks around it: for a label that is ASCII
    once stripped, [_is_element_col] holds exactly when the label, stripped
    and in upper case, is the upper case of one of the 118 symbols.  So the
    first test of the function (the capitalised label is a symbol) accepts
    nothing that the second does not accept. *)
Theorem is_element_col_ignores_case (name : string) :
  is_ascii (strip name) = true ->
  _is_element_col name = Some (str_in (upper (strip name)) (map upper _ELEMENTS))
  /\ (forall other, is_ascii (strip other) = true ->
                    upper (strip other) = upper (strip name) ->
                    _is_element_col other = _is_element_col name).
Proof.
  assert (H : forall n, is_ascii (strip n) = true ->
            _is_element_col n = Some (str_in (upper (strip n)) (map upper _ELEMENTS))).
  { intros n Ha. unfold _is_element_col. cbv zeta.
    destruct (String.eqb_spec (strip n) EmptyString) as [He|_].
    - rewrite He. reflexivity.
    - rewrite Ha. cbn [negb].
      destruct (str_in (capitalize (strip n)) _ELEMENTS) eqn:Hc.
      + apply str_in_map_upper in Hc. rewrite upper_capitalize in Hc. now rewrite Hc.
      + now destruct (str_in (upper (strip n)) (map upper _ELEMENTS)). }
  intros Ha. split; [now apply H|].
  intros other Ho Hu. rewrite (H _ Ho), (H _ Ha). now rewrite Hu.
Qed.

Lemma is_element_col_ignores_case_witness :
  _is_element_col " tI " = Some (str_in (upper (strip " tI ")) (map upper _ELEMENTS))
  /\ (forall other, is_ascii (strip other) = true ->
                    upper (strip other) = upper (strip " tI ") ->
                    _is_element_col other = _is_element_col " tI ").
Proof. apply (is_element_col_ignores_case " tI "). reflexivity. Defined.

(** ** [main] of the merge tool *)





(** The base frame that [read_base_df] returns has the key column. *)
Lemma read_base_df_key (w : world) (df : dataframe) :
  fst (read_base_df w) = Ok df -> str_in KEY_COL (df_columns df) = true.
Proof.
  unfold read_base_df, bind, os_path_exists. cbv beta iota.
  assert (H : forall r : result dataframe * world,
            fst (let (r0, w') := r in
                 match r0 with
                 | Ok a => (if negb (str_in KEY_COL (df_columns a)) then raise KeyError
                            else ret a) w'
                 | Raise e => (Raise e, w')
                 end) = Ok df -> str_in KEY_COL (df_columns df) = true).
  { intros [[a|e] w1]; [|discriminate].
    destruct (str_in KEY_COL (df_columns a)) eqn:Hk; cbn [negb raise ret fst];
      [intros [= <-]; exact Hk | discriminate]. }
  destruct (bool_decide (is_Some (files w !! BASE_XLSX))); [apply H|].
  destruct (bool_decide (is_Some (files w !! BASE_XLS))); [apply H | discriminate].
Qed.




(** ** The rows of a CSV file *)














(** ** [stats] and [search] together *)



(** ** A property that is no column *)

Lemma filter_constant {A : Type} (b : bool) (l : list A) :
  List.filter (fun _ => b) l = if b then l else [].
Proof.
  destruct b; induction l as [|x r IH]; simpl; [reflexivity | | reflexivity | exact IH].
  now rewrite IH.
Qed.

Lemma run_unknown_property (eng : engine) (t : table) (p : string) (lo hi : value) :
  wf_table t -> no_dquote p = true -> find_col (col_names t) p = None ->
  fits_int64 lo = true -> fits_int64 hi = true ->
  (2 <= max_variables eng)%nat ->
  run_statement eng (Some t) (search_sql (col_names t) [p]) [lo; hi]
  = if dqs eng
    then Ok (map (result_row t)
                 (if is_true (sql_between (Some (text_to_real p)) lo hi)
                  then tbl_rows t else []), Some t)
    else Raise OperationalError.
Proof.
  intros Hwf Hq Hfind Hlo Hhi Hmax. unfold run_statement.
  rewrite (lex_search_sql _ [p] (wf_names _ Hwf)) by (cbn [forallb]; now rewrite Hq).
  rewrite parse_search_tokens.
  cbn [statement_arity map atom_arity list_sum foldr Nat.add].
  destruct (Nat.ltb_spec (max_variables eng) 2) as [Hlt|_]; [lia|].
  rewrite (resolve_items _ _ Hwf). cbn [rbind].
  cbn [resolve_atoms resolve_atom atom_arity rbind take drop].
  unfold resolve_name. rewrite Hfind. destruct (dqs eng) eqn:Hd; [|reflexivity].
  cbn [rbind resolve_atoms nth List.length Nat.eqb negb forallb].
  rewrite Hlo, Hhi. cbn [andb negb].
  unfold exec_select. rewrite (resolve_items _ _ Hwf). cbn [rbind].
  cbn [resolve_atoms resolve_atom atom_arity rbind take drop].
  unfold resolve_name. rewrite Hfind, Hd.
  cbn [rbind resolve_atoms nth cast_real].
  do 2 f_equal.
  match goal with
  | |- map _ (List.filter ?f ?l) = _ =>
      assert (Hfilter :
        List.filter f l
        = if is_true (sql_between (Some (text_to_real p)) lo hi) then l else [])
  end.
  { rewrite <- filter_constant. apply filter_ext. intros row. rewrite holds_spec.
    cbn [forallb is_true andb]. now rewrite andb_true_r. }
  rewrite Hfilter.
  pose proof (wf_width _ Hwf) as Hw. rewrite Forall_forall in Hw.
  apply map_ext_in. intros [rid vals] Hrow.
  assert (Hin : (rid, vals) ∈ tbl_rows t).
  { destruct (is_true _); [now apply list_elem_of_In | destruct Hrow]. }
  apply Hw in Hin. unfold result_row. cbn [map fst snd]. f_equal. f_equal.
  apply cells_of_row; [exact (wf_distinct _ Hwf)|].
  simpl in Hin. rewrite Hin. unfold col_names. now rewrite length_map.
Qed.

(** X23. A condition on a property that is no column of the table is no
    error where the engine reads a double-quoted name that it does not know
    as a string: the name itself is cast to a number (its numeric prefix,
    0.0 when it has none) and compared with the bounds, so the search
    returns every row of the table or none, whatever the rows hold.  Where
    the engine does not read it so, the search raises the engine's error. *)
Theorem search_unknown_property (w : world) (t : table) (p : string) (lo hi : value) :
  serves w t -> wf_table t ->
  p <> EmptyString -> no_dquote p = true -> find_col (col_names t) p = None ->
  fits_int64 lo = true -> fits_int64 hi = true ->
  (2 <= max_variables (sqlite (cfg w)))%nat ->
  search [{| c_property := Some p; c_min := lo; c_max := hi |}] w
  = if dqs (sqlite (cfg w))
    then (Ok {| sr_columns := search_columns t;
                sr_data := if is_true (sql_between (Some (text_to_real p)) lo hi)
                           then map (row_dict t) (tbl_rows t) else [] |}, w)
    else (Raise OperationalError, w).
Proof.
  intros [Hf Hop] Hwf Hp Hq Hfind Hlo Hhi Hmax.
  unfold search, bind, get_current. cbv beta iota.
  unfold connect. rewrite Hop, Hf. cbv beta iota.
  unfold table_info. rewrite Hf. cbv beta iota.
  rewrite add_conditions_spec.
  assert (Hact : active [{| c_property := Some p; c_min := lo; c_max := hi |}]
                 = [{| c_property := Some p; c_min := lo; c_max := hi |}]).
  { unfold active. cbn [List.filter c_property falsy]. now destruct p. }
  rewrite Hact. cbn [app map flat_map bounds_of prop_of c_property c_min c_max default].
  change (id p) with p.
  unfold execute. rewrite Hf.
  change (("SELECT " +:+ join ", " (select_list (col_names t))
           +:+ " FROM materials WHERE 1=1") +:+ concat_str [cond_sql p])
    with (search_sql (col_names t) [p]).
  rewrite (run_unknown_property _ _ _ _ _ Hwf Hq Hfind Hlo Hhi Hmax).
  destruct (dqs (sqlite (cfg w))); [|reflexivity].
  rewrite (with_files_same _ _ _ Hf). unfold ret. do 3 f_equal.
  destruct (is_true _); [|reflexivity]. rewrite map_map. reflexivity.
Qed.

Lemma search_unknown_property_witness :
  search [{| c_property := Some "densty"; c_min := Int 0; c_max := Int 10 |}] sample_world
  = if dqs (sqlite (cfg sample_world))
    then (Ok {| sr_columns := search_columns sample_table;
                sr_data := if is_true (sql_between (Some (text_to_real "densty"))
                                                   (Int 0) (Int 10))
                           then map (row_dict sample_table) (tbl_rows sample_table)
                           else [] |}, sample_world)
    else (Raise OperationalError, sample_world).
Proof.
  apply (search_unknown_property sample_world sample_table "densty" (Int 0) (Int 10)
           sample_world_serves sample_table_wf);
    try reflexivity; [discriminate | simpl; lia].
Defined.
